(** * Nested virtual clusters: provisioner, namespace scheduler and patroller

    A shallow embedding of the Go sources

    - [pkg/controller/secret/secret.go] (secret adapter, namespace patroller),
    - [pkg/controller/controllers/provisioner/provisioner_native.go],
    - [experiment/pkg/scheduler/resource/virtualcluster/namespace/controller.go],

    followed by the properties established about them.

    Every call that leaves the process (API server, informer cache, key
    generation, scheduler engine, logger) is an _event_ of a small free monad
    [Prog]; a program is run against an arbitrary environment [handler], and
    the list of events it issued is its trace.  Pure helpers of the repository
    that are not part of the embedded files are fields of type classes. *)

From Stdlib Require Import ZArith Lia.
From stdpp Require Import base option list strings gmap pretty.

Local Open Scope Z_scope.

(* ===================================================================== *)
(** * Go errors and call outcomes *)
(* ===================================================================== *)

(** [metav1.StatusReason], as far as the sources inspect it. *)
Inductive StatusReason : Type :=
| ReasonNotFound
| ReasonAlreadyExists
| ReasonConflict
| ReasonUnknown.

(** A Go [error] value.  [fmt.Errorf] and [errors.New] build errors that carry
    no API status, hence [ReasonUnknown]. *)
Record GoError : Type := MkError { err_reason : StatusReason; err_msg : string }.

Definition Errorf (msg : string) : GoError := MkError ReasonUnknown msg.

Definition IsNotFound (e : GoError) : bool :=
  match err_reason e with ReasonNotFound => true | _ => false end.

Definition IsAlreadyExists (e : GoError) : bool :=
  match err_reason e with ReasonAlreadyExists => true | _ => false end.

Definition IsConflict (e : GoError) : bool :=
  match err_reason e with ReasonConflict => true | _ => false end.

(** The way a Go call ends: a value, a returned error, or a run-time panic
    (nil dereference, index out of range) that unwinds every caller. *)
Inductive Outcome (A : Type) : Type :=
| Done (a : A)
| Raise (e : GoError)
| Panic (why : string).
Arguments Done {A} a.
Arguments Raise {A} e.
Arguments Panic {A} why.

Definition succeeded {A} (o : Outcome A) : bool :=
  match o with Done _ => true | _ => false end.

(* ===================================================================== *)
(** * Programs over external events *)
(* ===================================================================== *)

(** [Vis e k] issues the external call [e] and continues with [k] applied to
    the answer, whose type [resp e] depends on the call. *)
Inductive Prog {Ev : Type} (resp : Ev -> Type) (R : Type) : Type :=
| Ret (r : R)
| Vis (e : Ev) (k : resp e -> Prog resp R).
Arguments Ret {Ev resp R} r.
Arguments Vis {Ev resp R} e k.

Fixpoint bind {Ev} {resp : Ev -> Type} {A B}
    (m : Prog resp A) (f : A -> Prog resp B) : Prog resp B :=
  match m with
  | Ret a => f a
  | Vis e k => Vis e (fun x => bind (k x) f)
  end.

Definition call {Ev} {resp : Ev -> Type} (e : Ev) : Prog resp (resp e) :=
  Vis e Ret.

(** Sequencing that stops at the first error or panic, as
    [if err != nil { return err }] does. *)
Definition bindO {Ev} {resp : Ev -> Type} {A B}
    (m : Prog resp (Outcome A)) (f : A -> Prog resp (Outcome B))
    : Prog resp (Outcome B) :=
  bind m (fun o =>
    match o with
    | Done a => f a
    | Raise e => Ret (Raise e)
    | Panic why => Ret (Panic why)
    end).

Notation "'let*' x ':=' m 'in' k" := (bind m (fun x => k))
  (at level 10, x pattern, m at level 100, k at level 200).
Notation "'try*' x ':=' m 'in' k" := (bindO m (fun x => k))
  (at level 10, x pattern, m at level 100, k at level 200).

(** An environment answers every event and may change its own state [W]. *)
Definition handler {Ev} (resp : Ev -> Type) (W : Type) : Type :=
  forall e : Ev, W -> resp e * W.

(** One answered call. *)
Definition entry {Ev} (resp : Ev -> Type) : Type := { e : Ev & resp e }.

(** Result, final environment state and log of answered calls, in issue
    order. *)
Fixpoint run {Ev} {resp : Ev -> Type} {W R}
    (h : handler resp W) (p : Prog resp R) (w : W)
    : R * W * list (entry resp) :=
  match p with
  | Ret r => (r, w, [])
  | Vis e k =>
      let '(x, w1) := h e w in
      let '(r, w2, l) := run h (k x) w1 in
      (r, w2, existT e x :: l)
  end.

Definition result {Ev} {resp : Ev -> Type} {W R}
    (h : handler resp W) (p : Prog resp R) (w : W) : R := (run h p w).1.1.

Definition final {Ev} {resp : Ev -> Type} {W R}
    (h : handler resp W) (p : Prog resp R) (w : W) : W := (run h p w).1.2.

Definition log {Ev} {resp : Ev -> Type} {W R}
    (h : handler resp W) (p : Prog resp R) (w : W) : list (entry resp) :=
  (run h p w).2.

(** The events alone. *)
Definition trace {Ev} {resp : Ev -> Type} {W R}
    (h : handler resp W) (p : Prog resp R) (w : W) : list Ev :=
  map (fun x : entry resp => projT1 x) (log h p w).

(** A stateless environment: every event has one fixed answer. *)
Definition oracle {Ev} (resp : Ev -> Type) : Type := forall e : Ev, resp e.

Definition ask {Ev} {resp : Ev -> Type} (o : oracle resp) : handler resp unit :=
  fun e w => (o e, w).

(** Every call that a program can issue, whatever the answers, satisfies
    [P]. *)
Inductive every_call {Ev} {resp : Ev -> Type} {R} (P : Ev -> Prop)
    : Prog resp R -> Prop :=
| every_Ret (r : R) : every_call P (Ret r)
| every_Vis (e : Ev) (k : resp e -> Prog resp R) :
    P e -> (forall x, every_call P (k x)) -> every_call P (Vis e k).

(* ===================================================================== *)
(** * Machine integers *)
(* ===================================================================== *)

(** Two's-complement wrap-around of a [w]-bit signed integer. *)
Definition wrap (w : Z) (z : Z) : Z :=
  (z + 2 ^ (w - 1)) mod 2 ^ w - 2 ^ (w - 1).

Definition int32 (z : Z) : Prop := - 2 ^ 31 <= z < 2 ^ 31.

(** [%d] of [fmt.Sprintf]. *)
Definition fmt_d (z : Z) : string := pretty z.

(* ===================================================================== *)
(** * Kubernetes objects, as far as the sources touch them *)
(* ===================================================================== *)

(** [[]byte] and [string] are both rendered as [string]. *)
Abbreviation bytes := string (only parsing).

(** [corev1.SecretType] is a string type; the two values used. *)
Definition SecretTypeOpaque : string := "Opaque".
Definition SecretTypeTLS : string := "kubernetes.io/tls".
Definition TLSCertKey : string := "tls.crt".
Definition TLSPrivateKeyKey : string := "tls.key".

(** [corev1.ServiceType] values. *)
Definition ServiceTypeClusterIP : string := "ClusterIP".
Definition ServiceTypeNodePort : string := "NodePort".

Record Secret : Type := MkSecret {
  srt_kind : string;
  srt_apiVersion : string;
  srt_name : string;
  srt_namespace : string;
  srt_type : string;
  srt_data : gmap string bytes
}.

Record Container : Type := MkContainer { ctr_args : list string }.

Record StatefulSet : Type := MkStatefulSet {
  sts_name : string;
  sts_namespace : string;
  sts_replicas : option Z;            (* Spec.Replicas : *int32 *)
  sts_containers : list Container     (* Spec.Template.Spec.Containers *)
}.

Record Service : Type := MkService {
  svc_name : string;
  svc_namespace : string;
  svc_type : string                   (* Spec.Type *)
}.

(** [tenancyv1alpha1.StatefulSetSvcBundle]; [Service] may be nil. *)
Record StatefulSetSvcBundle : Type := MkBundle {
  bdl_name : string;
  bdl_sts : StatefulSet;
  bdl_svc : option Service
}.

Record ClusterVersion : Type := MkClusterVersion {
  cv_etcd : StatefulSetSvcBundle;
  cv_apiserver : StatefulSetSvcBundle;
  cv_ctrlmgr : StatefulSetSvcBundle
}.

Record VirtualCluster : Type := MkVirtualCluster {
  vc_name : string;
  vc_namespace : string;
  vc_uid : string;
  vc_clusterVersionName : string
}.

Record Namespace : Type := MkNamespace {
  ns_name : string;
  ns_uid : string;
  ns_labels : gmap string string;
  ns_annotations : gmap string string
}.

(** Indexing a Go map: the zero value when the key is absent. *)
Definition at_key (m : gmap string string) (k : string) : string :=
  default "" (m !! k).

(* ===================================================================== *)
(** * Helpers of the repository outside the embedded files *)
(* ===================================================================== *)

(** Key material and its PEM encoders ([pkg/util/pki], [pkg/controller/pki]). *)
Class PkiMaterial : Type := {
  PrivateKey : Type;                       (* rsa.PrivateKey *)
  PublicKey : Type;                        (* rsa.PublicKey *)
  Certificate : Type;                      (* x509.Certificate *)
  PublicKeyOf : PrivateKey -> PublicKey;   (* &rsaKey.PublicKey *)
  EncodePublicKeyPEM : PublicKey -> bytes + GoError;
  EncodePrivateKeyPEM : PrivateKey -> bytes;
  EncodeCertPEM : Certificate -> bytes
}.

(** [vcpki.CrtKeyPair]. *)
Record CrtKeyPair `{PkiMaterial} : Type := MkCrtKeyPair {
  Crt : Certificate;
  Key : PrivateKey
}.

(** [crypto.Signer] as returned by [NewCertificateAuthority]: an RSA key or
    a key of another algorithm. *)
Inductive Signer `{PkiMaterial} : Type :=
| RsaSigner (k : PrivateKey)
| OtherSigner.

(** [vcpki.ClusterCAGroup]. *)
Record ClusterCAGroup `{PkiMaterial} : Type := MkCAGroup {
  RootCA : CrtKeyPair;
  APIServer : CrtKeyPair;
  ETCD : CrtKeyPair;
  FrontProxy : CrtKeyPair;
  CtrlMgrKbCfg : string;
  AdminKbCfg : string;
  ServiceAccountPrivateKey : PrivateKey
}.

(** Naming helpers ([conversion.ToClusterKey], methods of [ClusterVersion]). *)
Class Naming : Type := {
  ToClusterKey : VirtualCluster -> string;
  GetEtcdServers : ClusterVersion -> list string;
  GetEtcdDomain : ClusterVersion -> string;
  GetAPIServerDomain : ClusterVersion -> string -> string
}.

(* ===================================================================== *)
(** * Package [secret] *)
(* ===================================================================== *)

Module secret.
Section WithPki.
Context `{PkiMaterial}.

Definition RootCASecretName : string := "root-ca".
Definition APIServerCASecretName : string := "apiserver-ca".
Definition ETCDCASecretName : string := "etcd-ca".
Definition FrontProxyCASecretName : string := "front-proxy-ca".
Definition ControllerManagerSecretName : string := "controller-manager-kubeconfig".
Definition AdminSecretName : string := "admin-kubeconfig".
Definition ServiceAccountSecretName : string := "serviceaccount-rsa".

(** [corev1.SchemeGroupVersion.String()] of the core group. *)
Definition coreGroupVersion : string := "v1".

(** [RsaKeyToSecret] encapsulates [rsaKey] into a secret object. *)
Definition RsaKeyToSecret (name namespace : string) (rsaKey : PrivateKey)
    : Secret + GoError :=
  match EncodePublicKeyPEM (PublicKeyOf rsaKey) with
  | inr err => inr err
  | inl encodedPubKey =>
      inl {| srt_kind := "Secret";
             srt_apiVersion := coreGroupVersion;
             srt_name := name;
             srt_namespace := namespace;
             srt_type := SecretTypeTLS;
             srt_data :=
               <[TLSPrivateKeyKey := EncodePrivateKeyPEM rsaKey]>
                 (<[TLSCertKey := encodedPubKey]> ∅) |}
  end.

(** [CrtKeyPairToSecret] encapsulates the pair [ckp] into a secret object. *)
Definition CrtKeyPairToSecret (name namespace : string) (ckp : CrtKeyPair)
    : Secret :=
  {| srt_kind := "Secret";
     srt_apiVersion := coreGroupVersion;
     srt_name := name;
     srt_namespace := namespace;
     srt_type := SecretTypeTLS;
     srt_data :=
       <[TLSPrivateKeyKey := EncodePrivateKeyPEM (Key ckp)]>
         (<[TLSCertKey := EncodeCertPEM (Crt ckp)]> ∅) |}.

(** [KubeconfigToSecret] encapsulates [cfgContent] into a secret object. *)
Definition KubeconfigToSecret (name namespace : string) (cfgContent : string)
    : Secret :=
  {| srt_kind := "Secret";
     srt_apiVersion := coreGroupVersion;
     srt_name := name;
     srt_namespace := namespace;
     srt_type := SecretTypeOpaque;
     srt_data := <[name := cfgContent]> ∅ |}.

End WithPki.
End secret.

(* ===================================================================== *)
(** * Package [provisioner] *)
(* ===================================================================== *)

Module provisioner.
Section WithHelpers.
Context `{PkiMaterial} `{Naming}.

Definition DefaultETCDPeerPort : Z := 2380.
Definition ComponentPollPeriodSec : Z := 2.

(** [time.Second], in nanoseconds. *)
Definition Second : Z := 1000000000.

Record Native : Type := MkNative {
  ProvisionerTimeout : Z               (* time.Duration *)
}.

(** ** External calls *)

Inductive Object : Type :=
| ObjSecret (s : Secret)
| ObjStatefulSet (s : StatefulSet)
| ObjService (s : Service).

Inductive Ev : Type :=
(* the embedded [client.Client] *)
| GetClusterVersion (name : string)
| Create (o : Object)
| Update (o : Object)
| Patch (o : Object)
| Delete (o : Object)
(* [kubeutil] *)
| CreateRootNS (vc : VirtualCluster)
| GetSvcClusterIP (namespace name : string)
| WaitStatefulSetReady (namespace name : string) (timeoutSec periodSec : Z)
(* [pkiutil], [vcpki], [kubeconfig] *)
| NewCertificateAuthority (commonName : string) (organization : list string)
| NewEtcdServerCertAndKey (ca : CrtKeyPair) (domains : list string)
| NewFrontProxyClientCertAndKey (ca : CrtKeyPair)
| NewAPIServerCrtAndKey (ca : CrtKeyPair) (vc : VirtualCluster)
    (domain clusterIP : string)
| GenerateKubeconfig (user cluster address : string) (groups : list string)
    (ca : CrtKeyPair)
| NewServiceAccountSigningKey
(* [mpn.Log.Info] *)
| LogInfo (msg : string) (keysAndValues : list string).

(** The Go return types: [error] is [option GoError]; [(T, error)] is a sum
    where the value is dropped on error and a pair where it is not. *)
Definition resp (e : Ev) : Type :=
  match e with
  | GetClusterVersion _ => (ClusterVersion + GoError)%type
  | Create _ | Update _ | Patch _ | Delete _ => option GoError
  | CreateRootNS _ => (string + GoError)%type
  | GetSvcClusterIP _ _ => (string * option GoError)%type
  | WaitStatefulSetReady _ _ _ _ => option GoError
  | NewCertificateAuthority _ _ => (Certificate * Signer + GoError)%type
  | NewEtcdServerCertAndKey _ _ => (CrtKeyPair + GoError)%type
  | NewFrontProxyClientCertAndKey _ => (CrtKeyPair + GoError)%type
  | NewAPIServerCrtAndKey _ _ _ _ => (CrtKeyPair + GoError)%type
  | GenerateKubeconfig _ _ _ _ _ => (string + GoError)%type
  | NewServiceAccountSigningKey => (PrivateKey + GoError)%type
  | LogInfo _ _ => unit
  end.

Abbreviation M := (Prog resp).

(** ** [genInitialClusterArgs] *)

(** [fmt.Sprintf("%s-%d=https://%s-%d.%s:%d", stsName, i, stsName, i,
    svcName, DefaultETCDPeerPort)]. *)
Definition peerAddr (stsName svcName : string) (i : Z) : string :=
  stsName +:+ "-" +:+ fmt_d i +:+ "=https://" +:+ stsName +:+ "-" +:+ fmt_d i
  +:+ "." +:+ svcName +:+ ":" +:+ fmt_d DefaultETCDPeerPort.

(** The [for] loop, started at counter [i] with [argsVal] accumulated so far.
    One unit of fuel is spent per test of the loop condition; [None] means the
    fuel ran out. *)
Fixpoint genInitialClusterArgs_loop (fuel : nat) (replicas : Z)
    (stsName svcName : string) (i : Z) (argsVal : string) : option string :=
  match fuel with
  | O => None
  | S fuel' =>
      if i <? replicas then
        let peer := peerAddr stsName svcName i in
        if i =? wrap 32 (replicas - 1) then Some (argsVal +:+ peer)
        else genInitialClusterArgs_loop fuel' replicas stsName svcName
               (wrap 32 (i + 1)) (argsVal +:+ peer +:+ ",")
      else Some argsVal
  end.

(** [genInitialClusterArgs] generates the value of etcd's [--initial-cluster]
    option from the number of replicas of the etcd StatefulSet. *)
Definition genInitialClusterArgs (replicas : Z) (stsName svcName : string)
    : option string :=
  genInitialClusterArgs_loop (S (Z.to_nat replicas)) replicas stsName svcName
    0 "".

(** ** Template complements *)

Definition set_sts_namespace (vcns : string) (s : StatefulSet) : StatefulSet :=
  {| sts_name := sts_name s; sts_namespace := vcns;
     sts_replicas := sts_replicas s; sts_containers := sts_containers s |}.

Definition set_svc_namespace (vcns : string) (s : Service) : Service :=
  {| svc_name := svc_name s; svc_namespace := vcns; svc_type := svc_type s |}.

(** [Containers[0].Args = args]. *)
Definition set_first_args (args : list string) (s : StatefulSet) : StatefulSet :=
  {| sts_name := sts_name s; sts_namespace := sts_namespace s;
     sts_replicas := sts_replicas s;
     sts_containers :=
       match sts_containers s with
       | [] => []
       | _ :: cs => MkContainer args :: cs
       end |}.

(** [complementETCDTemplate]: the bundle is updated in place; writing through
    a nil [Service], indexing an empty container list and dereferencing a nil
    [Replicas] panic. *)
Definition complementETCDTemplate (vcns : string) (etcdBdl : StatefulSetSvcBundle)
    : Outcome StatefulSetSvcBundle :=
  let sts := set_sts_namespace vcns (bdl_sts etcdBdl) in
  match bdl_svc etcdBdl with
  | None => Panic "nil pointer dereference"
  | Some svc0 =>
      let svc := set_svc_namespace vcns svc0 in
      match sts_containers sts with
      | [] => Panic "index out of range"
      | c :: _ =>
          let args := ctr_args c in
          match sts_replicas sts with
          | None => Panic "nil pointer dereference"
          | Some replicas =>
              match genInitialClusterArgs replicas (sts_name sts) (svc_name svc) with
              | None => Panic "loop fuel exhausted"
              | Some icaVal =>
                  let args := args ++ ["--initial-cluster"; icaVal] in
                  Done {| bdl_name := bdl_name etcdBdl;
                          bdl_sts := set_first_args args sts;
                          bdl_svc := Some svc |}
              end
          end
      end
  end.

(** [complementAPIServerTemplate]. *)
Definition complementAPIServerTemplate (vcns : string)
    (apiserverBdl : StatefulSetSvcBundle) : Outcome StatefulSetSvcBundle :=
  let sts := set_sts_namespace vcns (bdl_sts apiserverBdl) in
  match bdl_svc apiserverBdl with
  | None => Panic "nil pointer dereference"
  | Some svc0 =>
      Done {| bdl_name := bdl_name apiserverBdl;
              bdl_sts := sts;
              bdl_svc := Some (set_svc_namespace vcns svc0) |}
  end.

(** [complementCtrlMgrTemplate]. *)
Definition complementCtrlMgrTemplate (vcns : string)
    (ctrlMgrBdl : StatefulSetSvcBundle) : StatefulSetSvcBundle :=
  {| bdl_name := bdl_name ctrlMgrBdl;
     bdl_sts := set_sts_namespace vcns (bdl_sts ctrlMgrBdl);
     bdl_svc := bdl_svc ctrlMgrBdl |}.

(** ** [deployComponent] *)

(** [deployComponent] deploys a control plane component from the StatefulSet
    and Service bundle [ssBdl]. *)
Definition deployComponent (mpn : Native) (vc : VirtualCluster)
    (ssBdl : StatefulSetSvcBundle) : M (Outcome unit) :=
  let* _ := call (LogInfo "deploying StatefulSet for control plane component"
                    ["component"; bdl_name ssBdl]) in
  let ns := ToClusterKey vc in
  try* ssBdl := Ret (
    if String.eqb (bdl_name ssBdl) "etcd" then complementETCDTemplate ns ssBdl
    else if String.eqb (bdl_name ssBdl) "apiserver" then
      complementAPIServerTemplate ns ssBdl
    else if String.eqb (bdl_name ssBdl) "controller-manager" then
      Done (complementCtrlMgrTemplate ns ssBdl)
    else Raise (Errorf ("try to deploy unknown component: " +:+ bdl_name ssBdl))) in
  let* err := call (Create (ObjStatefulSet (bdl_sts ssBdl))) in
  try* _ :=
    match err with
    | Some e =>
        if negb (IsAlreadyExists e) then Ret (Raise e)
        else
          let* _ := call (LogInfo "statefuleset already exist"
                            ["statefuleset"; sts_name (bdl_sts ssBdl);
                             "namespace"; sts_namespace (bdl_sts ssBdl)]) in
          Ret (Done tt)
    | None => Ret (Done tt)
    end in
  (* skip the apiserver ClusterIP service: CreateVirtualCluster created it *)
  try* _ :=
    match bdl_svc ssBdl with
    | Some svc =>
        if negb (String.eqb (bdl_name ssBdl) "apiserver"
                 && String.eqb (svc_type svc) ServiceTypeClusterIP) then
          let* _ := call (LogInfo "deploying Service for control plane component"
                            ["component"; bdl_name ssBdl]) in
          let* err := call (Create (ObjService svc)) in
          match err with
          | Some e =>
              if negb (IsAlreadyExists e) then Ret (Raise e)
              else
                let* _ := call (LogInfo "service already exist"
                                  ["service"; svc_name svc]) in
                Ret (Done tt)
          | None => Ret (Done tt)
          end
        else Ret (Done tt)
    | None => Ret (Done tt)
    end in
  (* wait for the StatefulSet to be ready *)
  let* err := call (WaitStatefulSetReady ns (bdl_name ssBdl)
                      (wrap 64 (ProvisionerTimeout mpn ÷ Second))
                      ComponentPollPeriodSec) in
  match err with
  | Some e => Ret (Raise e)
  | None => Ret (Done tt)
  end.

(** ** [createPKISecrets] *)

(** The loop [for _, srt := range secrets] that creates every secret on the
    meta cluster. *)
Fixpoint createPKISecrets_loop (secrets : list Secret) : M (Outcome unit) :=
  match secrets with
  | [] => Ret (Done tt)
  | srt :: rest =>
      let* _ := call (LogInfo "creating secret"
                        ["name"; srt_name srt; "namespace"; srt_namespace srt]) in
      let* err := call (Create (ObjSecret srt)) in
      match err with
      | Some e =>
          if negb (IsAlreadyExists e) then Ret (Raise e)
          else
            let* _ := call (LogInfo "Secret already exists"
                              ["secret"; srt_name srt;
                               "namespace"; srt_namespace srt]) in
            createPKISecrets_loop rest
      | None => createPKISecrets_loop rest
      end
  end.

(** [createPKISecrets] creates secrets to store the crt/key pairs and the
    kubeconfigs of the control plane components. *)
Definition createPKISecrets (caGroup : ClusterCAGroup) (namespace : string)
    : M (Outcome unit) :=
  let rootSrt :=
    secret.CrtKeyPairToSecret secret.RootCASecretName namespace (RootCA caGroup) in
  let apiserverSrt :=
    secret.CrtKeyPairToSecret secret.APIServerCASecretName namespace
      (APIServer caGroup) in
  let etcdSrt :=
    secret.CrtKeyPairToSecret secret.ETCDCASecretName namespace (ETCD caGroup) in
  let frontProxySrt :=
    secret.CrtKeyPairToSecret secret.FrontProxyCASecretName namespace
      (FrontProxy caGroup) in
  let ctrlMgrSrt :=
    secret.KubeconfigToSecret secret.ControllerManagerSecretName namespace
      (CtrlMgrKbCfg caGroup) in
  let adminSrt :=
    secret.KubeconfigToSecret secret.AdminSecretName namespace
      (AdminKbCfg caGroup) in
  match secret.RsaKeyToSecret secret.ServiceAccountSecretName namespace
          (ServiceAccountPrivateKey caGroup) with
  | inr err => Ret (Raise err)
  | inl svcActSrt =>
      createPKISecrets_loop
        [rootSrt; apiserverSrt; etcdSrt; frontProxySrt; ctrlMgrSrt; adminSrt;
         svcActSrt]
  end.

(** ** [createPKI] *)

(** Lifting of a [(T, error)] call into the short-circuiting sequence. *)
Definition checked {A} (r : A + GoError) : M (Outcome A) :=
  match r with
  | inl a => Ret (Done a)
  | inr err => Ret (Raise err)
  end.

(** [createPKI] constructs the PKI (all crt/key pairs and kubeconfigs) of the
    virtual cluster and stores it as secrets in the meta cluster. *)
Definition createPKI (vc : VirtualCluster) (cv : ClusterVersion)
    (isClusterIP : bool) : M (Outcome unit) :=
  let ns := ToClusterKey vc in
  (* root ca, shared by all components *)
  let* r := call (NewCertificateAuthority "kubernetes"
                    ["kubernetes-sig.kubernetes-sigs/multi-tenancy.virtualcluster"]) in
  try* (rootCACrt, rootKey) := checked r in
  match rootKey with
  | OtherSigner => Ret (Raise (Errorf "fail to assert rsa PrivateKey"))
  | RsaSigner rootRsaKey =>
      let rootCAPair := {| Crt := rootCACrt; Key := rootRsaKey |} in
      let etcdDomains := GetEtcdServers cv ++ [GetEtcdDomain cv] in
      (* crt, key for etcd *)
      let* r := call (NewEtcdServerCertAndKey rootCAPair etcdDomains) in
      try* etcdCAPair := checked r in
      (* crt, key for the front proxy *)
      let* r := call (NewFrontProxyClientCertAndKey rootCAPair) in
      try* frontProxyCAPair := checked r in
      try* clusterIP :=
        if isClusterIP then
          match bdl_svc (cv_apiserver cv) with
          | None => Ret (Panic "nil pointer dereference")
          | Some svc =>
              let* (clusterIP, err) :=
                call (GetSvcClusterIP (ToClusterKey vc) (svc_name svc)) in
              match err with
              | Some e =>
                  let* _ := call (LogInfo "Warning: failed to get API Service"
                                    ["service"; svc_name svc; "err"; err_msg e]) in
                  Ret (Done clusterIP)
              | None => Ret (Done clusterIP)
              end
          end
        else Ret (Done "") in
      let apiserverDomain := GetAPIServerDomain cv ns in
      let* r := call (NewAPIServerCrtAndKey rootCAPair vc apiserverDomain clusterIP) in
      try* apiserverCAPair := checked r in
      let finalAPIAddress :=
        if negb (String.eqb clusterIP "") then clusterIP else apiserverDomain in
      (* kubeconfig for controller-manager *)
      let* r := call (GenerateKubeconfig "system:kube-controller-manager"
                        (vc_name vc) finalAPIAddress [] rootCAPair) in
      try* ctrlmgrKbCfg := checked r in
      (* kubeconfig for the admin user *)
      let* r := call (GenerateKubeconfig "admin" (vc_name vc) finalAPIAddress
                        ["system:masters"] rootCAPair) in
      try* adminKbCfg := checked r in
      (* rsa key for service-account *)
      let* r := call NewServiceAccountSigningKey in
      try* svcAcctCAPair := checked r in
      let caGroup :=
        {| RootCA := rootCAPair; APIServer := apiserverCAPair;
           ETCD := etcdCAPair; FrontProxy := frontProxyCAPair;
           CtrlMgrKbCfg := ctrlmgrKbCfg; AdminKbCfg := adminKbCfg;
           ServiceAccountPrivateKey := svcAcctCAPair |} in
      (* store ca and kubeconfig into secrets *)
      createPKISecrets caGroup ns
  end.

(** ** [CreateVirtualCluster] *)

Definition set_apiserver (b : StatefulSetSvcBundle) (cv : ClusterVersion)
    : ClusterVersion :=
  {| cv_etcd := cv_etcd cv; cv_apiserver := b; cv_ctrlmgr := cv_ctrlmgr cv |}.

(** [cv.Spec.APIServer.Service != nil &&
     cv.Spec.APIServer.Service.Spec.Type == corev1.ServiceTypeClusterIP]. *)
Definition isClusterIP (cv : ClusterVersion) : bool :=
  match bdl_svc (cv_apiserver cv) with
  | Some svc => String.eqb (svc_type svc) ServiceTypeClusterIP
  | None => false
  end.

(** [CreateVirtualCluster] sets up the control plane for [vc] on the meta
    cluster.  [cv] is a local object filled by [mpn.Get]; the in-place
    complement of its API server bundle is visible to the later steps. *)
Definition CreateVirtualCluster (mpn : Native) (vc : VirtualCluster)
    : M (Outcome unit) :=
  let* r := call (GetClusterVersion (vc_clusterVersionName vc)) in
  match r with
  | inr _ =>
      Ret (Raise (Errorf ("desired ClusterVersion "
                          +:+ vc_clusterVersionName vc +:+ " not found")))
  | inl cv =>
      (* 1. create the root ns *)
      let* r := call (CreateRootNS vc) in
      try* _ := checked r in
      let is_cluster_ip := isClusterIP cv in
      (* if ClusterIP, create the API server service ahead of the PKI *)
      try* cv :=
        if is_cluster_ip then
          let* _ := call (LogInfo "deploying ClusterIP Service for API component"
                            ["component"; bdl_name (cv_apiserver cv)]) in
          try* apiBdl :=
            Ret (complementAPIServerTemplate (ToClusterKey vc) (cv_apiserver cv)) in
          let cv := set_apiserver apiBdl cv in
          match bdl_svc apiBdl with
          | None => Ret (Panic "nil pointer dereference")
          | Some svc =>
              let* err := call (Create (ObjService svc)) in
              match err with
              | Some e =>
                  if negb (IsAlreadyExists e) then Ret (Raise e)
                  else
                    let* _ := call (LogInfo "service already exist"
                                      ["service"; svc_name svc]) in
                    Ret (Done cv)
              | None => Ret (Done cv)
              end
          end
        else Ret (Done cv) in
      (* 2. create PKI *)
      try* _ := createPKI vc cv is_cluster_ip in
      (* 3. deploy etcd *)
      try* _ := deployComponent mpn vc (cv_etcd cv) in
      (* 4. deploy apiserver *)
      try* _ := deployComponent mpn vc (cv_apiserver cv) in
      (* 5. deploy controller-manager *)
      try* _ := deployComponent mpn vc (cv_ctrlmgr cv) in
      Ret (Done tt)
  end.

(** ** Reading traces and logs *)

Definition is_create (e : Ev) : bool :=
  match e with Create _ => true | _ => false end.

(** The client calls that change or remove an object that exists. *)
Definition is_mutation (e : Ev) : bool :=
  match e with Update _ | Patch _ | Delete _ => true | _ => false end.

Definition is_log (e : Ev) : bool :=
  match e with LogInfo _ _ => true | _ => false end.

(** A trace without its log lines. *)
Definition calls (t : list Ev) : list Ev := List.filter (fun e => negb (is_log e)) t.

(** The object and the error of a create that the API server refused. *)
Definition create_error (x : entry resp) : option (Object * GoError) :=
  match x with
  | existT e r =>
      match e as e0 return resp e0 -> option (Object * GoError) with
      | Create o => fun r => match r with Some err => Some (o, err) | None => None end
      | _ => fun _ => None
      end r
  end.

(** The address that a lookup of the service's cluster IP returned. *)
Definition cluster_ip_answer (x : entry resp) : option string :=
  match x with
  | existT e r =>
      match e as e0 return resp e0 -> option string with
      | GetSvcClusterIP _ _ => fun r => Some r.1
      | _ => fun _ => None
      end r
  end.

(** The cluster IP obtained in the course of a run: the answer of the first
    lookup, empty when none was made. *)
Definition obtained_cluster_ip (l : list (entry resp)) : string :=
  default "" (head (omap cluster_ip_answer l)).

(** The kubeconfigs requested in a trace: user, cluster, server address and
    groups. *)
Definition kubeconfig_requests (t : list Ev)
    : list (string * string * string * list string) :=
  omap (fun e =>
          match e with
          | GenerateKubeconfig user cluster address groups _ =>
              Some (user, cluster, address, groups)
          | _ => None
          end) t.

(** An environment that answers like [h] but reports a create of an object
    that already exists as a success. *)
Definition forgive {W} (h : handler resp W) : handler resp W :=
  fun e =>
    match e as e0 return W -> resp e0 * W with
    | Create o => fun w =>
        let r := h (Create o) w in
        (match r.1 with
         | Some err => if IsAlreadyExists err then None else Some err
         | None => None
         end, r.2)
    | e' => h e'
    end.

(** Logging leaves the environment as it is. *)
Definition log_neutral {W} (h : handler resp W) : Prop :=
  forall msg kv w, (h (LogInfo msg kv) w).2 = w.

(** The create-or-skip discipline of a program: after every create, an
    AlreadyExists answer leads, past one log line, to what follows a success,
    and any other error is returned at once; no mutation is ever issued. *)
Inductive skips_existing {A} : M (Outcome A) -> Prop :=
| skips_Ret (o : Outcome A) : skips_existing (Ret o)
| skips_Create (o : Object) (k : option GoError -> M (Outcome A)) :
    (forall err, IsAlreadyExists err = false -> k (Some err) = Ret (Raise err)) ->
    (forall err, IsAlreadyExists err = true ->
       exists msg kv, k (Some err) = Vis (LogInfo msg kv) (fun _ => k None)) ->
    skips_existing (k None) ->
    skips_existing (Vis (Create o) k)
| skips_Vis (e : Ev) (k : resp e -> M (Outcome A)) :
    is_create e = false -> is_mutation e = false ->
    (forall x, skips_existing (k x)) ->
    skips_existing (Vis e k).

End WithHelpers.
End provisioner.

(* ===================================================================== *)
(** * The namespace patroller (package [namespace] of the syncer) *)
(* ===================================================================== *)

(** Annotation keys of [pkg/syncer/constants]. *)
Class Labels : Type := {
  LabelVCName : string;
  LabelVCNamespace : string;
  LabelVCUID : string;
  LabelUID : string;
  LabelVCRootNS : string
}.

(** [pkg/syncer/conversion]: the metadata comparison configured by the syncer
    configuration and the owning VirtualCluster, and the owner annotations. *)
Class Conversion : Type := {
  SyncerConfiguration : Type;
  CheckNamespaceEquality :
    SyncerConfiguration -> VirtualCluster -> Namespace -> Namespace ->
    option Namespace;
  GetVirtualOwner : Namespace -> string * string
}.

Module patrol.
Section WithHelpers.
Context `{Labels} `{Conversion}.

(** [metav1.Preconditions] and the part of [metav1.DeleteOptions] that is
    set. *)
Record Preconditions : Type := MkPreconditions {
  pre_UID : option string;
  pre_ResourceVersion : option string
}.

Record DeleteOptions : Type := MkDeleteOptions {
  opt_Preconditions : option Preconditions
}.

Definition NewUIDPreconditions (uid : string) : Preconditions :=
  {| pre_UID := Some uid; pre_ResourceVersion := None |}.

(** [differ.ClusterObject]. *)
Record ClusterObject : Type := MkClusterObject {
  Object : Namespace;
  OwnerCluster : string;
  ObjKey : string
}.

Inductive Severity : Type := Info | Warning | Error.

Inductive Ev : Type :=
| ListerGet (vcNamespace vcName : string)      (* c.vcLister: informer cache *)
| ClientGet (vcNamespace vcName : string)      (* c.vcClient: API server *)
| NamespacesDelete (name : string) (opts : DeleteOptions)
| RequeueObject (cluster : string) (obj : Namespace)
| GetVirtualClusterObject (cluster : string)
| MetricInc (label : string)                   (* metrics.CheckerRemedyStats *)
| Klog (s : Severity) (msg : string).

Definition resp (e : Ev) : Type :=
  match e with
  | ListerGet _ _ | ClientGet _ _ => (VirtualCluster + GoError)%type
  | NamespacesDelete _ _ => option GoError
  | RequeueObject _ _ => option GoError
  | GetVirtualClusterObject _ => (VirtualCluster + GoError)%type
  | MetricInc _ => unit
  | Klog _ _ => unit
  end.

Abbreviation M := (Prog resp).
Abbreviation call := (@call Ev resp).

Record controller : Type := MkController {
  Config : SyncerConfiguration
}.

(** [shouldBeGarbageCollected] checks whether the owner vc object is deleted;
    if so the namespace should be garbage collected. *)
Definition shouldBeGarbageCollected (ns : Namespace) : M bool :=
  let vcName := at_key (ns_annotations ns) LabelVCName in
  let vcNamespace := at_key (ns_annotations ns) LabelVCNamespace in
  if String.eqb vcName "" || String.eqb vcNamespace "" then Ret false
  else
    let* r := call (ListerGet vcNamespace vcName) in
    match r with
    | inr err =>
        if IsNotFound err then
          (* vc does not exist, double check against the apiserver *)
          let* r2 := call (ClientGet vcNamespace vcName) in
          match r2 with
          | inr apiservererr =>
              if IsNotFound apiservererr then Ret true else Ret false
          | inl _ => Ret false
          end
        else Ret false
    | inl vc =>
        (* vc exists, check the uid *)
        let* found :=
          if negb (String.eqb (at_key (ns_annotations ns) LabelVCUID) (vc_uid vc))
          then
            let* r2 := call (ClientGet vcNamespace vcName) in
            match r2 with
            | inl v =>
                Ret (negb (String.eqb (at_key (ns_annotations ns) LabelVCUID)
                             (vc_uid v)))
            | inr _ => Ret false
            end
          else Ret false in
        if found then Ret true
        else
          let* _ := call (Klog Info ("pNamespace " +:+ ns_name ns
                                     +:+ "'s owner vc exists.")) in
          Ret false
    end.

(** [deleteNamespace]. *)
Definition deleteNamespace (ns : Namespace) : M unit :=
  let deleteOptions :=
    {| opt_Preconditions := Some (NewUIDPreconditions (ns_uid ns)) |} in
  let* err := call (NamespacesDelete (ns_name ns) deleteOptions) in
  match err with
  | Some e =>
      call (Klog Error ("error deleting pNamespace " +:+ ns_name ns
                        +:+ " in super control plane: " +:+ err_msg e))
  | None => call (MetricInc "DeletedOrphanSuperControlPlaneNamespaces")
  end.

(** The three handlers that [PatrollerDo] hands to the set difference. *)

Definition AddFunc (vObj : ClusterObject) : M unit :=
  let* err := call (RequeueObject (OwnerCluster vObj) (Object vObj)) in
  match err with
  | Some e =>
      call (Klog Error ("error requeue vNamespace " +:+ ns_name (Object vObj)
                        +:+ " in cluster " +:+ OwnerCluster vObj +:+ ": "
                        +:+ err_msg e))
  | None => call (MetricInc "RequeuedTenantNamespaces")
  end.

Definition UpdateFunc (c : controller) (vObj pObj : ClusterObject) : M unit :=
  let v := Object vObj in
  let p := Object pObj in
  let* gc := shouldBeGarbageCollected p in
  if gc || negb (String.eqb (at_key (ns_annotations p) LabelUID) (ns_uid v)) then
    deleteNamespace p
  else
    let* r := call (GetVirtualClusterObject (OwnerCluster vObj)) in
    match r with
    | inr _ =>
        call (Klog Error ("fail to get cluster spec : " +:+ OwnerCluster vObj))
    | inl vc =>
        match CheckNamespaceEquality (Config c) vc p v with
        | Some _ =>
            let* _ := call (Klog Warning ("metadata of namespace " +:+ ObjKey pObj
                                          +:+ " diff in super&tenant cluster")) in
            (* d.OnAdd(vObj) *)
            AddFunc vObj
        | None => Ret tt
        end
    end.

Definition DeleteFunc (knownClusterSet : gset string) (pObj : ClusterObject)
    : M unit :=
  let p := Object pObj in
  (* only delete the root ns if vc is gone *)
  if String.eqb (at_key (ns_annotations p) LabelVCRootNS) "true" then
    let* gc := shouldBeGarbageCollected p in
    if gc then deleteNamespace p else Ret tt
  else
    let clusterName := (GetVirtualOwner p).1 in
    (* most possible case: vc is loaded and the tenant ns is missing *)
    if bool_decide (clusterName ∈ knownClusterSet) then deleteNamespace p
    else
      (* vc status is unknown or not loaded: confirm for gc purpose *)
      let* gc := shouldBeGarbageCollected p in
      if gc then deleteNamespace p else Ret tt.

(** The namespace deletions of a trace, in issue order. *)
Definition deletions (t : list Ev) : list (string * DeleteOptions) :=
  omap (fun e =>
          match e with
          | NamespacesDelete name opts => Some (name, opts)
          | _ => None
          end) t.

(** The re-queue requests of a trace, in issue order. *)
Definition requeues (t : list Ev) : list (string * Namespace) :=
  omap (fun e =>
          match e with
          | RequeueObject cluster obj => Some (cluster, obj)
          | _ => None
          end) t.

(** ** Environments *)

(** The two views of the VirtualCluster store: the informer cache behind the
    lister and the authoritative API server behind the client. *)
Record Stores : Type := MkStores {
  cached : string -> string -> VirtualCluster + GoError;
  fresh : string -> string -> VirtualCluster + GoError
}.

(** An environment that answers lookups from [Stores] and lets every other
    call succeed. *)
Definition lookups (s : Stores) : handler resp unit :=
  fun e w =>
    match e return resp e * unit with
    | ListerGet n m => (cached s n m, w)
    | ClientGet n m => (fresh s n m, w)
    | NamespacesDelete _ _ => (None, w)
    | RequeueObject _ _ => (None, w)
    | GetVirtualClusterObject _ => (inr (Errorf "not loaded"), w)
    | MetricInc _ => (tt, w)
    | Klog _ _ => (tt, w)
    end.

(** The super cluster's namespaces, by name, behind an API server that
    honours delete preconditions: a delete whose UID precondition differs from
    the stored object's UID is rejected with a conflict and changes nothing. *)
Definition apiserver_delete (name : string) (opts : DeleteOptions)
    (store : gmap string Namespace) : option GoError * gmap string Namespace :=
  match store !! name with
  | None => (Some (MkError ReasonNotFound "namespace not found"), store)
  | Some stored =>
      match opt_Preconditions opts with
      | Some {| pre_UID := Some uid |} =>
          if String.eqb uid (ns_uid stored) then (None, delete name store)
          else (Some (MkError ReasonConflict "precondition failed: UID"), store)
      | _ => (None, delete name store)
      end
  end.

Definition super_cluster (o : oracle resp) : handler resp (gmap string Namespace) :=
  fun e store =>
    match e return resp e * gmap string Namespace with
    | NamespacesDelete name opts => apiserver_delete name opts store
    | e' => (o e', store)
    end.

End WithHelpers.
End patrol.

(* ===================================================================== *)
(** * The namespace reconciler of the scheduler (package [namespace]) *)
(* ===================================================================== *)

(** [internalcache.Placement] and [internalcache.Namespace], by the arguments
    of their constructors [NewPlacement] and [NewNamespace]. *)
Record Placement : Type := NewPlacement { pl_cluster : string; pl_num : Z }.

(** Helpers of [scheduler/util], [scheduler/cache], [util/constants] and the
    libraries used through them. *)
Class Scheduling : Type := {
  Quantity : Type;                                 (* resource.Quantity *)
  MustParse : string -> Quantity;
  ResourceQuotaList : Type;
  GetMaxQuota : ResourceQuotaList -> gmap string Quantity;
  (* placements, quota slice, error *)
  GetSchedulingInfo :
    Namespace -> gmap string Z * gmap string Quantity + GoError;
  (* number of slices, name of the tight resource *)
  GetLeastFitSliceNum :
    gmap string Quantity -> gmap string Quantity -> Z * string;
  LabelScheduledPlacements : string;
  (* json.Marshal of a map[string]int, which may be nil *)
  MarshalPlacements : option (gmap string Z) -> string
}.

Record CacheNamespace `{Scheduling} : Type := NewNamespace {
  cn_owner : string;
  cn_name : string;
  cn_labels : gmap string string;
  cn_quota : gmap string Quantity;
  cn_quotaSlice : gmap string Quantity;
  cn_schedule : list Placement
}.

(** Method [GetPlacementMap] of [internalcache.Namespace]; a Go map may be
    nil. *)
Class PlacementMaps `{Scheduling} : Type := {
  GetPlacementMap : CacheNamespace -> option (gmap string Z)
}.

Module scheduler.
Section WithHelpers.
Context `{PlacementMaps}.

Definition ResourceCPU : string := "cpu".
Definition ResourceMemory : string := "memory".
Definition EventTypeNormal : string := "Normal".

(** [time.Second], in nanoseconds. *)
Definition Second : Z := 1000000000.

(** [retry.DefaultBackoff.Steps]. *)
Definition DefaultBackoffSteps : nat := 4.

Record Request : Type := MkRequest { ClusterName : string; Name : string }.

Record Result : Type := MkResult { RequeueAfter : Z }.

Record ObjectReference : Type := MkObjectReference {
  ref_Kind : string;
  ref_Name : string;
  ref_Namespace : string;
  ref_UID : string
}.

Inductive Severity : Type := Info | Warning.

Inductive Ev : Type :=
(* the multi-cluster controller *)
| GetOwnerInfo (clusterName : string)
| MCGet (clusterName namespace name : string)
| MCListQuota (clusterName inNamespace : string)
| Eventf (clusterName : string) (ref : ObjectReference)
    (eventtype reason message : string)
| GetClusterClient (clusterName : string)
(* [scheduler.DirtyVirtualClusters.Load] *)
| DirtyLoad (key : string)
(* the scheduler engine *)
| DeScheduleNamespace (key : string)
| EnsureNamespacePlacements (candidate : CacheNamespace)
| ScheduleNamespace (candidate : CacheNamespace)
(* the tenant API server, through the client of [clusterName] *)
| NamespacesUpdate (clusterName : string) (ns : Namespace)
| NamespacesGet (clusterName name : string)
| Klog (s : Severity) (msg : string).

Definition resp (e : Ev) : Type :=
  match e with
  | GetOwnerInfo _ => (string * string * string + GoError)%type
  | MCGet _ _ _ => (Namespace + GoError)%type
  | MCListQuota _ _ => (ResourceQuotaList + GoError)%type
  | Eventf _ _ _ _ _ => option GoError
  | GetClusterClient _ => option GoError
  | DirtyLoad _ => bool
  | DeScheduleNamespace _ => option GoError
  | EnsureNamespacePlacements _ => option GoError
  | ScheduleNamespace _ => (CacheNamespace + GoError)%type
  | NamespacesUpdate _ _ => (Namespace + GoError)%type
  | NamespacesGet _ _ => (Namespace + GoError)%type
  | Klog _ _ => unit
  end.

Abbreviation M := (Prog resp).
Abbreviation call := (@call Ev resp).

Definition set_annotations (a : gmap string string) (n : Namespace) : Namespace :=
  {| ns_name := ns_name n; ns_uid := ns_uid n; ns_labels := ns_labels n;
     ns_annotations := a |}.

(** [retry.RetryOnConflict(retry.DefaultBackoff, fn)]: [fn] is tried at most
    [steps] times, again only after a conflict; the error of the last attempt
    is returned.  The state [S] is what the closure [fn] captures and
    updates. *)
Fixpoint RetryOnConflict {S : Type} (steps : nat)
    (fn : S -> M (option GoError * S)) (s : S) (lastErr : option GoError)
    : M (option GoError) :=
  match steps with
  | O => Ret lastErr
  | Datatypes.S steps' =>
      let* (err, s') := fn s in
      match err with
      | None => Ret None
      | Some e =>
          if IsConflict e then RetryOnConflict steps' fn s' (Some e)
          else Ret (Some e)
      end
  end.

(** One attempt of [updateSchedulingResult] on the working copy [clone]. *)
Definition updateAttempt (clusterName : string)
    (placementMap : option (gmap string Z)) (clone : Namespace)
    : M (option GoError * Namespace) :=
  let clone :=
    match placementMap with
    | None =>
        set_annotations (delete LabelScheduledPlacements (ns_annotations clone))
          clone
    | Some m =>
        set_annotations
          (<[LabelScheduledPlacements := MarshalPlacements (Some m)]>
             (ns_annotations clone)) clone
    end in
  let* r := call (NamespacesUpdate clusterName clone) in
  match r with
  | inl _ => Ret (None, clone)
  | inr updateErr =>
      let* g := call (NamespacesGet clusterName (ns_name clone)) in
      match g with
      | inl got => Ret (Some updateErr, got)
      | inr _ => Ret (Some updateErr, clone)
      end
  end.

(** [updateSchedulingResult]. *)
Definition updateSchedulingResult (clusterName : string) (namespace : Namespace)
    (placementMap : option (gmap string Z)) : M (option GoError) :=
  let* err := call (GetClusterClient clusterName) in
  match err with
  | Some e =>
      Ret (Some (Errorf ("failed to get vc " +:+ clusterName +:+ "'s client: "
                         +:+ err_msg e)))
  | None =>
      let clone := namespace in
      RetryOnConflict DefaultBackoffSteps
        (updateAttempt clusterName placementMap) clone None
  end.

(** [error] to outcome. *)
Definition failing (err : option GoError) (wrapmsg : GoError -> string)
    : M (Outcome unit) :=
  match err with
  | Some e => Ret (Raise (Errorf (wrapmsg e)))
  | None => Ret (Done tt)
  end.

(** [Reconcile], from the computation of [expect] on: the rest of the
    function body once the namespace, its quota and its scheduling info are at
    hand.  [Raise e] stands for the return [reconciler.Result{}, e] and
    [Done r] for [r, nil].  The [range] over the placements map visits its
    entries in an unspecified order; the order of [map_to_list] stands for
    it. *)
Definition Reconcile_schedule (request : Request) (namespace : Namespace)
    (quota : gmap string Quantity) (placements : gmap string Z)
    (quotaSlice : gmap string Quantity) : M (Outcome Result) :=
  let cluster := ClusterName request in
  let name := Name request in
  let expect := (GetLeastFitSliceNum quota quotaSlice).1 in
  if expect =? 0 then
    (* the quota is gone: delete the ns scheduling placements and update the
       scheduler cache *)
    let* err := updateSchedulingResult cluster namespace None in
    try* _ := failing err (fun e =>
                "failed to remove scheduing placements from namespace " +:+ name
                +:+ " in " +:+ cluster +:+ ": " +:+ err_msg e) in
    let* err := call (DeScheduleNamespace (cluster +:+ "/" +:+ name)) in
    try* _ := failing err (fun e =>
                "failed to unreserve namespace " +:+ name +:+ " in "
                +:+ cluster +:+ ": " +:+ err_msg e) in
    Ret (Done {| RequeueAfter := 0 |})
  else
  let numSched :=
    foldr (fun kv acc => wrap 64 (acc + kv.2)) 0 (map_to_list placements) in
  let schedule :=
    map (fun kv : string * Z => NewPlacement kv.1 kv.2) (map_to_list placements) in
  let candidate :=
    NewNamespace _ cluster name (ns_labels namespace) quota quotaSlice schedule in
  (* ensure the cache is consistent with the scheduled placements *)
  if numSched =? expect then
    let* err := call (EnsureNamespacePlacements candidate) in
    try* _ := failing err (fun e =>
                "failed to ensure namespace " +:+ name +:+ "'s placements in "
                +:+ cluster +:+ ": " +:+ err_msg e) in
    Ret (Done {| RequeueAfter := 0 |})
  else
  (* some (or all) slices need to be scheduled/rescheduled *)
  let ref := {| ref_Kind := "Namespace"; ref_Name := ns_name namespace;
                ref_Namespace := ns_name namespace;
                ref_UID := ns_uid namespace |} in
  let* r := call (ScheduleNamespace candidate) in
  match r with
  | inr err =>
      let* _ := call (Eventf cluster ref EventTypeNormal "Failed"
                        ("Failed to schedule namespace " +:+ name +:+ ": "
                         +:+ err_msg err)) in
      Ret (Raise (Errorf ("failed to schedule namespace " +:+ name +:+ " in "
                          +:+ cluster +:+ ": " +:+ err_msg err)))
  | inl ret =>
      (* update the virtualcluster namespace with the scheduling result *)
      let placementMap := GetPlacementMap ret in
      let* err := updateSchedulingResult cluster namespace placementMap in
      match err with
      | Some e => Ret (Raise e)
      | None =>
          let updatedPlacement := MarshalPlacements placementMap in
          let* _ := call (Klog Info ("Successfully schedule namespace "
                                     +:+ cluster +:+ "/" +:+ name
                                     +:+ " with placement " +:+ updatedPlacement)) in
          let* err := call (Eventf cluster ref EventTypeNormal "Scheduled"
                              ("Successfully schedule namespace " +:+ name
                               +:+ " with placement " +:+ updatedPlacement)) in
          match err with
          | Some e => Ret (Raise e)
          | None => Ret (Done {| RequeueAfter := 0 |})
          end
      end
  end.

(** [Reconcile]: the owner is looked up, the reconcile is put off while the
    virtual cluster is dirty, and the namespace, its quota and its scheduling
    info are fetched; [Reconcile_schedule] is the rest of the body. *)
Definition Reconcile (request : Request) : M (Outcome Result) :=
  let cluster := ClusterName request in
  let name := Name request in
  let* _ := call (Klog Info ("reconcile namespace " +:+ name
                             +:+ " for virtual cluster " +:+ cluster)) in
  (* requeue if the scheduler cache is not synchronized *)
  let* r := call (GetOwnerInfo cluster) in
  match r with
  | inr err => Ret (Raise err)
  | inl (vcName, vcNamespace, _) =>
  let* dirty := call (DirtyLoad (vcNamespace +:+ "/" +:+ vcName)) in
  if dirty : bool then
    let* _ := call (Klog Warning ("virtual cluster " +:+ vcNamespace +:+ "/"
                                  +:+ vcName +:+ " is in dirty set")) in
    Ret (Done {| RequeueAfter := 5 * Second |})
  else
  let* r := call (MCGet cluster "" name) in
  match r with
  | inr err =>
      if negb (IsNotFound err) then Ret (Raise err)
      else
        let* _ := call (Klog Info ("namespace " +:+ cluster +:+ "/" +:+ name
                                   +:+ " is removed")) in
        (* the namespace has been removed: update the scheduler cache *)
        let* err := call (DeScheduleNamespace (cluster +:+ "/" +:+ name)) in
        try* _ := failing err (fun e =>
                    "failed to unreserve namespace " +:+ name +:+ " in "
                    +:+ cluster +:+ ": " +:+ err_msg e) in
        Ret (Done {| RequeueAfter := 0 |})
  | inl namespace =>
  let* r := call (MCListQuota cluster name) in
  try* quota :=
    match r with
    | inr err =>
        if negb (IsNotFound err) then
          Ret (Raise (Errorf ("failed to get resource quota in " +:+ cluster
                              +:+ "/" +:+ name +:+ ": " +:+ err_msg err)))
        else
          Ret (Done (<[ResourceMemory := MustParse "0"]>
                       (<[ResourceCPU := MustParse "0"]> ∅)))
    | inl quotaList => Ret (Done (GetMaxQuota quotaList))
    end in
  match GetSchedulingInfo namespace with
  | inr err =>
      Ret (Raise (Errorf ("failed to get scheduling info in " +:+ name +:+ ": "
                          +:+ err_msg err)))
  | inl (placements, quotaSlice) =>
      Reconcile_schedule request namespace quota placements quotaSlice
  end
  end
  end.

(** The annotation writes and the cache releases of a trace, in issue
    order. *)
Definition writes (t : list Ev) : list (string * Namespace) :=
  omap (fun e =>
          match e with
          | NamespacesUpdate cluster ns => Some (cluster, ns)
          | _ => None
          end) t.

Definition releases (t : list Ev) : list string :=
  omap (fun e =>
          match e with
          | DeScheduleNamespace key => Some key
          | _ => None
          end) t.

(** Calls to the tenant API server and the lookup of its client. *)
Definition is_tenant_api (e : Ev) : bool :=
  match e with
  | GetClusterClient _ | NamespacesUpdate _ _ | NamespacesGet _ _ => true
  | _ => false
  end.

Definition is_write (e : Ev) : bool :=
  match e with NamespacesUpdate _ _ => true | _ => false end.

Definition is_release (e : Ev) : bool :=
  match e with DeScheduleNamespace _ => true | _ => false end.

End WithHelpers.
End scheduler.

(* ===================================================================== *)
(** * Statements of the specification, in its own words *)
(* ===================================================================== *)

Module spec.
Section WithHelpers.
Context `{PkiMaterial}.

(** A peer has the form [<sts>-<i>=https://<sts>-<i>.<svc>:2380]. *)
Definition peer (sts svc : string) (i : Z) : string :=
  sts +:+ "-" +:+ pretty i +:+ "=https://" +:+ sts +:+ "-" +:+ pretty i
  +:+ "." +:+ svc +:+ ":2380".

(** Peers for [i] in [[0, replicas)], concatenated in index order,
    comma-separated, no trailing comma. *)
Definition initial_cluster (replicas : Z) (sts svc : string) : string :=
  String.concat "," (map (peer sts svc) (seqZ 0 replicas)).

(** Opaque shape: one field, name-keyed. *)
Definition opaque_shape (s : Secret) : Prop :=
  srt_type s = SecretTypeOpaque /\ exists v, srt_data s = {[ srt_name s := v ]}.

(** TLS shape: the two fields [tls.crt] and [tls.key]. *)
Definition tls_shape (s : Secret) (crt key : bytes) : Prop :=
  srt_type s = SecretTypeTLS /\
  srt_data s = <[TLSPrivateKeyKey := key]> (<[TLSCertKey := crt]> ∅).

(** The secret of the service-account key as the specification describes it:
    Opaque shape, the public key under the cert field and the private key
    under the key field. *)
Definition sa_secret_as_specified (s : Secret) (rsaKey : PrivateKey) : Prop :=
  srt_type s = SecretTypeOpaque /\
  (exists pub, EncodePublicKeyPEM (PublicKeyOf rsaKey) = inl pub /\
               srt_data s !! TLSCertKey = Some pub) /\
  srt_data s !! TLSPrivateKeyKey = Some (EncodePrivateKeyPEM rsaKey).

End WithHelpers.

Section Provisioning.
Context `{PkiMaterial} `{Naming}.






(** The server URL of the kubeconfigs: the service cluster IP when known,
    else the API server DNS name. *)
Definition server_address (vc : VirtualCluster) (cv : ClusterVersion)
    (l : list (entry provisioner.resp)) : string :=
  let clusterIP := provisioner.obtained_cluster_ip l in
  if String.eqb clusterIP "" then GetAPIServerDomain cv (ToClusterKey vc)
  else clusterIP.

(** The two kubeconfigs: user, cluster, server address, groups. *)
Definition both_kubeconfigs (vc : VirtualCluster) (address : string)
    : list (string * string * string * list string) :=
  [("system:kube-controller-manager", vc_name vc, address, []);
   ("admin", vc_name vc, address, ["system:masters"])].

End Provisioning.

Section Patrol.
Context `{Labels} `{Conversion}.

(** The GC safety net: a fresh (non-cached) lookup of the referenced VC
    returns NotFound, or the VC it returns has a UID that differs from the
    annotation's. *)
Definition gc_as_specified (s : patrol.Stores) (ns : Namespace) : Prop :=
  let lookup :=
    patrol.fresh s (at_key (ns_annotations ns) LabelVCNamespace)
      (at_key (ns_annotations ns) LabelVCName) in
  (exists err, lookup = inr err /\ IsNotFound err = true) \/
  (exists vc, lookup = inl vc /\
              vc_uid vc <> at_key (ns_annotations ns) LabelVCUID).

(** Metadata drift between the super-cluster namespace [p] and the tenant
    namespace [v], judged with the owning VirtualCluster [vc]. *)
Definition metadata_drift (c : patrol.controller) (vc : VirtualCluster)
    (p v : Namespace) : Prop :=
  CheckNamespaceEquality (patrol.Config c) vc p v <> None.

(** The update handler as the specification's table has it: on metadata
    drift the super-cluster namespace is deleted. *)
Definition update_deletes_on_drift (o : oracle patrol.resp)
    (c : patrol.controller) (vObj pObj : patrol.ClusterObject) : Prop :=
  forall vc,
    o (patrol.GetVirtualClusterObject (patrol.OwnerCluster vObj)) = inl vc ->
    metadata_drift c vc (patrol.Object pObj) (patrol.Object vObj) ->
    exists opts,
      In (ns_name (patrol.Object pObj), opts)
        (patrol.deletions (trace (ask o) (patrol.UpdateFunc c vObj pObj) tt)).

End Patrol.

Section Scheduling.
Context `{PlacementMaps}.

(** Release-before-unannotate: the cache entry is released, the annotation is
    removed, and the release comes first. *)
Definition release_before_unannotate (t : list scheduler.Ev) : Prop :=
  exists (i j : nat) key cluster ns,
    t !! i = Some (scheduler.DeScheduleNamespace key) /\
    t !! j = Some (scheduler.NamespacesUpdate cluster ns) /\
    ns_annotations ns !! LabelScheduledPlacements = None /\
    (i < j)%nat.

End Scheduling.
End spec.

(** A toy key material for closed examples: keys and certificates are their
    own names, PEM encoding brackets them, and the key named ["bad"] has no
    encodable public part. *)
Definition toy_pki : PkiMaterial :=
  {| PrivateKey := string;
     PublicKey := string;
     Certificate := string;
     PublicKeyOf := fun k => k;
     EncodePublicKeyPEM := fun k =>
       if String.eqb k "bad" then inr (Errorf "unsupported key") 
       else inl ("PUBLIC KEY " +:+ k);
     EncodePrivateKeyPEM := fun k => "RSA PRIVATE KEY " +:+ k;
     EncodeCertPEM := fun c => "CERTIFICATE " +:+ c |}.

(** Modelled from the spec: the annotation keys of [pkg/syncer/constants], by
    the names the specification gives them; the key of the tenant object's own
    UID is called [uid] here. *)
Definition spec_labels : Labels :=
  {| LabelVCName := "vc.name";
     LabelVCNamespace := "vc.namespace";
     LabelVCUID := "vc.uid";
     LabelUID := "uid";
     LabelVCRootNS := "vc.rootNs" |}.

(** A toy metadata comparison for closed examples: the labels of the tenant
    namespace are expected on the super-cluster namespace. *)
Definition label_conversion : Conversion :=
  {| SyncerConfiguration := unit;
     CheckNamespaceEquality := fun _ _ p v =>
       if decide (ns_labels p = ns_labels v) then None
       else Some {| ns_name := ns_name p; ns_uid := ns_uid p;
                    ns_labels := ns_labels v;
                    ns_annotations := ns_annotations p |};
     GetVirtualOwner := fun n =>
       (at_key (ns_annotations n) "cluster", at_key (ns_annotations n) "namespace") |}.

(** A toy scheduling arithmetic for closed examples: quantities are whole
    numbers, the slice is 2 cpu and 4 memory, no namespace carries placements
    yet, the maximum quota is taken per resource and the number of slices is
    the least quotient of quota by slice. *)
Definition toy_scheduling : Scheduling :=
  {| Quantity := Z;
     MustParse := fun s => if String.eqb s "0" then 0 else 1;
     ResourceQuotaList := list (gmap string Z);
     GetMaxQuota := fun l =>
       foldr (union_with (fun a b => Some (Z.max a b))) ∅ l;
     GetSchedulingInfo := fun _ =>
       inl (∅, <["memory" := 4]> (<["cpu" := 2]> ∅));
     GetLeastFitSliceNum := fun quota slice =>
       (Z.min (default 0 (quota !! "cpu") / default 0 (slice !! "cpu"))
              (default 0 (quota !! "memory") / default 0 (slice !! "memory")),
        "cpu");
     LabelScheduledPlacements := "scheduled.placements";
     MarshalPlacements := fun m =>
       match m with
       | None => "null"
       | Some m =>
           foldr (fun kv acc => kv.1 +:+ ":" +:+ pretty kv.2 +:+ ";" +:+ acc) ""
             (map_to_list m)
       end |}.

Definition toy_placement_maps : @PlacementMaps toy_scheduling :=
  {| GetPlacementMap := fun cn =>
       Some (list_to_map (map (fun p => (pl_cluster p, pl_num p))
                            (@cn_schedule toy_scheduling cn))) |}.

(** Modelled from the spec: the root namespace of a tenant and the DNS names
    of its components, [<component>.<rootNs>.svc]; the derivation of the root
    namespace itself is not given and is taken to be [<namespace>-<name>]. *)
Definition spec_naming : Naming :=
  {| ToClusterKey := fun vc => vc_namespace vc +:+ "-" +:+ vc_name vc;
     GetEtcdServers := fun cv => [bdl_name (cv_etcd cv) +:+ "-0"];
     GetEtcdDomain := fun cv => bdl_name (cv_etcd cv);
     GetAPIServerDomain := fun cv ns =>
       bdl_name (cv_apiserver cv) +:+ "." +:+ ns +:+ ".svc" |}.

Module examples.

Definition NotFoundErr : GoError := MkError ReasonNotFound "not found".

(** The VirtualCluster [vc-a/demo] under two UIDs. *)
Definition demo_u1 : VirtualCluster :=
  {| vc_name := "demo"; vc_namespace := "vc-a"; vc_uid := "u1";
     vc_clusterVersionName := "cv-1" |}.

Definition demo_u2 : VirtualCluster :=
  {| vc_name := "demo"; vc_namespace := "vc-a"; vc_uid := "u2";
     vc_clusterVersionName := "cv-1" |}.

(** A super-cluster namespace owned by [vc-a/demo] with UID [u1], synced from
    the tenant namespace of UID [t1]. *)
Definition p_ns : Namespace :=
  {| ns_name := "vc-a-demo-default";
     ns_uid := "p1";
     ns_labels := ∅;
     ns_annotations :=
       <["uid" := "t1"]> (<["vc.uid" := "u1"]> (<["vc.namespace" := "vc-a"]>
         (<["vc.name" := "demo"]> ∅))) |}.

(** The tenant namespace, which has gained a label. *)
Definition v_ns : Namespace :=
  {| ns_name := "default";
     ns_uid := "t1";
     ns_labels := <["team" := "blue"]> ∅;
     ns_annotations := ∅ |}.

Definition pObj : @patrol.ClusterObject :=
  {| patrol.Object := p_ns; patrol.OwnerCluster := "";
     patrol.ObjKey := "vc-a-demo-default" |}.

Definition vObj : @patrol.ClusterObject :=
  {| patrol.Object := v_ns; patrol.OwnerCluster := "vc-a-demo";
     patrol.ObjKey := "vc-a-demo-default" |}.

(** The informer cache still holds the VC under [u1]; the API server no
    longer has it. *)
Definition stale_hit : patrol.Stores :=
  {| patrol.cached := fun _ _ => inl demo_u1;
     patrol.fresh := fun _ _ => inr NotFoundErr |}.

(** Cache and API server agree that the VC is gone. *)
Definition gone : patrol.Stores :=
  {| patrol.cached := fun _ _ => inr NotFoundErr;
     patrol.fresh := fun _ _ => inr NotFoundErr |}.

(** Every lookup finds the VC under [u1], and every other call succeeds. *)
Definition healthy : oracle (@patrol.resp) :=
  fun e =>
    match e return patrol.resp e with
    | patrol.ListerGet _ _ | patrol.ClientGet _ _ => inl demo_u1
    | patrol.NamespacesDelete _ _ => None
    | patrol.RequeueObject _ _ => None
    | patrol.GetVirtualClusterObject _ => inl demo_u1
    | patrol.MetricInc _ => tt
    | patrol.Klog _ _ => tt
    end.

(** The tenant namespace [default] of cluster [vc-a-demo], scheduled
    earlier. *)
Definition tenant_ns : Namespace :=
  {| ns_name := "default";
     ns_uid := "t1";
     ns_labels := ∅;
     ns_annotations := <["scheduled.placements" := "c1:2;"]> ∅ |}.

Definition request : scheduler.Request :=
  {| scheduler.ClusterName := "vc-a-demo"; scheduler.Name := "default" |}.

(** An environment in which every call succeeds; the namespace has the
    quotas [quotas], and the engine answers [engine]. *)
Definition tenant (quotas : list (gmap string Z))
    (engine : @CacheNamespace toy_scheduling -> @CacheNamespace toy_scheduling + GoError)
    : oracle (@scheduler.resp toy_scheduling) :=
  fun e =>
    match e return @scheduler.resp toy_scheduling e with
    | scheduler.GetOwnerInfo _ => inl ("demo", "vc-a", "u1")
    | scheduler.MCGet _ _ _ => inl tenant_ns
    | scheduler.MCListQuota _ _ => inl quotas
    | scheduler.Eventf _ _ _ _ _ => None
    | scheduler.GetClusterClient _ => None
    | scheduler.DirtyLoad _ => false
    | scheduler.DeScheduleNamespace _ => None
    | scheduler.EnsureNamespacePlacements _ => None
    | scheduler.ScheduleNamespace c => engine c
    | scheduler.NamespacesUpdate _ ns => inl ns
    | scheduler.NamespacesGet _ _ => inl tenant_ns
    | scheduler.Klog _ _ => tt
    end.

(** The quota of the namespace has been deleted. *)
Definition quota_gone : oracle (@scheduler.resp toy_scheduling) :=
  tenant [] (fun c => inl c).

(** A quota of 8 cpu and 16 memory, and an engine without capacity. *)
Definition no_capacity : oracle (@scheduler.resp toy_scheduling) :=
  tenant [<["memory" := 16]> (<["cpu" := 8]> ∅)]
    (fun _ => inr (Errorf "insufficient capacity")).

(** The candidate that the reconciler hands to the engine under
    [no_capacity]. *)
Definition candidate : @CacheNamespace toy_scheduling :=
  @NewNamespace toy_scheduling "vc-a-demo" "default" ∅
    (@GetMaxQuota toy_scheduling [<["memory" := 16]> (<["cpu" := 8]> ∅)])
    (<["memory" := 4]> (<["cpu" := 2]> ∅))
    [].

(** A ClusterVersion with one etcd replica; [apiType] is the type of the
    API server service. *)
Definition version (apiType : string) : ClusterVersion :=
  {| cv_etcd :=
       {| bdl_name := "etcd";
          bdl_sts := {| sts_name := "etcd"; sts_namespace := "default";
                        sts_replicas := Some 1;
                        sts_containers := [MkContainer ["etcd"]] |};
          bdl_svc := Some {| svc_name := "etcd"; svc_namespace := "default";
                             svc_type := "ClusterIP" |} |};
     cv_apiserver :=
       {| bdl_name := "apiserver";
          bdl_sts := {| sts_name := "apiserver"; sts_namespace := "default";
                        sts_replicas := Some 1;
                        sts_containers := [MkContainer ["kube-apiserver"]] |};
          bdl_svc := Some {| svc_name := "apiserver-svc";
                             svc_namespace := "default";
                             svc_type := apiType |} |};
     cv_ctrlmgr :=
       {| bdl_name := "controller-manager";
          bdl_sts := {| sts_name := "controller-manager";
                        sts_namespace := "default";
                        sts_replicas := Some 1;
                        sts_containers := [MkContainer ["kube-controller-manager"]] |};
          bdl_svc := None |} |}.

(** A host cluster in which every call succeeds: the ClusterVersion is [cv],
    the API server service has the cluster IP [10.0.0.7], and [etcdReady]
    tells whether the etcd StatefulSet becomes ready in time. *)
Definition host (cv : ClusterVersion) (etcdReady : bool)
    : oracle (@provisioner.resp toy_pki) :=
  fun e =>
    match e return @provisioner.resp toy_pki e with
    | provisioner.GetClusterVersion _ => inl cv
    | provisioner.Create _ | provisioner.Update _ | provisioner.Patch _
    | provisioner.Delete _ => None
    | provisioner.CreateRootNS _ => inl "vc-a-demo"
    | provisioner.GetSvcClusterIP _ _ => ("10.0.0.7", None)
    | provisioner.WaitStatefulSetReady _ name _ _ =>
        if String.eqb name "etcd" && negb etcdReady
        then Some (Errorf "timed out waiting for etcd") else None
    | provisioner.NewCertificateAuthority _ _ =>
        inl ("root-crt", @RsaSigner toy_pki "root-key")
    | provisioner.NewEtcdServerCertAndKey _ _ =>
        inl (@MkCrtKeyPair toy_pki "etcd-crt" "etcd-key")
    | provisioner.NewFrontProxyClientCertAndKey _ =>
        inl (@MkCrtKeyPair toy_pki "front-proxy-crt" "front-proxy-key")
    | provisioner.NewAPIServerCrtAndKey _ _ _ _ =>
        inl (@MkCrtKeyPair toy_pki "apiserver-crt" "apiserver-key")
    | provisioner.GenerateKubeconfig user _ address _ _ =>
        inl ("kubeconfig of " +:+ user +:+ " at " +:+ address)
    | provisioner.NewServiceAccountSigningKey => inl "sa-key"
    | provisioner.LogInfo _ _ => tt
    end.

(** The same host after a restart in the middle of provisioning: every
    object is there already. *)
Definition restarted (cv : ClusterVersion) : oracle (@provisioner.resp toy_pki) :=
  fun e =>
    match e return @provisioner.resp toy_pki e with
    | provisioner.Create _ => Some (MkError ReasonAlreadyExists "already exists")
    | e' => host cv true e'
    end.

Definition native : provisioner.Native :=
  {| provisioner.ProvisionerTimeout := 120 * provisioner.Second |}.

(** What a create creates: the kind and the name of the object. *)
Definition created (e : @provisioner.Ev toy_pki) : option (string * string) :=
  match e with
  | provisioner.Create (provisioner.ObjSecret s) => Some ("Secret", srt_name s)
  | provisioner.Create (provisioner.ObjStatefulSet s) =>
      Some ("StatefulSet", sts_name s)
  | provisioner.Create (provisioner.ObjService s) => Some ("Service", svc_name s)
  | _ => None
  end.

End examples.


(* ===================================================================== *)
(** * The patroller's scan ([PatrollerDo] of the syncer's package [namespace]) *)
(* ===================================================================== *)

(** Helpers of [pkg/syncer/conversion], [pkg/util/mccontroller] and
    [pkg/util/constants] that the scan uses. *)
Class Pooling : Type := {
  ToSuperClusterNamespace : string -> string -> string;
  IsNamespaceScheduledToCluster : Namespace -> string -> option GoError;
  SuperClusterID : string
}.

Module patroller.
Section WithHelpers.
Context `{Labels} `{Conversion} `{Pooling}.

(** The calls of the scan itself, around those of its handlers. *)
Inductive Ev : Type :=
| Handler (e : patrol.Ev)
| GetClusterNames                       (* c.MultiClusterController *)
| NsListerList                          (* c.nsLister.List *)
| MCList (cluster : string)             (* c.MultiClusterController.List *)
| SuperClusterPoolingEnabled.           (* featuregate.DefaultFeatureGate *)

Definition resp (e : Ev) : Type :=
  match e with
  | Handler e' => patrol.resp e'
  | GetClusterNames => list string
  | NsListerList => (list Namespace + GoError)%type
  | MCList _ => (list Namespace + GoError)%type
  | SuperClusterPoolingEnabled => bool
  end.

Abbreviation M := (Prog resp).
Abbreviation call := (@call Ev resp).

(** A handler's program, run as part of the scan. *)
Fixpoint lift {R} (p : Prog patrol.resp R) : M R :=
  match p with
  | Ret r => Ret r
  | Vis e k => Vis (Handler e) (fun x => lift (k x))
  end.

Definition klog (s : patrol.Severity) (msg : string) : M unit :=
  call (Handler (patrol.Klog s msg)).

(** [differ.FilteringHandler] around [differ.HandlerFuncs]. *)
Record FilteringHandler : Type := MkFilteringHandler {
  AddFunc : patrol.ClusterObject -> M unit;
  UpdateFunc : patrol.ClusterObject -> patrol.ClusterObject -> M unit;
  DeleteFunc : patrol.ClusterObject -> M unit;
  FilterFunc : patrol.ClusterObject -> bool
}.

(** Package [pkg/syncer/patrol/differ]: the sets of objects by key and their
    difference, which calls the handlers. *)
Class Differ : Type := {
  DiffSet : Type;
  NewDiffSet : DiffSet;
  Insert : DiffSet -> patrol.ClusterObject -> DiffSet;
  Difference : DiffSet -> DiffSet -> FilteringHandler -> M unit
}.

Context `{Differ}.

(** The loop over [vList.Items] of one tenant cluster. *)
Fixpoint PatrollerDo_items (cluster : string) (items : list Namespace)
    (vSet : DiffSet) : M DiffSet :=
  match items with
  | [] => Ret vSet
  | item :: rest =>
      let* pooling := call SuperClusterPoolingEnabled in
      let* skip :=
        if pooling : bool then
          match IsNamespaceScheduledToCluster item SuperClusterID with
          | Some err =>
              let* _ := klog patrol.Info
                          ("skip ns object which is not belongs to this super cluster: "
                           +:+ err_msg err) in
              Ret true
          | None => Ret false
          end
        else Ret false in
      if skip : bool then PatrollerDo_items cluster rest vSet
      else
        PatrollerDo_items cluster rest
          (Insert vSet
             {| patrol.Object := item;
                patrol.OwnerCluster := cluster;
                patrol.ObjKey := ToSuperClusterNamespace cluster (ns_name item) |})
  end.

(** The loop over [clusterNames]: a cluster whose namespaces cannot be listed
    leaves the set of known clusters. *)
Fixpoint PatrollerDo_clusters (clusterNames : list string)
    (knownClusterSet : gset string) (vSet : DiffSet)
    : M (gset string * DiffSet) :=
  match clusterNames with
  | [] => Ret (knownClusterSet, vSet)
  | cluster :: rest =>
      let* r := call (MCList cluster) in
      match r with
      | inr err =>
          let* _ := klog patrol.Error
                      ("error listing namespaces from cluster " +:+ cluster
                       +:+ " informer cache: " +:+ err_msg err) in
          PatrollerDo_clusters rest (knownClusterSet ∖ {[cluster]}) vSet
      | inl items =>
          let* vSet := PatrollerDo_items cluster items vSet in
          PatrollerDo_clusters rest knownClusterSet vSet
      end
  end.

(** The [FilterFunc] of the filtering handler. *)
Definition PatrollerDo_filter (obj : patrol.ClusterObject) : bool :=
  if negb (String.eqb (patrol.OwnerCluster obj) "") then true       (* vObj *)
  else if String.eqb (patrol.OwnerCluster obj) ""
          && String.eqb (at_key (ns_annotations (patrol.Object obj)) LabelVCRootNS)
               "true"
  then true
  else
    (* pObj *)
    let '(clusterName, vNamespace) := GetVirtualOwner (patrol.Object obj) in
    negb (String.eqb clusterName "") && negb (String.eqb vNamespace "").

(** [PatrollerDo]. *)
Definition PatrollerDo (c : patrol.controller) : M unit :=
  let* clusterNames := call GetClusterNames in
  let* _ :=
    if (length clusterNames =? 0)%nat then
      klog patrol.Info
        "super cluster has no tenant control planes, still check namespace for gc purpose"
    else Ret tt in
  let* r := call NsListerList in
  match r with
  | inr err =>
      klog patrol.Error
        ("error listing namespaces from super control plane informer cache: "
         +:+ err_msg err)
  | inl pList =>
      let pSet :=
        foldl (fun s p =>
                 Insert s {| patrol.Object := p; patrol.OwnerCluster := "";
                             patrol.ObjKey := ns_name p |})
          NewDiffSet pList in
      let* (knownClusterSet, vSet) :=
        PatrollerDo_clusters clusterNames (list_to_set clusterNames) NewDiffSet in
      Difference vSet pSet
        {| AddFunc := fun vObj => lift (patrol.AddFunc vObj);
           UpdateFunc := fun vObj pObj => lift (patrol.UpdateFunc c vObj pObj);
           DeleteFunc := fun pObj => lift (patrol.DeleteFunc knownClusterSet pObj);
           FilterFunc := PatrollerDo_filter |}
  end.

(** The tenant clusters whose listing failed in a log. *)
Definition failed_listing (cluster : string) (x : entry resp) : bool :=
  match x with
  | existT e r =>
      match e as e0 return resp e0 -> bool with
      | MCList c => fun r =>
          match r with
          | inr _ => bool_decide (c = cluster)
          | inl _ => false
          end
      | _ => fun _ => false
      end r
  end.

(** The answers to the listing of the super cluster's namespaces in a log. *)
Definition super_listings (l : list (entry resp))
    : list (list Namespace + GoError) :=
  omap (fun x : entry resp =>
          match x with
          | existT e r =>
              match e as e0 return resp e0
                                   -> option (list Namespace + GoError) with
              | NsListerList => fun r => Some r
              | _ => fun _ => None
              end r
          end) l.

(** The calls of the handlers in a trace. *)
Definition handled (t : list Ev) : list patrol.Ev :=
  omap (fun e => match e with Handler e' => Some e' | _ => None end) t.

End WithHelpers.
End patroller.

(* ===================================================================== *)
(** * Reading traces and logs, continued *)
(* ===================================================================== *)

Module readings.

Section Provisioner.
Context `{PkiMaterial} `{Naming}.

(** The objects that a trace asks to create, by kind. *)
Definition created_secrets (t : list provisioner.Ev) : list Secret :=
  omap (fun e =>
          match e with
          | provisioner.Create (provisioner.ObjSecret s) => Some s
          | _ => None
          end) t.

Definition created_statefulsets (t : list provisioner.Ev) : list StatefulSet :=
  omap (fun e =>
          match e with
          | provisioner.Create (provisioner.ObjStatefulSet s) => Some s
          | _ => None
          end) t.

Definition created_services (t : list provisioner.Ev) : list Service :=
  omap (fun e =>
          match e with
          | provisioner.Create (provisioner.ObjService s) => Some s
          | _ => None
          end) t.

(** The [switch] of [deployComponent] on the name of the bundle. *)
Definition complement (ns : string) (ssBdl : StatefulSetSvcBundle)
    : Outcome StatefulSetSvcBundle :=
  if String.eqb (bdl_name ssBdl) "etcd" then
    provisioner.complementETCDTemplate ns ssBdl
  else if String.eqb (bdl_name ssBdl) "apiserver" then
    provisioner.complementAPIServerTemplate ns ssBdl
  else if String.eqb (bdl_name ssBdl) "controller-manager" then
    Done (provisioner.complementCtrlMgrTemplate ns ssBdl)
  else Raise (Errorf ("try to deploy unknown component: " +:+ bdl_name ssBdl)).

(** An answered call that left the PKI incomplete: a certificate, key or
    kubeconfig that could not be generated, or a root key that is not an RSA
    key. *)
Definition generation_failed (x : entry provisioner.resp) : bool :=
  match x with
  | existT e r =>
      match e as e0 return provisioner.resp e0 -> bool with
      | provisioner.NewCertificateAuthority _ _ => fun r =>
          match r with
          | inl (_, RsaSigner _) => false
          | _ => true
          end
      | provisioner.NewEtcdServerCertAndKey _ _
      | provisioner.NewFrontProxyClientCertAndKey _
      | provisioner.NewAPIServerCrtAndKey _ _ _ _ => fun r =>
          match r with inl _ => false | inr _ => true end
      | provisioner.GenerateKubeconfig _ _ _ _ _ => fun r =>
          match r with inl _ => false | inr _ => true end
      | provisioner.NewServiceAccountSigningKey => fun r =>
          match r with inl _ => false | inr _ => true end
      | _ => fun _ => false
      end r
  end.

(** The certificate authority that a call asks to sign with. *)
Definition signing_ca (e : provisioner.Ev) : option CrtKeyPair :=
  match e with
  | provisioner.NewEtcdServerCertAndKey ca _
  | provisioner.NewFrontProxyClientCertAndKey ca
  | provisioner.NewAPIServerCrtAndKey ca _ _ _
  | provisioner.GenerateKubeconfig _ _ _ _ ca => Some ca
  | _ => None
  end.

(** The root certificate authority that a run obtained. *)
Definition root_ca (x : entry provisioner.resp) : option CrtKeyPair :=
  match x with
  | existT e r =>
      match e as e0 return provisioner.resp e0 -> option CrtKeyPair with
      | provisioner.NewCertificateAuthority _ _ => fun r =>
          match r with
          | inl (crt, RsaSigner key) => Some {| Crt := crt; Key := key |}
          | _ => None
          end
      | _ => fun _ => None
      end r
  end.

(** The API server certificates requested in a trace: DNS name and cluster
    IP. *)
Definition apiserver_certificates (t : list provisioner.Ev)
    : list (VirtualCluster * string * string) :=
  omap (fun e =>
          match e with
          | provisioner.NewAPIServerCrtAndKey _ vc domain clusterIP =>
              Some (vc, domain, clusterIP)
          | _ => None
          end) t.

End Provisioner.

Section Patrol.
Context `{Labels} `{Conversion}.

(** The lookups of the VirtualCluster in a trace, in issue order. *)
Definition vc_lookups (t : list patrol.Ev) : list patrol.Ev :=
  List.filter (fun e =>
                 match e with
                 | patrol.ListerGet _ _ | patrol.ClientGet _ _ => true
                 | _ => false
                 end) t.

(** The calls that only read or log. *)
Definition reads_only (e : patrol.Ev) : Prop :=
  match e with
  | patrol.ListerGet _ _ | patrol.ClientGet _ _ | patrol.Klog _ _ => True
  | _ => False
  end.

End Patrol.

Section Scheduler.
Context `{PlacementMaps}.

(** Calls to the scheduler engine, which owns the scheduler cache. *)
Definition is_engine (e : scheduler.Ev) : bool :=
  match e with
  | scheduler.DeScheduleNamespace _ | scheduler.EnsureNamespacePlacements _
  | scheduler.ScheduleNamespace _ => true
  | _ => false
  end.

(** The update attempts of a log, each with the answer of the tenant API
    server. *)
Definition update_attempts (l : list (entry scheduler.resp))
    : list (Namespace * (Namespace + GoError)) :=
  omap (fun x : entry scheduler.resp =>
          match x with
          | existT e r =>
              match e as e0 return scheduler.resp e0
                                   -> option (Namespace * (Namespace + GoError)) with
              | scheduler.NamespacesUpdate _ ns => fun r => Some (ns, r)
              | _ => fun _ => None
              end r
          end) l.

(** The object that a failed update was answered with when it was read
    again. *)
Definition refreshed (x : entry scheduler.resp) : option Namespace :=
  match x with
  | existT e r =>
      match e as e0 return scheduler.resp e0 -> option Namespace with
      | scheduler.NamespacesGet _ _ => fun r =>
          match r with inl got => Some got | inr _ => None end
      | _ => fun _ => None
      end r
  end.

(** The working copy with the placements published on it, or removed from
    it. *)
Definition annotated (pm : option (gmap string Z)) (base : Namespace)
    : Namespace :=
  match pm with
  | None =>
      scheduler.set_annotations
        (delete LabelScheduledPlacements (ns_annotations base)) base
  | Some m =>
      scheduler.set_annotations
        (<[LabelScheduledPlacements := MarshalPlacements (Some m)]>
           (ns_annotations base)) base
  end.

(** The answers to the question whether the virtual cluster is dirty. *)
Definition dirty_answers (l : list (entry scheduler.resp)) : list bool :=
  omap (fun x : entry scheduler.resp =>
          match x with
          | existT e r =>
              match e as e0 return scheduler.resp e0 -> option bool with
              | scheduler.DirtyLoad _ => fun r => Some r
              | _ => fun _ => None
              end r
          end) l.

(** The answers to the lookup of the reconciled namespace. *)
Definition namespace_answers (l : list (entry scheduler.resp))
    : list (Namespace + GoError) :=
  omap (fun x : entry scheduler.resp =>
          match x with
          | existT e r =>
              match e as e0 return scheduler.resp e0
                                   -> option (Namespace + GoError) with
              | scheduler.MCGet _ _ _ => fun r => Some r
              | _ => fun _ => None
              end r
          end) l.

(** The calls with which [Reconcile] gathers what it reconciles. *)
Definition is_preamble (e : scheduler.Ev) : bool :=
  match e with
  | scheduler.GetOwnerInfo _ | scheduler.DirtyLoad _ | scheduler.MCGet _ _ _
  | scheduler.MCListQuota _ _ => true
  | _ => false
  end.

(** The answer to the emission of a [Scheduled] event. *)
Definition scheduled_event (x : entry scheduler.resp)
    : option (option GoError) :=
  match x with
  | existT e r =>
      match e as e0 return scheduler.resp e0 -> option (option GoError) with
      | scheduler.Eventf _ _ _ reason _ => fun r =>
          if String.eqb reason "Scheduled" then Some r else None
      | _ => fun _ => None
      end r
  end.

End Scheduler.

End readings.

(** A toy pooling for closed examples: the namespace [ns] of the tenant
    [cluster] is [<cluster>-<ns>] on the super cluster, and every namespace is
    scheduled to this super cluster. *)
Definition toy_pooling : Pooling :=
  {| ToSuperClusterNamespace := fun cluster ns => cluster +:+ "-" +:+ ns;
     IsNamespaceScheduledToCluster := fun _ _ => None;
     SuperClusterID := "super-1" |}.

Definition for_each {A : Type} (l : list A)
    (f : A -> Prog patroller.resp unit) : Prog patroller.resp unit :=
  foldr (fun a rest => let* _ := f a in rest) (Ret tt) l.

(** Modelled from the spec: the sets of [pkg/syncer/patrol/differ] and their
    difference.  A tenant object without a super-cluster object of its key
    goes to [AddFunc], a tenant object with one goes to [UpdateFunc] together
    with it, and a super-cluster object without a tenant object of its key
    goes to [DeleteFunc]; only the objects that pass the filter take part.
    The sets are lists here. *)
Definition spec_differ : patroller.Differ :=
  {| patroller.DiffSet := list patrol.ClusterObject;
     patroller.NewDiffSet := [];
     patroller.Insert := fun s o => s ++ [o];
     patroller.Difference := fun vSet pSet fh =>
       let vs := List.filter (patroller.FilterFunc fh) vSet in
       let ps := List.filter (patroller.FilterFunc fh) pSet in
       let same_key (a b : patrol.ClusterObject) :=
         String.eqb (patrol.ObjKey a) (patrol.ObjKey b) in
       let* _ :=
         for_each vs (fun v =>
           match List.find (same_key v) ps with
           | Some p => patroller.UpdateFunc fh v p
           | None => patroller.AddFunc fh v
           end) in
       for_each ps (fun p =>
         if existsb (same_key p) vs then Ret tt
         else patroller.DeleteFunc fh p) |}.

(** Further environments for closed examples. *)
Module scenarios.

(** The host of [examples.host] on which the etcd certificate cannot be
    issued. *)
Definition no_etcd_certificate (cv : ClusterVersion)
    : oracle (@provisioner.resp toy_pki) :=
  fun e =>
    match e return @provisioner.resp toy_pki e with
    | provisioner.NewEtcdServerCertAndKey _ _ =>
        inr (Errorf "cannot sign the etcd certificate")
    | e' => examples.host cv true e'
    end.

(** A bundle of an unknown component. *)
Definition scheduler_bundle : StatefulSetSvcBundle :=
  {| bdl_name := "scheduler";
     bdl_sts := {| sts_name := "scheduler"; sts_namespace := "default";
                   sts_replicas := Some 1;
                   sts_containers := [MkContainer ["kube-scheduler"]] |};
     bdl_svc := None |}.

(** An API server bundle without its service. *)
Definition headless_apiserver : StatefulSetSvcBundle :=
  {| bdl_name := "apiserver";
     bdl_sts := {| sts_name := "apiserver"; sts_namespace := "default";
                   sts_replicas := Some 1;
                   sts_containers := [MkContainer ["kube-apiserver"]] |};
     bdl_svc := None |}.

(** The tenant of [examples.tenant] after the namespace was removed. *)
Definition removed : oracle (@scheduler.resp toy_scheduling) :=
  fun e =>
    match e return @scheduler.resp toy_scheduling e with
    | scheduler.MCGet _ _ _ => inr examples.NotFoundErr
    | e' => examples.quota_gone e'
    end.

(** A tenant API server that answers the first update with a conflict and
    hands out the namespace with a fresh label when it is read again; the
    state counts the updates. *)
Definition fresh_ns : Namespace :=
  {| ns_name := "default"; ns_uid := "t1";
     ns_labels := <["team" := "blue"]> ∅;
     ns_annotations := <["owner" := "alice"]> ∅ |}.

Definition conflicting : handler (@scheduler.resp toy_scheduling) nat :=
  fun e n =>
    match e return @scheduler.resp toy_scheduling e * nat with
    | scheduler.NamespacesUpdate _ ns =>
        (match n with
         | O => inr (MkError ReasonConflict "the object has been modified")
         | S _ => inl ns
         end, S n)
    | scheduler.NamespacesGet _ _ => (inl fresh_ns, n)
    | e' => (examples.quota_gone e', n)
    end.

(** A quota of 8 cpu and 16 memory and an engine that accepts every
    candidate, while no event can be recorded. *)
Definition event_lost : oracle (@scheduler.resp toy_scheduling) :=
  fun e =>
    match e return @scheduler.resp toy_scheduling e with
    | scheduler.Eventf _ _ _ _ _ => Some (Errorf "event sink unavailable")
    | e' => examples.tenant [<["memory" := 16]> (<["cpu" := 8]> ∅)]
              (fun c => inl c) e'
    end.

(** One tenant cluster is known, but the informer cache of the super cluster
    cannot list its namespaces. *)
Definition cache_down : oracle patroller.resp :=
  fun e =>
    match e return patroller.resp e with
    | patroller.Handler e' => examples.healthy e'
    | patroller.GetClusterNames => ["vc-a-demo"]
    | patroller.NsListerList => inr (Errorf "informer cache is not synced")
    | patroller.MCList _ => inl [examples.v_ns]
    | patroller.SuperClusterPoolingEnabled => false
    end.

End scenarios.
(* ===================================================================== *)
(** * Properties *)
(* ===================================================================== *)

(** ** Strings and machine integers *)

Lemma string_app_cons (a : Ascii.ascii) (s t : string) :
  String a s +:+ t = String a (s +:+ t).
Proof. reflexivity. Qed.

Lemma string_app_nil_r (s : string) : s +:+ "" = s.
Proof.
  induction s as [|a s IH]; [reflexivity|].
  by rewrite string_app_cons, IH.
Qed.

Lemma string_app_assoc (s t u : string) : (s +:+ t) +:+ u = s +:+ (t +:+ u).
Proof.
  induction s as [|a s IH]; [reflexivity|].
  by rewrite !string_app_cons, IH.
Qed.

Lemma wrap32_id (z : Z) : int32 z -> wrap 32 z = z.
Proof.
  unfold int32, wrap. intros Hz.
  change (2 ^ (32 - 1)) with 2147483648 in *.
  change (2 ^ 31) with 2147483648 in *.
  change (2 ^ 32) with 4294967296.
  rewrite Z.mod_small by lia. lia.
Qed.

(** ** The etcd peer list *)

Section InitialCluster.
Context `{PkiMaterial} `{Naming}.

Lemma peerAddr_spec (sts svc : string) (i : Z) :
  provisioner.peerAddr sts svc i = spec.peer sts svc i.
Proof. reflexivity. Qed.

Lemma concat_cons2 (sep x y : string) (l : list string) :
  String.concat sep (x :: y :: l) = x +:+ sep +:+ String.concat sep (y :: l).
Proof. reflexivity. Qed.

(** Loop invariant: with [k] iterations left and enough fuel, the loop
    appends the peers [i, i+1, ..., i+k-1] to what it has accumulated. *)
Lemma genInitialClusterArgs_loop_spec (sts svc : string) (n : Z) (k : nat) :
  forall (fuel : nat) (i : Z) (acc : string),
    0 <= i -> i + Z.of_nat k = n -> n < 2 ^ 31 -> (k < fuel)%nat ->
    provisioner.genInitialClusterArgs_loop fuel n sts svc i acc
    = Some (acc +:+ String.concat ","
                      (map (spec.peer sts svc) (seqZ i (Z.of_nat k)))).
Proof.
  induction k as [|k IH]; intros fuel i acc Hi Hn Hmax Hfuel;
    (destruct fuel as [|fuel]; [lia|]); simpl provisioner.genInitialClusterArgs_loop.
  - replace (i <? n) with false by (symmetry; apply Z.ltb_ge; lia).
    simpl. by rewrite string_app_nil_r.
  - replace (i <? n) with true by (symmetry; apply Z.ltb_lt; lia).
    rewrite (wrap32_id (n - 1)) by (unfold int32; lia).
    rewrite seqZ_cons by lia. simpl map.
    destruct (Z.eqb_spec i (n - 1)) as [Heq|Hne].
    + assert (k = 0%nat) as -> by lia. simpl. reflexivity.
    + rewrite (wrap32_id (i + 1)) by (unfold int32; lia).
      rewrite IH by lia.
      replace (Z.pred (Z.of_nat (S k))) with (Z.of_nat k) by lia.
      replace (Z.succ i) with (i + 1) by lia.
      destruct k as [|k]; [lia|].
      rewrite (seqZ_cons (i + 1)) by lia. simpl map.
      rewrite concat_cons2, peerAddr_spec.
      by rewrite !string_app_assoc.
Qed.

(** C7. For every replica count [n >= 0] (an int32) and all names [sts] and
    [svc], [genInitialClusterArgs n sts svc] returns the peers
    [<sts>-<i>=https://<sts>-<i>.<svc>:2380] for [i = 0 .. n-1] in index
    order, comma-separated, with no trailing comma. *)
Theorem genInitialClusterArgs_correct (n : Z) (sts svc : string) :
  0 <= n -> int32 n ->
  provisioner.genInitialClusterArgs n sts svc = Some (spec.initial_cluster n sts svc).
Proof.
  intros Hn [_ Hmax]. unfold provisioner.genInitialClusterArgs, spec.initial_cluster.
  rewrite (genInitialClusterArgs_loop_spec sts svc n (Z.to_nat n)) by lia.
  by rewrite Z2Nat.id by lia.
Qed.

(** With no replica the value is the empty string. *)
Lemma genInitialClusterArgs_zero (sts svc : string) :
  provisioner.genInitialClusterArgs 0 sts svc = Some "".
Proof. reflexivity. Qed.

(** A negative count runs no iteration either. *)
Lemma genInitialClusterArgs_negative (n : Z) (sts svc : string) :
  n < 0 -> provisioner.genInitialClusterArgs n sts svc = Some "".
Proof.
  intros Hn. unfold provisioner.genInitialClusterArgs.
  replace (Z.to_nat n) with 0%nat by lia. simpl.
  by replace (0 <? n) with false by (symmetry; apply Z.ltb_ge; lia).
Qed.

End InitialCluster.

Example genInitialClusterArgs_three :
  provisioner.genInitialClusterArgs 3 "etcd" "etcd-svc"
  = Some ("etcd-0=https://etcd-0.etcd-svc:2380,"
          +:+ "etcd-1=https://etcd-1.etcd-svc:2380,"
          +:+ "etcd-2=https://etcd-2.etcd-svc:2380").
Proof. vm_compute. reflexivity. Qed.

Lemma genInitialClusterArgs_correct_witness :
  0 <= 3 /\ int32 3 /\
  provisioner.genInitialClusterArgs 3 "etcd" "etcd-svc"
  = Some (spec.initial_cluster 3 "etcd" "etcd-svc").
Proof.
  split; [lia|]. split; [unfold int32; lia|].
  apply (genInitialClusterArgs_correct 3 "etcd" "etcd-svc");
    [lia | unfold int32; lia].
Defined.

(** ** The secret of the service-account key *)

Section SecretShapes.
Context `{PkiMaterial}.

Lemma tls_is_not_opaque : SecretTypeTLS <> SecretTypeOpaque.
Proof. discriminate. Qed.

(** When the public key cannot be encoded no secret is produced. *)
Lemma RsaKeyToSecret_encode_error (name namespace : string)
    (rsaKey : PrivateKey) (err : GoError) :
  EncodePublicKeyPEM (PublicKeyOf rsaKey) = inr err ->
  secret.RsaKeyToSecret name namespace rsaKey = inr err.
Proof. intros E. unfold secret.RsaKeyToSecret. by rewrite E. Qed.

(** C4, amended. For every RSA private key whose public key encodes to PEM,
    the secret produced by [RsaKeyToSecret] has the TLS shape (type
    [kubernetes.io/tls], not Opaque): exactly the two fields [tls.crt],
    holding the PEM-encoded public key, and [tls.key], holding the PEM-encoded
    private key. *)
Theorem RsaKeyToSecret_tls_shape (name namespace : string)
    (rsaKey : PrivateKey) (pub : bytes) :
  EncodePublicKeyPEM (PublicKeyOf rsaKey) = inl pub ->
  exists s,
    secret.RsaKeyToSecret name namespace rsaKey = inl s /\
    srt_name s = name /\ srt_namespace s = namespace /\
    spec.tls_shape s pub (EncodePrivateKeyPEM rsaKey) /\
    srt_data s !! TLSCertKey = Some pub /\
    srt_data s !! TLSPrivateKeyKey = Some (EncodePrivateKeyPEM rsaKey) /\
    dom (srt_data s) = {[ TLSCertKey; TLSPrivateKeyKey ]} /\
    srt_type s <> SecretTypeOpaque.
Proof.
  intros E. unfold secret.RsaKeyToSecret. rewrite E.
  eexists. split; [reflexivity|]. simpl. split_and!.
  - reflexivity.
  - reflexivity.
  - split; reflexivity.
  - rewrite lookup_insert_ne by discriminate. apply lookup_insert_eq.
  - apply lookup_insert_eq.
  - rewrite !dom_insert_L, dom_empty_L. set_solver.
  - apply tls_is_not_opaque.
Qed.

(** The kubeconfig secrets do have the Opaque shape. *)
Lemma KubeconfigToSecret_opaque_shape (name namespace cfgContent : string) :
  spec.opaque_shape (secret.KubeconfigToSecret name namespace cfgContent).
Proof. split; [reflexivity|]. exists cfgContent. reflexivity. Qed.

End SecretShapes.

Lemma RsaKeyToSecret_tls_shape_witness :
  @EncodePublicKeyPEM toy_pki (@PublicKeyOf toy_pki "k1") = inl "PUBLIC KEY k1" /\
  exists s,
    @secret.RsaKeyToSecret toy_pki "serviceaccount-rsa" "tenant-a" "k1" = inl s /\
    srt_name s = "serviceaccount-rsa" /\ srt_namespace s = "tenant-a" /\
    spec.tls_shape s "PUBLIC KEY k1" "RSA PRIVATE KEY k1" /\
    srt_data s !! TLSCertKey = Some "PUBLIC KEY k1" /\
    srt_data s !! TLSPrivateKeyKey = Some "RSA PRIVATE KEY k1" /\
    dom (srt_data s) = {[ TLSCertKey; TLSPrivateKeyKey ]} /\
    srt_type s <> SecretTypeOpaque.
Proof.
  split; [reflexivity|].
  apply (@RsaKeyToSecret_tls_shape toy_pki "serviceaccount-rsa" "tenant-a" "k1").
  reflexivity.
Defined.

(** C4 as stated fails: the secret of the toy key ["k1"] is not Opaque. *)
Lemma RsaKeyToSecret_not_opaque :
  exists s,
    @secret.RsaKeyToSecret toy_pki "serviceaccount-rsa" "tenant-a" "k1" = inl s /\
    ~ @spec.sa_secret_as_specified toy_pki s "k1".
Proof.
  eexists. split; [reflexivity|].
  intros [Htype _]. discriminate Htype.
Qed.

(** ** Running programs *)

Section RunLemmas.
Context {Ev : Type} {resp : Ev -> Type} {W : Type} (h : handler resp W).

Lemma run_Vis {R} (e : Ev) (k : resp e -> Prog resp R) (w : W) :
  run h (Vis e k) w
  = (result h (k (h e w).1) (h e w).2,
     final h (k (h e w).1) (h e w).2,
     existT e (h e w).1 :: log h (k (h e w).1) (h e w).2).
Proof.
  unfold result, final, log. simpl.
  destruct (h e w) as [x w1]. simpl.
  by destruct (run h (k x) w1) as [[r w2] l].
Qed.

Lemma run_parts {R} (p : Prog resp R) (w : W) :
  run h p w = (result h p w, final h p w, log h p w).
Proof. unfold result, final, log. by destruct (run h p w) as [[r w2] l]. Qed.

Lemma run_bind {A B} (m : Prog resp A) (f : A -> Prog resp B) (w : W) :
  run h (bind m f) w
  = (result h (f (result h m w)) (final h m w),
     final h (f (result h m w)) (final h m w),
     log h m w ++ log h (f (result h m w)) (final h m w)).
Proof.
  revert w. induction m as [a|e k IH]; intros w; simpl.
  - unfold result, final, log. simpl.
    by destruct (run h (f a) w) as [[b w2] l].
  - unfold result, final, log in *. simpl.
    destruct (h e w) as [x w1]. rewrite IH.
    destruct (run h (k x) w1) as [[a w2] l1]. simpl.
    by destruct (run h (f a) w2) as [[b w3] l2].
Qed.

Lemma result_bind {A B} (m : Prog resp A) (f : A -> Prog resp B) (w : W) :
  result h (bind m f) w = result h (f (result h m w)) (final h m w).
Proof. unfold result at 1. by rewrite run_bind. Qed.

Lemma final_bind {A B} (m : Prog resp A) (f : A -> Prog resp B) (w : W) :
  final h (bind m f) w = final h (f (result h m w)) (final h m w).
Proof. unfold final at 1. by rewrite run_bind. Qed.

Lemma log_bind {A B} (m : Prog resp A) (f : A -> Prog resp B) (w : W) :
  log h (bind m f) w = log h m w ++ log h (f (result h m w)) (final h m w).
Proof. unfold log at 1. by rewrite run_bind. Qed.

Lemma trace_bind {A B} (m : Prog resp A) (f : A -> Prog resp B) (w : W) :
  trace h (bind m f) w = trace h m w ++ trace h (f (result h m w)) (final h m w).
Proof. unfold trace. by rewrite log_bind, map_app. Qed.

Lemma result_Vis {R} (e : Ev) (k : resp e -> Prog resp R) (w : W) :
  result h (Vis e k) w = result h (k (h e w).1) (h e w).2.
Proof. unfold result at 1. by rewrite run_Vis. Qed.

Lemma final_Vis {R} (e : Ev) (k : resp e -> Prog resp R) (w : W) :
  final h (Vis e k) w = final h (k (h e w).1) (h e w).2.
Proof. unfold final at 1. by rewrite run_Vis. Qed.

Lemma log_Vis {R} (e : Ev) (k : resp e -> Prog resp R) (w : W) :
  log h (Vis e k) w = existT e (h e w).1 :: log h (k (h e w).1) (h e w).2.
Proof. unfold log at 1. by rewrite run_Vis. Qed.

Lemma trace_Vis {R} (e : Ev) (k : resp e -> Prog resp R) (w : W) :
  trace h (Vis e k) w = e :: trace h (k (h e w).1) (h e w).2.
Proof. unfold trace. by rewrite log_Vis. Qed.

Lemma result_Ret {R} (r : R) (w : W) : result h (Ret r) w = r.
Proof. reflexivity. Qed.

Lemma final_Ret {R} (r : R) (w : W) : final h (Ret (resp:=resp) r) w = w.
Proof. reflexivity. Qed.

Lemma log_Ret {R} (r : R) (w : W) : log h (Ret r) w = [].
Proof. reflexivity. Qed.

Lemma trace_Ret {R} (r : R) (w : W) : trace h (Ret r) w = [].
Proof. reflexivity. Qed.

Lemma run_call_bind {R} (e : Ev) (k : resp e -> Prog resp R) (w : W) :
  run h (bind (call e) k) w
  = (result h (k (h e w).1) (h e w).2,
     final h (k (h e w).1) (h e w).2,
     existT e (h e w).1 :: log h (k (h e w).1) (h e w).2).
Proof. unfold call. cbn [bind]. apply run_Vis. Qed.


Lemma run_Vis_inv {R} (e : Ev) (k : resp e -> Prog resp R) (w : W)
    (o : R) (w' : W) (l : list (entry resp)) :
  run h (Vis e k) w = (o, w', l) ->
  exists l', l = existT e (h e w).1 :: l' /\
             run h (k (h e w).1) (h e w).2 = (o, w', l').
Proof.
  rewrite run_Vis. intros [= <- <- <-].
  eexists. split; [reflexivity | apply run_parts].
Qed.

Lemma run_Ret_inv {R} (r : R) (w : W) (o : R) (w' : W) (l : list (entry resp)) :
  run h (Ret r) w = (o, w', l) -> o = r /\ w' = w /\ l = [].
Proof. by intros [= <- <- <-]. Qed.

Lemma result_call (e : Ev) (w : W) : result h (call e) w = (h e w).1.
Proof. unfold call. by rewrite result_Vis. Qed.

Lemma final_call (e : Ev) (w : W) : final h (call e) w = (h e w).2.
Proof. unfold call. by rewrite final_Vis. Qed.

Lemma log_call (e : Ev) (w : W) : log h (call e) w = [existT e (h e w).1].
Proof. unfold call. by rewrite log_Vis. Qed.

Lemma trace_call (e : Ev) (w : W) : trace h (call e) w = [e].
Proof. unfold call. by rewrite trace_Vis. Qed.

End RunLemmas.

Create Rewrite HintDb run.
#[local] Hint Rewrite @result_Vis @final_Vis @log_Vis @trace_Vis
  @result_Ret @final_Ret @log_Ret @trace_Ret
  @result_call @final_call @log_call @trace_call : run.

(** Unfold the next calls of a program under [result], [final], [log] and
    [trace]. *)
Ltac prog :=
  repeat first [ progress unfold call
               | progress cbn [bind bindO]
               | progress (autorewrite with run) ].

(** ** The patroller's garbage-collection check *)

Section GarbageCollection.
Context `{Labels} `{Conversion}.

Lemma eqb_empty_false (x : string) : x <> "" -> String.eqb x "" = false.
Proof. intros Hx. by apply String.eqb_neq. Qed.

(** Against any environment: [true] is returned only at the end of a run
    that asked the informer cache and then the API server, and nothing else. *)
Lemma shouldBeGarbageCollected_true_log {W} (h : handler patrol.resp W)
    (ns : Namespace) (w : W) :
  result h (patrol.shouldBeGarbageCollected ns) w = true ->
  trace h (patrol.shouldBeGarbageCollected ns) w
  = [patrol.ListerGet (at_key (ns_annotations ns) LabelVCNamespace)
       (at_key (ns_annotations ns) LabelVCName);
     patrol.ClientGet (at_key (ns_annotations ns) LabelVCNamespace)
       (at_key (ns_annotations ns) LabelVCName)].
Proof.
  unfold patrol.shouldBeGarbageCollected.
  destruct (_ || _); [discriminate|]. prog.
  destruct (h (patrol.ListerGet _ _) w) as [[vc|err] w1]; cbn [fst snd].
  - destruct (negb _); prog.
    + destruct (h (patrol.ClientGet _ _) w1) as [[v|err] w2]; cbn [fst snd]; prog.
      * destruct (negb _); prog; [reflexivity|discriminate].
      * discriminate.
    + discriminate.
  - destruct (IsNotFound err); prog; [|discriminate].
    destruct (h (patrol.ClientGet _ _) w1) as [[v|err2] w2]; cbn [fst snd]; prog.
    + discriminate.
    + destruct (IsNotFound err2); prog; [reflexivity|discriminate].
Qed.

Lemma shouldBeGarbageCollected_no_effect {W} (h : handler patrol.resp W)
    (ns : Namespace) (w : W) :
  patrol.deletions (trace h (patrol.shouldBeGarbageCollected ns) w) = [] /\
  patrol.requeues (trace h (patrol.shouldBeGarbageCollected ns) w) = [].
Proof.
  unfold patrol.shouldBeGarbageCollected.
  destruct (_ || _); [by prog|]. prog.
  destruct (h (patrol.ListerGet _ _) w) as [[vc|err] w1]; cbn [fst snd].
  - destruct (negb _); prog.
    + destruct (h (patrol.ClientGet _ _) w1) as [[v|err] w2]; cbn [fst snd]; prog.
      * by destruct (negb _); prog.
      * done.
    + done.
  - destruct (IsNotFound err); prog; [|done].
    destruct (h (patrol.ClientGet _ _) w1) as [[v|err2] w2]; cbn [fst snd]; prog.
    + done.
    + by destruct (IsNotFound err2); prog.
Qed.

(** C1, amended. For a super-cluster namespace whose [vc.name] and
    [vc.namespace] annotations are non-empty, [shouldBeGarbageCollected]
    returns true iff the cached lookup of the referenced VirtualCluster and
    a fresh lookup agree on the verdict: both return NotFound, or both return
    a VirtualCluster whose UID differs from the [vc.uid] annotation.  Whenever
    it returns true, the fresh lookup was issued after the cached one, and
    the fresh lookup alone justifies the verdict.  A cache hit with a
    matching UID, and a cache error other than NotFound, return false
    without any fresh lookup: the run is the cached lookup, followed by one
    log line after a hit. *)
Theorem shouldBeGarbageCollected_double_checked (s : patrol.Stores)
    (ns : Namespace) :
  let vcName := at_key (ns_annotations ns) LabelVCName in
  let vcNamespace := at_key (ns_annotations ns) LabelVCNamespace in
  let uid := at_key (ns_annotations ns) LabelVCUID in
  let verdict :=
    result (patrol.lookups s) (patrol.shouldBeGarbageCollected ns) tt in
  vcName <> "" -> vcNamespace <> "" ->
  (verdict = true <->
     (exists e1 e2,
         patrol.cached s vcNamespace vcName = inr e1 /\ IsNotFound e1 = true /\
         patrol.fresh s vcNamespace vcName = inr e2 /\ IsNotFound e2 = true)
     \/
     (exists vc v,
         patrol.cached s vcNamespace vcName = inl vc /\ vc_uid vc <> uid /\
         patrol.fresh s vcNamespace vcName = inl v /\ vc_uid v <> uid))
  /\
  (verdict = true ->
     spec.gc_as_specified s ns /\
     trace (patrol.lookups s) (patrol.shouldBeGarbageCollected ns) tt
     = [patrol.ListerGet vcNamespace vcName; patrol.ClientGet vcNamespace vcName])
  /\
  (forall vc,
      patrol.cached s vcNamespace vcName = inl vc -> vc_uid vc = uid ->
      verdict = false /\
      trace (patrol.lookups s) (patrol.shouldBeGarbageCollected ns) tt
      = [patrol.ListerGet vcNamespace vcName;
         patrol.Klog patrol.Info
           ("pNamespace " +:+ ns_name ns +:+ "'s owner vc exists.")])
  /\
  (forall e1,
      patrol.cached s vcNamespace vcName = inr e1 -> IsNotFound e1 = false ->
      verdict = false /\
      trace (patrol.lookups s) (patrol.shouldBeGarbageCollected ns) tt
      = [patrol.ListerGet vcNamespace vcName]).
Proof.
  intros vcName vcNamespace uid verdict Hname Hnamespace.
  assert (verdict = true <->
     (exists e1 e2,
         patrol.cached s vcNamespace vcName = inr e1 /\ IsNotFound e1 = true /\
         patrol.fresh s vcNamespace vcName = inr e2 /\ IsNotFound e2 = true)
     \/
     (exists vc v,
         patrol.cached s vcNamespace vcName = inl vc /\ vc_uid vc <> uid /\
         patrol.fresh s vcNamespace vcName = inl v /\ vc_uid v <> uid)) as Hiff.
  { subst verdict. unfold patrol.shouldBeGarbageCollected.
    fold vcName vcNamespace uid.
    rewrite (eqb_empty_false vcName), (eqb_empty_false vcNamespace) by done.
    cbn [orb]. prog. cbn [patrol.lookups fst snd].
    destruct (patrol.cached s vcNamespace vcName) as [vc|e1] eqn:Ec.
    - destruct (String.eqb_spec uid (vc_uid vc)) as [Hu|Hu]; cbn [negb]; prog.
      + split; [discriminate|].
        intros [(e1 & e2 & E & _)|(vc' & v & E & Hne & _)]; [discriminate|].
        injection E as <-. congruence.
      + cbn [patrol.lookups fst snd].
        destruct (patrol.fresh s vcNamespace vcName) as [v|e2] eqn:Ef; prog.
        * destruct (String.eqb_spec uid (vc_uid v)) as [Hv|Hv]; cbn [negb]; prog.
          -- split; [discriminate|].
             intros [(e1 & e2 & E & _)|(vc' & v' & _ & _ & E & Hne)]; [discriminate|].
             injection E as <-. congruence.
          -- split; [|done]. intros _. right. exists vc, v. by split_and!.
        * split; [discriminate|].
          intros [(e1 & e2' & E & _)|(vc' & v' & _ & _ & E & _)]; discriminate.
    - destruct (IsNotFound e1) eqn:En; prog.
      + cbn [patrol.lookups fst snd].
        destruct (patrol.fresh s vcNamespace vcName) as [v|e2] eqn:Ef; prog.
        * split; [discriminate|].
          intros [(e1' & e2 & _ & _ & E & _)|(vc' & v' & E & _)]; discriminate.
        * destruct (IsNotFound e2) eqn:En2; prog.
          -- split; [|done]. intros _. left. by exists e1, e2.
          -- split; [discriminate|].
             intros [(e1' & e2' & _ & _ & E & En2')|(vc' & v' & E & _)];
               [|discriminate].
             injection E as <-. congruence.
      + split; [discriminate|].
        intros [(e1' & e2 & E & En' & _)|(vc' & v' & E & _)]; [|discriminate].
        injection E as <-. congruence. }
  split; [exact Hiff|]. split; [|split].
  - intros Hv. split.
    + apply Hiff in Hv. unfold spec.gc_as_specified. fold vcName vcNamespace uid.
      destruct Hv as [(e1 & e2 & _ & _ & E & En)|(vc & v & _ & _ & E & Hne)].
      * left. by exists e2.
      * right. by exists v.
    + by apply shouldBeGarbageCollected_true_log.
  - intros vc Ec Hu. subst verdict. unfold patrol.shouldBeGarbageCollected.
    fold vcName vcNamespace uid.
    rewrite (eqb_empty_false vcName), (eqb_empty_false vcNamespace) by done.
    cbn [orb]. prog. cbn [patrol.lookups fst snd]. rewrite Ec.
    rewrite (proj2 (String.eqb_eq uid (vc_uid vc))) by done.
    cbn [negb]. prog. by split.
  - intros e1 Ec En. subst verdict. unfold patrol.shouldBeGarbageCollected.
    fold vcName vcNamespace uid.
    rewrite (eqb_empty_false vcName), (eqb_empty_false vcNamespace) by done.
    cbn [orb]. prog. cbn [patrol.lookups fst snd]. rewrite Ec, En.
    prog. by split.
Qed.

End GarbageCollection.

Lemma shouldBeGarbageCollected_double_checked_witness :
  at_key (ns_annotations examples.p_ns) (@LabelVCName spec_labels) <> "" /\
  at_key (ns_annotations examples.p_ns) (@LabelVCNamespace spec_labels) <> "" /\
  result (patrol.lookups examples.gone)
    (@patrol.shouldBeGarbageCollected spec_labels examples.p_ns) tt = true /\
  trace (patrol.lookups examples.gone)
    (@patrol.shouldBeGarbageCollected spec_labels examples.p_ns) tt
  = [patrol.ListerGet "vc-a" "demo"; patrol.ClientGet "vc-a" "demo"].
Proof.
  assert (at_key (ns_annotations examples.p_ns) (@LabelVCName spec_labels) <> "")
    as Hname by (vm_compute; discriminate).
  assert (at_key (ns_annotations examples.p_ns) (@LabelVCNamespace spec_labels) <> "")
    as Hnamespace by (vm_compute; discriminate).
  destruct (@shouldBeGarbageCollected_double_checked spec_labels examples.gone
              examples.p_ns Hname Hnamespace) as (_ & Hlog & _ & _).
  assert (result (patrol.lookups examples.gone)
            (@patrol.shouldBeGarbageCollected spec_labels examples.p_ns) tt = true)
    as Htrue by (vm_compute; reflexivity).
  split; [exact Hname|]. split; [exact Hnamespace|]. split; [exact Htrue|].
  destruct (Hlog Htrue) as [_ ->]. vm_compute. reflexivity.
Defined.

(** C1 as stated fails: the informer cache still holds the VirtualCluster
    under the annotated UID while the API server no longer has it; a fresh
    lookup would return NotFound, yet the namespace is not collected. *)
Lemma shouldBeGarbageCollected_trusts_cache_hit :
  at_key (ns_annotations examples.p_ns) (@LabelVCName spec_labels) <> "" /\
  at_key (ns_annotations examples.p_ns) (@LabelVCNamespace spec_labels) <> "" /\
  @spec.gc_as_specified spec_labels examples.stale_hit examples.p_ns /\
  result (patrol.lookups examples.stale_hit)
    (@patrol.shouldBeGarbageCollected spec_labels examples.p_ns) tt = false.
Proof.
  split_and!.
  - vm_compute. discriminate.
  - vm_compute. discriminate.
  - left. exists examples.NotFoundErr. split; reflexivity.
  - vm_compute. reflexivity.
Qed.

(** ** Deletions issued by the patroller *)

Section Deletions.
Context `{Labels} `{Conversion}.

Lemma deletions_app (t1 t2 : list patrol.Ev) :
  patrol.deletions (t1 ++ t2) = patrol.deletions t1 ++ patrol.deletions t2.
Proof. apply omap_app. Qed.

Lemma requeues_app (t1 t2 : list patrol.Ev) :
  patrol.requeues (t1 ++ t2) = patrol.requeues t1 ++ patrol.requeues t2.
Proof. apply omap_app. Qed.

Lemma deleteNamespace_effect {W} (h : handler patrol.resp W)
    (ns : Namespace) (w : W) :
  patrol.deletions (trace h (patrol.deleteNamespace ns) w)
  = [(ns_name ns,
      {| patrol.opt_Preconditions :=
           Some (patrol.NewUIDPreconditions (ns_uid ns)) |})] /\
  patrol.requeues (trace h (patrol.deleteNamespace ns) w) = [].
Proof.
  unfold patrol.deleteNamespace. prog.
  destruct (h (patrol.NamespacesDelete _ _) w) as [[e|] w1]; cbn [fst snd]; prog;
    split; reflexivity.
Qed.

Lemma AddFunc_effect {W} (h : handler patrol.resp W)
    (vObj : patrol.ClusterObject) (w : W) :
  patrol.deletions (trace h (patrol.AddFunc vObj) w) = [] /\
  patrol.requeues (trace h (patrol.AddFunc vObj) w)
  = [(patrol.OwnerCluster vObj, patrol.Object vObj)].
Proof.
  unfold patrol.AddFunc. prog.
  destruct (h (patrol.RequeueObject _ _) w) as [[e|] w1]; cbn [fst snd]; prog;
    split; reflexivity.
Qed.

(** C10. Every deletion that [deleteNamespace] issues for an observed
    namespace names that namespace and carries the UID precondition of the
    observed object, and exactly one is issued.  Against an API server that
    honours the precondition, a namespace that was deleted and recreated under
    a different UID survives the call; the observed object itself is
    removed. *)
Theorem deleteNamespace_uid_precondition {W} (h : handler patrol.resp W)
    (o : oracle patrol.resp) (observed : Namespace) (w : W)
    (store : gmap string Namespace) :
  patrol.deletions (trace h (patrol.deleteNamespace observed) w)
  = [(ns_name observed,
      {| patrol.opt_Preconditions :=
           Some {| patrol.pre_UID := Some (ns_uid observed);
                   patrol.pre_ResourceVersion := None |} |})]
  /\
  (forall recreated,
      store !! ns_name observed = Some recreated ->
      ns_uid recreated <> ns_uid observed ->
      final (patrol.super_cluster o) (patrol.deleteNamespace observed) store
      = store)
  /\
  (store !! ns_name observed = Some observed ->
   final (patrol.super_cluster o) (patrol.deleteNamespace observed) store
   = delete (ns_name observed) store).
Proof.
  split; [apply deleteNamespace_effect|].
  split.
  - intros recreated Hstored Hne.
    unfold patrol.deleteNamespace. prog.
    cbn [patrol.super_cluster]. unfold patrol.apiserver_delete.
    rewrite Hstored. cbn [patrol.opt_Preconditions patrol.NewUIDPreconditions].
    destruct (String.eqb_spec (ns_uid observed) (ns_uid recreated)) as [E|_];
      [congruence|].
    cbn [fst snd]. by prog.
  - intros Hstored.
    unfold patrol.deleteNamespace. prog.
    cbn [patrol.super_cluster]. unfold patrol.apiserver_delete.
    rewrite Hstored. cbn [patrol.opt_Preconditions patrol.NewUIDPreconditions].
    rewrite String.eqb_refl. cbn [fst snd]. by prog.
Qed.

(** C2, amended. In the patroller's update handler the super-cluster
    namespace is deleted, under the UID precondition of the observed object,
    exactly when [shouldBeGarbageCollected] holds of it or its tenant-UID
    annotation differs from the UID of the tenant namespace.  Otherwise nothing
    is deleted, and when the owning VirtualCluster can be fetched and the
    metadata of the two namespaces differs, the tenant namespace is re-queued
    on the reconciler. *)
Theorem UpdateFunc_deletes_or_requeues {W} (h : handler patrol.resp W)
    (c : patrol.controller) (vObj pObj : patrol.ClusterObject) (w : W) :
  let v := patrol.Object vObj in
  let p := patrol.Object pObj in
  let gc := result h (patrol.shouldBeGarbageCollected p) w in
  let w1 := final h (patrol.shouldBeGarbageCollected p) w in
  let orphan :=
    gc || negb (String.eqb (at_key (ns_annotations p) LabelUID) (ns_uid v)) in
  let t := trace h (patrol.UpdateFunc c vObj pObj) w in
  patrol.deletions t
  = (if orphan
     then [(ns_name p,
            {| patrol.opt_Preconditions :=
                 Some (patrol.NewUIDPreconditions (ns_uid p)) |})]
     else [])
  /\
  patrol.requeues t
  = (if orphan then []
     else
       match (h (patrol.GetVirtualClusterObject (patrol.OwnerCluster vObj)) w1).1 with
       | inl vc =>
           match CheckNamespaceEquality (patrol.Config c) vc p v with
           | Some _ => [(patrol.OwnerCluster vObj, v)]
           | None => []
           end
       | inr _ => []
       end).
Proof.
  intros v p gc w1 orphan t. subst t. unfold patrol.UpdateFunc.
  fold v p. rewrite trace_bind. fold gc w1 orphan.
  rewrite deletions_app, requeues_app.
  destruct (shouldBeGarbageCollected_no_effect h p w) as [-> ->].
  cbn [app].
  destruct orphan.
  - apply deleteNamespace_effect.
  - prog.
    destruct (h (patrol.GetVirtualClusterObject _) w1) as [[vc|err] w2];
      cbn [fst snd]; prog; [|done].
    destruct (CheckNamespaceEquality _ vc p v); prog; [|done].
    cbn [patrol.deletions patrol.requeues omap list_omap].
    apply AddFunc_effect.
Qed.

(** The delete handler deletes under the same precondition, or not at all. *)
Lemma DeleteFunc_deletions {W} (h : handler patrol.resp W)
    (known : gset string) (pObj : patrol.ClusterObject) (w : W) :
  let p := patrol.Object pObj in
  patrol.deletions (trace h (patrol.DeleteFunc known pObj) w) = []
  \/ patrol.deletions (trace h (patrol.DeleteFunc known pObj) w)
     = [(ns_name p,
         {| patrol.opt_Preconditions :=
              Some (patrol.NewUIDPreconditions (ns_uid p)) |})].
Proof.
  intros p. unfold patrol.DeleteFunc. fold p.
  destruct (String.eqb _ "true").
  - rewrite trace_bind, deletions_app.
    destruct (shouldBeGarbageCollected_no_effect h p w) as [-> _].
    destruct (result h _ w); [right; apply deleteNamespace_effect | by left].
  - destruct (bool_decide _); [right; apply deleteNamespace_effect|].
    rewrite trace_bind, deletions_app.
    destruct (shouldBeGarbageCollected_no_effect h p w) as [-> _].
    destruct (result h _ w); [right; apply deleteNamespace_effect | by left].
Qed.

End Deletions.

(** C2 as stated fails: the tenant namespace has gained a label, its owner
    exists under the annotated UID, and the update handler re-queues the
    tenant namespace instead of deleting the super-cluster namespace. *)
Lemma UpdateFunc_requeues_on_drift :
  ~ @spec.update_deletes_on_drift spec_labels label_conversion examples.healthy
      (@patrol.MkController label_conversion tt) examples.vObj examples.pObj.
Proof.
  intros Hclaim.
  destruct (Hclaim examples.demo_u1) as [opts Hin].
  - reflexivity.
  - unfold spec.metadata_drift. vm_compute. discriminate.
  - vm_compute in Hin. exact Hin.
Qed.

Example UpdateFunc_drift_trace :
  patrol.requeues
    (trace (ask examples.healthy)
       (@patrol.UpdateFunc spec_labels label_conversion
          (@patrol.MkController label_conversion tt) examples.vObj examples.pObj) tt)
  = [("vc-a-demo", examples.v_ns)]
  /\ patrol.deletions
    (trace (ask examples.healthy)
       (@patrol.UpdateFunc spec_labels label_conversion
          (@patrol.MkController label_conversion tt) examples.vObj examples.pObj) tt)
  = [].
Proof. split; vm_compute; reflexivity. Qed.

(** ** The namespace reconciler *)

Example Reconcile_quota_gone_trace :
  map (fun e => (scheduler.is_write e, scheduler.is_release e))
    (trace (ask examples.quota_gone)
       (@scheduler.Reconcile _ toy_placement_maps examples.request) tt)
  = [(false, false); (false, false); (false, false); (false, false);
     (false, false); (false, false); (true, false); (false, true)].
Proof. vm_compute. reflexivity. Qed.

Section Reconciler.
Context `{PlacementMaps}.

Lemma writes_app (t1 t2 : list scheduler.Ev) :
  scheduler.writes (t1 ++ t2) = scheduler.writes t1 ++ scheduler.writes t2.
Proof. apply omap_app. Qed.

Lemma releases_app (t1 t2 : list scheduler.Ev) :
  scheduler.releases (t1 ++ t2) = scheduler.releases t1 ++ scheduler.releases t2.
Proof. apply omap_app. Qed.

(** The annotation that an update attempt leaves on the working copy. *)
Lemma updateAttempt_annotation {W} (h : handler scheduler.resp W)
    (cluster : string) (pm : option (gmap string Z)) (clone : Namespace) (w : W) :
  exists n rest,
    trace h (scheduler.updateAttempt cluster pm clone) w
    = scheduler.NamespacesUpdate cluster n :: rest /\
    ns_annotations n !! LabelScheduledPlacements = (fun m => MarshalPlacements (Some m)) <$> pm /\
    scheduler.writes rest = [] /\ scheduler.releases rest = [] /\
    Forall (fun e => scheduler.is_tenant_api e = true) rest.
Proof.
  unfold scheduler.updateAttempt. prog.
  eexists _, _. split; [reflexivity|]. split.
  - destruct pm as [m|]; cbn [scheduler.set_annotations ns_annotations fmap option_fmap option_map].
    + apply lookup_insert_eq.
    + apply lookup_delete_eq.
  - destruct (h (scheduler.NamespacesUpdate _ _) w) as [[r|e] w1]; cbn [fst snd]; prog.
    + by split_and!.
    + destruct (h (scheduler.NamespacesGet _ _) w1) as [[got|e2] w2];
        cbn [fst snd]; prog; split_and!; try reflexivity;
        by repeat constructor.
Qed.


Lemma RetryOnConflict_trace {W} (h : handler scheduler.resp W)
    (cluster : string) (pm : option (gmap string Z)) (steps : nat) :
  forall (clone : Namespace) (lastErr : option GoError) (w : W),
    let t := trace h (scheduler.RetryOnConflict steps
                        (scheduler.updateAttempt cluster pm) clone lastErr) w in
    scheduler.releases t = [] /\
    Forall (fun e => scheduler.is_tenant_api e = true) t /\
    Forall (fun cn : string * Namespace =>
              cn.1 = cluster /\
              ns_annotations cn.2 !! LabelScheduledPlacements
              = (fun m => MarshalPlacements (Some m)) <$> pm) (scheduler.writes t).
Proof.
  induction steps as [|steps IH]; intros clone lastErr w; cbn zeta.
  - cbn [scheduler.RetryOnConflict]. prog. by split_and!.
  - cbn [scheduler.RetryOnConflict]. rewrite trace_bind.
    destruct (updateAttempt_annotation h cluster pm clone w)
      as (n & rest & -> & Hann & Hw & Hr & Hapi).
    destruct (result h (scheduler.updateAttempt cluster pm clone) w) as [[e|] s'].
    + destruct (IsConflict e).
      * specialize (IH s' (Some e)
                      (final h (scheduler.updateAttempt cluster pm clone) w)).
        cbn zeta in IH. destruct IH as (IHr & IHapi & IHw).
        unfold scheduler.releases, scheduler.writes in *.
        rewrite !omap_app. cbn [omap list_omap]. rewrite Hr, Hw, IHr.
        split_and!.
        -- reflexivity.
        -- apply Forall_app. split; [by constructor | exact IHapi].
        -- by constructor.
      * prog. rewrite app_nil_r.
        unfold scheduler.releases, scheduler.writes in *.
        cbn [omap list_omap]. rewrite Hr, Hw.
        split_and!; [reflexivity | by constructor | by repeat constructor].
    + prog. rewrite app_nil_r.
      unfold scheduler.releases, scheduler.writes in *.
      cbn [omap list_omap]. rewrite Hr, Hw.
      split_and!; [reflexivity | by constructor | by repeat constructor].
Qed.

Lemma updateSchedulingResult_trace {W} (h : handler scheduler.resp W)
    (cluster : string) (namespace : Namespace) (pm : option (gmap string Z))
    (w : W) :
  let t := trace h (scheduler.updateSchedulingResult cluster namespace pm) w in
  scheduler.releases t = [] /\
  Forall (fun e => scheduler.is_tenant_api e = true) t /\
  Forall (fun cn : string * Namespace =>
            cn.1 = cluster /\
            ns_annotations cn.2 !! LabelScheduledPlacements
            = (fun m => MarshalPlacements (Some m)) <$> pm) (scheduler.writes t).
Proof.
  cbn zeta. unfold scheduler.updateSchedulingResult. prog.
  destruct (h (scheduler.GetClusterClient cluster) w) as [[e|] w1]; cbn [fst snd].
  - prog. split_and!; [reflexivity | by repeat constructor | constructor].
  - destruct (RetryOnConflict_trace h cluster pm scheduler.DefaultBackoffSteps
                namespace None w1) as (Hr & Hapi & Hw).
    unfold scheduler.releases, scheduler.writes in *.
    cbn [omap list_omap].
    split_and!; [exact Hr | by constructor | exact Hw].
Qed.

Lemma updateAttempt_cases {W} (h : handler scheduler.resp W)
    (cluster : string) (pm : option (gmap string Z)) (clone : Namespace) (w : W) :
  (exists n (r : Namespace),
      result h (scheduler.updateAttempt cluster pm clone) w = (None, n) /\
      log h (scheduler.updateAttempt cluster pm clone) w
      = [existT (scheduler.NamespacesUpdate cluster n) (inl r)]) \/
  (exists e s',
      result h (scheduler.updateAttempt cluster pm clone) w = (Some e, s')).
Proof.
  unfold scheduler.updateAttempt. prog.
  destruct (h (scheduler.NamespacesUpdate _ _) w) as [[r|e] w1]; cbn [fst snd]; prog.
  - left. by eexists _, r.
  - right. destruct (h (scheduler.NamespacesGet _ _) w1) as [[got|e2] w2];
      cbn [fst snd]; prog; by eexists _, _.
Qed.

(** A retried update that reports success ends with a write that the tenant
    API server accepted. *)
Lemma RetryOnConflict_success {W} (h : handler scheduler.resp W)
    (cluster : string) (pm : option (gmap string Z)) (steps : nat) :
  forall (clone : Namespace) (lastErr : option GoError) (w : W),
    result h (scheduler.RetryOnConflict steps
                (scheduler.updateAttempt cluster pm) clone lastErr) w = None ->
    (steps = 0%nat /\ lastErr = None) \/
    exists pre n (r : Namespace),
      log h (scheduler.RetryOnConflict steps
               (scheduler.updateAttempt cluster pm) clone lastErr) w
      = pre ++ [existT (scheduler.NamespacesUpdate cluster n) (inl r)].
Proof.
  induction steps as [|steps IH]; intros clone lastErr w.
  - cbn [scheduler.RetryOnConflict]. prog. intros ->. by left.
  - cbn [scheduler.RetryOnConflict]. rewrite result_bind, log_bind.
    intros Hres. right.
    destruct (updateAttempt_cases h cluster pm clone w)
      as [(n & r & E & ->)|(e & s' & E)]; rewrite E in *.
    + prog. by eexists [], n, r.
    + destruct (IsConflict e); [|revert Hres; prog; discriminate].
      apply IH in Hres as [[_ ?]|(pre & n & r & ->)]; [discriminate|].
      rewrite app_assoc. by eexists _, n, r.
Qed.

Lemma updateSchedulingResult_success {W} (h : handler scheduler.resp W)
    (cluster : string) (namespace : Namespace) (pm : option (gmap string Z))
    (w : W) :
  result h (scheduler.updateSchedulingResult cluster namespace pm) w = None ->
  exists pre n (r : Namespace),
    log h (scheduler.updateSchedulingResult cluster namespace pm) w
    = pre ++ [existT (scheduler.NamespacesUpdate cluster n) (inl r)].
Proof.
  unfold scheduler.updateSchedulingResult. prog.
  destruct (h (scheduler.GetClusterClient cluster) w) as [[e|] w1]; cbn [fst snd];
    prog; [discriminate|].
  intros Hres. apply RetryOnConflict_success in Hres as [[? _]|(pre & n & r & ->)];
    [discriminate|].
  by eexists (_ :: pre), n, r.
Qed.


Lemma lookup_release (t : list scheduler.Ev) (i : nat) (key : string) :
  t !! i = Some (scheduler.DeScheduleNamespace key) -> key ∈ scheduler.releases t.
Proof.
  intros Hi. apply list_elem_of_omap.
  exists (scheduler.DeScheduleNamespace key). split; [|reflexivity].
  by eapply list_elem_of_lookup_2.
Qed.

Lemma lookup_write (t : list scheduler.Ev) (j : nat) (cluster : string)
    (ns : Namespace) :
  t !! j = Some (scheduler.NamespacesUpdate cluster ns) ->
  (cluster, ns) ∈ scheduler.writes t.
Proof.
  intros Hj. apply list_elem_of_omap.
  exists (scheduler.NamespacesUpdate cluster ns). split; [|reflexivity].
  by eapply list_elem_of_lookup_2.
Qed.

(** When all releases of a trace come after all its writes, no release
    precedes a write. *)
Lemma writes_then_releases (t tail : list scheduler.Ev) :
  scheduler.releases t = [] -> scheduler.writes tail = [] ->
  ~ spec.release_before_unannotate (t ++ tail).
Proof.
  intros Hr Hw (i & j & key & cluster & ns & Hi & Hj & _ & Hlt).
  destruct (decide (i < length t)%nat) as [Hlen|Hlen].
  - rewrite lookup_app_l in Hi by done.
    apply lookup_release in Hi. rewrite Hr in Hi. by apply elem_of_nil in Hi.
  - rewrite lookup_app_r in Hj by lia.
    apply lookup_write in Hj. rewrite Hw in Hj. by apply elem_of_nil in Hj.
Qed.

(** With zero expected slices: the annotation removal, then the release if
    the removal succeeded. *)
Lemma Reconcile_schedule_zero_trace {W} (h : handler scheduler.resp W)
    (request : scheduler.Request) (namespace : Namespace)
    (quota : gmap string Quantity) (placements : gmap string Z)
    (quotaSlice : gmap string Quantity) (w : W) :
  (GetLeastFitSliceNum quota quotaSlice).1 = 0 ->
  let cluster := scheduler.ClusterName request in
  let name := scheduler.Name request in
  let unannotate := scheduler.updateSchedulingResult cluster namespace None in
  trace h (scheduler.Reconcile_schedule request namespace quota placements
             quotaSlice) w
  = trace h unannotate w ++
    match result h unannotate w with
    | None => [scheduler.DeScheduleNamespace (cluster +:+ "/" +:+ name)]
    | Some _ => []
    end.
Proof.
  intros Hzero cluster name unannotate. unfold scheduler.Reconcile_schedule.
  rewrite Hzero. cbn [Z.eqb]. fold cluster name unannotate.
  rewrite trace_bind. f_equal.
  destruct (result h unannotate w) as [e|]; cbn [scheduler.failing]; prog;
    [reflexivity|].
  by destruct (h (scheduler.DeScheduleNamespace _) _) as [[e|] w1];
    cbn [fst snd scheduler.failing]; prog.
Qed.

(** C3, amended. Whenever a reconcile of a tenant namespace computes
    [expectedSlices] equal to zero, the reconciler first issues the removal of
    the [scheduled.placements] annotation, and releases the namespace's entry
    from the scheduler cache only after the tenant API server has accepted the
    removal (unannotate-before-release); when the removal fails the cache
    entry is not released and the error is returned. *)
Theorem Reconcile_unannotates_then_releases {W} (h : handler scheduler.resp W)
    (request : scheduler.Request) (namespace : Namespace)
    (quota : gmap string Quantity) (placements : gmap string Z)
    (quotaSlice : gmap string Quantity) (w : W) :
  (GetLeastFitSliceNum quota quotaSlice).1 = 0 ->
  let cluster := scheduler.ClusterName request in
  let name := scheduler.Name request in
  let unannotate := scheduler.updateSchedulingResult cluster namespace None in
  let reconcile :=
    scheduler.Reconcile_schedule request namespace quota placements quotaSlice in
  (* the removal first, and the release once it has succeeded *)
  trace h reconcile w
  = trace h unannotate w ++
    match result h unannotate w with
    | None => [scheduler.DeScheduleNamespace (cluster +:+ "/" +:+ name)]
    | Some _ => []
    end
  /\ scheduler.releases (trace h unannotate w) = []
  /\ Forall (fun cn : string * Namespace =>
               cn.1 = cluster /\
               ns_annotations cn.2 !! LabelScheduledPlacements = None)
        (scheduler.writes (trace h reconcile w))
  /\ (result h unannotate w = None ->
      exists pre n (r : Namespace),
        log h unannotate w
        = pre ++ [existT (scheduler.NamespacesUpdate cluster n) (inl r)])
  /\ (forall e, result h unannotate w = Some e ->
      scheduler.releases (trace h reconcile w) = [] /\
      result h reconcile w
      = Raise (Errorf ("failed to remove scheduing placements from namespace "
                       +:+ name +:+ " in " +:+ cluster +:+ ": " +:+ err_msg e)))
  /\ ~ spec.release_before_unannotate (trace h reconcile w).
Proof.
  intros Hzero cluster name unannotate reconcile.
  destruct (updateSchedulingResult_trace h cluster namespace None w)
    as (Hrel & _ & Hwr). fold unannotate in Hrel, Hwr.
  pose proof (Reconcile_schedule_zero_trace h request namespace quota placements
                quotaSlice w Hzero) as Htrace.
  cbn zeta in Htrace. fold cluster name unannotate reconcile in Htrace.
  split_and!.
  - exact Htrace.
  - exact Hrel.
  - rewrite Htrace, writes_app. apply Forall_app. split; [exact Hwr|].
    destruct (result h unannotate w); constructor.
  - apply updateSchedulingResult_success.
  - intros e He. rewrite Htrace, He, app_nil_r. split; [exact Hrel|].
    subst reconcile. unfold scheduler.Reconcile_schedule.
    rewrite Hzero. cbn [Z.eqb]. fold cluster name unannotate.
    rewrite result_bind, He. cbn [scheduler.failing]. by prog.
  - rewrite Htrace. apply writes_then_releases; [exact Hrel|].
    by destruct (result h unannotate w).
Qed.

End Reconciler.

Lemma Reconcile_unannotates_then_releases_witness :
  (@GetLeastFitSliceNum toy_scheduling ∅ (<["memory" := 4]> (<["cpu" := 2]> ∅))).1 = 0 /\
  trace (ask examples.quota_gone)
    (@scheduler.Reconcile_schedule _ toy_placement_maps examples.request
       examples.tenant_ns ∅ ∅ (<["memory" := 4]> (<["cpu" := 2]> ∅))) tt
  = trace (ask examples.quota_gone)
      (@scheduler.updateSchedulingResult toy_scheduling
         (scheduler.ClusterName examples.request) examples.tenant_ns None) tt
    ++ match result (ask examples.quota_gone)
               (@scheduler.updateSchedulingResult toy_scheduling
                  (scheduler.ClusterName examples.request) examples.tenant_ns None) tt
       with
       | None =>
           [scheduler.DeScheduleNamespace
              (scheduler.ClusterName examples.request +:+ "/"
               +:+ scheduler.Name examples.request)]
       | Some _ => []
       end.
Proof.
  assert ((@GetLeastFitSliceNum toy_scheduling ∅
             (<["memory" := 4]> (<["cpu" := 2]> ∅))).1 = 0) as Hzero
    by (vm_compute; reflexivity).
  split; [exact Hzero|].
  exact (proj1 (@Reconcile_unannotates_then_releases _ toy_placement_maps unit
                  (ask examples.quota_gone) examples.request examples.tenant_ns
                  ∅ ∅ (<["memory" := 4]> (<["cpu" := 2]> ∅)) tt Hzero)).
Defined.

(** C3 as stated fails: with the quota gone the reconcile computes zero
    expected slices, removes the annotation and only then releases the cache
    entry; no release precedes the annotation removal. *)
Lemma Reconcile_unannotates_before_release :
  trace (ask examples.quota_gone)
    (@scheduler.Reconcile _ toy_placement_maps examples.request) tt
  = [scheduler.Klog scheduler.Info
       "reconcile namespace default for virtual cluster vc-a-demo";
     scheduler.GetOwnerInfo "vc-a-demo";
     scheduler.DirtyLoad "vc-a/demo";
     scheduler.MCGet "vc-a-demo" "" "default";
     scheduler.MCListQuota "vc-a-demo" "default";
     scheduler.GetClusterClient "vc-a-demo";
     scheduler.NamespacesUpdate "vc-a-demo"
       {| ns_name := "default"; ns_uid := "t1"; ns_labels := ∅;
          ns_annotations := ∅ |};
     scheduler.DeScheduleNamespace "vc-a-demo/default"]
  /\ ~ @spec.release_before_unannotate toy_scheduling
        (trace (ask examples.quota_gone)
           (@scheduler.Reconcile _ toy_placement_maps examples.request) tt).
Proof.
  assert (trace (ask examples.quota_gone)
            (@scheduler.Reconcile _ toy_placement_maps examples.request) tt
          = [scheduler.Klog scheduler.Info
               "reconcile namespace default for virtual cluster vc-a-demo";
             scheduler.GetOwnerInfo "vc-a-demo";
             scheduler.DirtyLoad "vc-a/demo";
             scheduler.MCGet "vc-a-demo" "" "default";
             scheduler.MCListQuota "vc-a-demo" "default";
             scheduler.GetClusterClient "vc-a-demo";
             scheduler.NamespacesUpdate "vc-a-demo"
               {| ns_name := "default"; ns_uid := "t1"; ns_labels := ∅;
                  ns_annotations := ∅ |}]
            ++ [scheduler.DeScheduleNamespace "vc-a-demo/default"]) as E
    by reflexivity.
  split; [exact E|].
  rewrite E. apply writes_then_releases; reflexivity.
Qed.

Section Publishing.
Context `{PlacementMaps}.




(** In every run, the writes to the tenant API server come before the
    releases of the cache entry. *)
Lemma Reconcile_schedule_order {W} (h : handler scheduler.resp W)
    (request : scheduler.Request) (namespace : Namespace)
    (quota : gmap string Quantity) (placements : gmap string Z)
    (quotaSlice : gmap string Quantity) (w : W) :
  exists t tail,
    trace h (scheduler.Reconcile_schedule request namespace quota placements
               quotaSlice) w = t ++ tail /\
    scheduler.releases t = [] /\ scheduler.writes tail = [].
Proof.
  destruct (Z.eqb_spec (GetLeastFitSliceNum quota quotaSlice).1 0) as [Hzero|Hpos].
  - rewrite (Reconcile_schedule_zero_trace h request namespace quota placements
               quotaSlice w Hzero).
    eexists _, _. split; [reflexivity|]. split.
    + apply updateSchedulingResult_trace.
    + by destruct (result h _ w).
  - unfold scheduler.Reconcile_schedule.
    destruct (Z.eqb_spec (GetLeastFitSliceNum quota quotaSlice).1 0) as [|_];
      [done|].
    destruct (_ =? _).
    + exists [], (trace h
                    (let* err := call (scheduler.EnsureNamespacePlacements
                        (NewNamespace _ (scheduler.ClusterName request)
                           (scheduler.Name request) (ns_labels namespace) quota
                           quotaSlice
                           (map (fun kv : string * Z => NewPlacement kv.1 kv.2)
                              (map_to_list placements)))) in
                     try* _ := scheduler.failing err (fun e =>
                       "failed to ensure namespace " +:+ scheduler.Name request
                       +:+ "'s placements in " +:+ scheduler.ClusterName request
                       +:+ ": " +:+ err_msg e) in
                     Ret (Done {| scheduler.RequeueAfter := 0 |})) w).
      split; [reflexivity|]. split; [reflexivity|]. prog.
      by destruct (h (scheduler.EnsureNamespacePlacements _) w) as [[e|] w1];
        cbn [fst snd scheduler.failing]; prog.
    + eexists _, []. rewrite app_nil_r. split; [reflexivity|].
      split; [|reflexivity]. prog.
      destruct (h (scheduler.ScheduleNamespace _) w) as [[ret|err] w1];
        cbn [fst snd]; prog; [|reflexivity].
      destruct (updateSchedulingResult_trace h (scheduler.ClusterName request)
                  namespace (GetPlacementMap ret) w1) as (Hrel & _).
      unfold scheduler.releases in *. cbn [omap list_omap].
      rewrite trace_bind, omap_app, Hrel. cbn [app].
      destruct (result h _ w1) as [e|]; prog; [reflexivity|].
      by destruct (h (scheduler.Eventf _ _ _ _ _) _) as [[e|] w3];
        cbn [fst snd]; prog.
Qed.

(** No run of [Reconcile] releases the cache entry before it writes the
    annotation. *)
Lemma Reconcile_never_releases_first {W} (h : handler scheduler.resp W)
    (request : scheduler.Request) (w : W) :
  ~ spec.release_before_unannotate (trace h (scheduler.Reconcile request) w).
Proof.
  unfold scheduler.Reconcile. prog.
  destruct (h (scheduler.Klog _ _) w) as [[] w0]; cbn [fst snd].
  destruct (h (scheduler.GetOwnerInfo _) w0) as [[[[vcName vcNamespace] vcUID]|err] w1];
    cbn [fst snd]; prog;
    [|by apply (writes_then_releases [])].
  destruct (h (scheduler.DirtyLoad _) w1) as [[|] w2]; cbn [fst snd]; prog;
    [by apply (writes_then_releases [])|].
  destruct (h (scheduler.MCGet _ _ _) w2) as [[namespace|err] w3]; cbn [fst snd]; prog.
  2:{ destruct (negb (IsNotFound err)); prog;
        [by apply (writes_then_releases [])|].
      destruct (h (scheduler.Klog _ _) w3) as [[] w4]; cbn [fst snd].
      by destruct (h (scheduler.DeScheduleNamespace _) w4) as [[e|] w5];
        cbn [fst snd scheduler.failing]; prog; apply (writes_then_releases []). }
  destruct (h (scheduler.MCListQuota _ _) w3) as [[quotaList|err] w4];
    cbn [fst snd]; prog.
  - destruct (GetSchedulingInfo namespace) as [[placements quotaSlice]|err];
      prog; [|by apply (writes_then_releases [])].
    destruct (Reconcile_schedule_order h request namespace
                (GetMaxQuota quotaList) placements quotaSlice w4)
      as (t & tail & -> & Hrel & Hwr).
    apply (writes_then_releases (_ :: _ :: _ :: _ :: _ :: t) tail); [|exact Hwr].
    unfold scheduler.releases in *. cbn [omap list_omap]. exact Hrel.
  - destruct (negb (IsNotFound err)); prog; [by apply (writes_then_releases [])|].
    destruct (GetSchedulingInfo namespace) as [[placements quotaSlice]|err'];
      prog; [|by apply (writes_then_releases [])].
    destruct (Reconcile_schedule_order h request namespace
                (<[scheduler.ResourceMemory := MustParse "0"]>
                   (<[scheduler.ResourceCPU := MustParse "0"]> ∅))
                placements quotaSlice w4)
      as (t & tail & -> & Hrel & Hwr).
    apply (writes_then_releases (_ :: _ :: _ :: _ :: _ :: t) tail); [|exact Hwr].
    unfold scheduler.releases in *. cbn [omap list_omap]. exact Hrel.
Qed.

End Publishing.


Example Reconcile_no_capacity_result :
  result (ask examples.no_capacity)
    (@scheduler.Reconcile _ toy_placement_maps examples.request) tt
  = Raise (Errorf "failed to schedule namespace default in vc-a-demo: insufficient capacity")
  /\ scheduler.writes
       (trace (ask examples.no_capacity)
          (@scheduler.Reconcile _ toy_placement_maps examples.request) tt) = [].
Proof. split; reflexivity. Qed.

(** ** Calls that a program can issue *)

Section EveryCall.
Context {Ev : Type} {resp : Ev -> Type}.

Lemma every_call_bind {A B} (P : Ev -> Prop) (m : Prog resp A)
    (f : A -> Prog resp B) :
  every_call P m -> (forall a, every_call P (f a)) -> every_call P (bind m f).
Proof.
  intros Hm Hf. induction Hm as [r|e k He Hk IH]; cbn [bind].
  - apply Hf.
  - by constructor.
Qed.

Lemma every_call_trace {W R} (P : Ev -> Prop) (p : Prog resp R) :
  every_call P p -> forall (h : handler resp W) (w : W), Forall P (trace h p w).
Proof.
  intros Hp h. induction Hp as [r|e k He Hk IH]; intros w; prog.
  - constructor.
  - constructor; [exact He | apply IH].
Qed.

Lemma every_call_impl {R} (P Q : Ev -> Prop) (p : Prog resp R) :
  (forall e, P e -> Q e) -> every_call P p -> every_call Q p.
Proof. intros HPQ Hp. induction Hp; constructor; auto. Qed.

End EveryCall.

(** ** Create-or-skip *)

Section CreateOrSkip.
Context `{PkiMaterial} `{Naming}.

Lemma skips_bindO {A B} (m : Prog provisioner.resp (Outcome A))
    (f : A -> Prog provisioner.resp (Outcome B)) :
  provisioner.skips_existing m ->
  (forall a, provisioner.skips_existing (f a)) ->
  provisioner.skips_existing (bindO m f).
Proof.
  intros Hm Hf.
  induction Hm as [o|o k Hother Hexists Hk IH|e k Hc Hm Hk IH]; cbn [bindO bind].
  - destruct o; [apply Hf | constructor | constructor].
  - apply provisioner.skips_Create.
    + intros err He. cbn beta. by rewrite (Hother err He).
    + intros err He. cbn beta. destruct (Hexists err He) as (msg & kv & ->).
      by exists msg, kv.
    + exact IH.
  - apply provisioner.skips_Vis; [exact Hc | exact Hm | exact IH].
Qed.

(** No mutation is ever issued. *)
Lemma skips_existing_never_mutates {A} (p : Prog provisioner.resp (Outcome A)) :
  provisioner.skips_existing p ->
  every_call (fun e => provisioner.is_mutation e = false) p.
Proof.
  intros Hp. induction Hp as [o|o k Hother Hexists Hk IH|e k Hc Hm Hk IH].
  - constructor.
  - constructor; [reflexivity|]. intros [err|]; [|exact IH].
    destruct (IsAlreadyExists err) eqn:He.
    + destruct (Hexists err He) as (msg & kv & ->).
      constructor; [reflexivity | intros _; exact IH].
    + rewrite (Hother err He). constructor.
  - constructor; [exact Hm | exact IH].
Qed.

Lemma create_error_other {W} (h : handler provisioner.resp W)
    (e : provisioner.Ev) (r : provisioner.resp e) :
  provisioner.is_create e = false ->
  provisioner.create_error (existT e r) = None.
Proof. by destruct e. Qed.

(** A create refused for another reason than AlreadyExists is the last call,
    and its error is the outcome. *)
Lemma skips_existing_other_error {A W} (h : handler provisioner.resp W)
    (p : Prog provisioner.resp (Outcome A)) :
  provisioner.skips_existing p ->
  forall (w : W) (i : nat) x o err,
    log h p w !! i = Some x ->
    provisioner.create_error x = Some (o, err) ->
    IsAlreadyExists err = false ->
    S i = length (log h p w) /\ result h p w = Raise err.
Proof.
  intros Hp.
  induction Hp as [out|o k Hother Hexists Hk IH|e k Hc Hm Hk IH];
    intros w i x o' err; prog.
  - intros Hi. by destruct i.
  - destruct (h (provisioner.Create o) w) as [ans w1]; cbn [fst snd].
    destruct i as [|i]; cbn [lookup list_lookup].
    + intros [= <-]. cbn [provisioner.create_error].
      destruct ans as [e'|]; [|discriminate]. intros [= <- <-] He.
      rewrite (Hother _ He). by prog.
    + destruct ans as [e'|].
      * destruct (IsAlreadyExists e') eqn:He'.
        -- destruct (Hexists e' He') as (msg & kv & ->). prog.
           destruct i as [|i]; cbn [lookup list_lookup].
           ++ intros [= <-]. discriminate.
           ++ intros Hi Hx He. cbn [length].
              destruct (IH _ _ _ _ _ Hi Hx He) as [-> ->]. done.
        -- rewrite (Hother _ He'). prog. intros Hi. by destruct i.
      * intros Hi Hx He. cbn [length].
        destruct (IH _ _ _ _ _ Hi Hx He) as [-> ->]. done.
  - destruct i as [|i]; cbn [lookup list_lookup].
    + intros [= <-]. by rewrite (create_error_other h).
    + intros Hi Hx He. cbn [length].
      destruct (IH _ _ _ _ _ _ Hi Hx He) as [-> ->]. done.
Qed.

Lemma forgive_other {W} (h : handler provisioner.resp W) (e : provisioner.Ev)
    (w : W) :
  provisioner.is_create e = false -> provisioner.forgive h e w = h e w.
Proof. by destruct e. Qed.

Lemma calls_cons (e : provisioner.Ev) (t : list provisioner.Ev) :
  provisioner.calls (e :: t)
  = if negb (provisioner.is_log e) then e :: provisioner.calls t
    else provisioner.calls t.
Proof. reflexivity. Qed.

(** An AlreadyExists answer is a success: when logging leaves the environment
    alone, outcome, final state and calls are those of the environment in
    which these creates succeed. *)
Lemma skips_existing_forgives {A W} (h : handler provisioner.resp W)
    (p : Prog provisioner.resp (Outcome A)) :
  provisioner.log_neutral h ->
  provisioner.skips_existing p ->
  forall w : W,
    result h p w = result (provisioner.forgive h) p w /\
    final h p w = final (provisioner.forgive h) p w /\
    provisioner.calls (trace h p w)
    = provisioner.calls (trace (provisioner.forgive h) p w).
Proof.
  intros Hlog Hp.
  induction Hp as [out|o k Hother Hexists Hk IH|e k Hc Hm Hk IH]; intros w; prog.
  - done.
  - cbn [provisioner.forgive fst snd].
    destruct (h (provisioner.Create o) w) as [[err|] w1]; cbn [fst snd].
    + destruct (IsAlreadyExists err) eqn:He.
      * destruct (Hexists err He) as (msg & kv & ->). prog.
        rewrite Hlog, !calls_cons. cbn [provisioner.is_log negb].
        destruct (IH w1) as (-> & -> & ->). done.
      * rewrite (Hother err He). by prog.
    + rewrite !calls_cons. cbn [provisioner.is_log negb].
      destruct (IH w1) as (-> & -> & ->). done.
  - rewrite !forgive_other by done. rewrite !calls_cons.
    destruct (IH (h e w).1 (h e w).2) as (-> & -> & ->). done.
Qed.

End CreateOrSkip.

(** ** The provisioner *)

(** The three obligations of a create site whose continuation is at hand. *)
Ltac create_site :=
  apply provisioner.skips_Create;
  [ let He := fresh "He" in
    intros ? He; cbn beta iota; rewrite He; cbn [negb bind bindO]; reflexivity
  | let He := fresh "He" in
    intros ? He; cbn beta iota; rewrite He; cbn [negb bind bindO];
    eexists _, _; reflexivity
  | cbn beta iota; cbn [bind bindO] ].

(** A call that is neither a create nor a mutation. *)
Ltac plain_call :=
  apply provisioner.skips_Vis; [reflexivity | reflexivity | intros ?].

Section ProvisionerSkips.
Context `{PkiMaterial} `{Naming}.

Lemma createPKISecrets_loop_skips (secrets : list Secret) :
  provisioner.skips_existing (provisioner.createPKISecrets_loop secrets).
Proof.
  induction secrets as [|srt rest IH]; cbn [provisioner.createPKISecrets_loop].
  - constructor.
  - unfold call. cbn [bind]. plain_call. create_site. exact IH.
Qed.

Lemma createPKISecrets_skips (caGroup : ClusterCAGroup) (namespace : string) :
  provisioner.skips_existing (provisioner.createPKISecrets caGroup namespace).
Proof.
  unfold provisioner.createPKISecrets.
  destruct (secret.RsaKeyToSecret _ _ _); [apply createPKISecrets_loop_skips|].
  constructor.
Qed.


(** Walk through a program up to its create sites. *)
Ltac walk :=
  repeat first
    [ apply provisioner.skips_Ret
    | apply createPKISecrets_skips
    | progress (unfold call, provisioner.checked; cbn [bind bindO])
    | plain_call
    | create_site
    | match goal with
      | |- provisioner.skips_existing (match ?x with _ => _ end) => destruct x
      | |- provisioner.skips_existing (if ?c then _ else _) => destruct c
      | |- provisioner.skips_existing (bindO (match ?x with _ => _ end) _) =>
          destruct x
      | |- provisioner.skips_existing (bindO (if ?c then _ else _) _) =>
          destruct c
      | |- provisioner.skips_existing (bind (match ?x with _ => _ end) _) =>
          destruct x
      | |- provisioner.skips_existing (bind (if ?c then _ else _) _) =>
          destruct c
      | |- provisioner.skips_existing (bindO _ _) =>
          apply skips_bindO; [|intros ?]
      end ].

Lemma createPKI_skips (vc : VirtualCluster) (cv : ClusterVersion)
    (isClusterIP : bool) :
  provisioner.skips_existing (provisioner.createPKI vc cv isClusterIP).
Proof. unfold provisioner.createPKI. walk. Qed.

Lemma deployComponent_skips (mpn : provisioner.Native) (vc : VirtualCluster)
    (ssBdl : StatefulSetSvcBundle) :
  provisioner.skips_existing (provisioner.deployComponent mpn vc ssBdl).
Proof. unfold provisioner.deployComponent. walk. Qed.


Lemma CreateVirtualCluster_skips (mpn : provisioner.Native) (vc : VirtualCluster) :
  provisioner.skips_existing (provisioner.CreateVirtualCluster mpn vc).
Proof.
  unfold provisioner.CreateVirtualCluster.
  pose proof (createPKI_skips vc) as Hpki.
  pose proof (deployComponent_skips mpn vc) as Hdeploy.
  revert Hpki Hdeploy.
  generalize (provisioner.createPKI vc) (provisioner.deployComponent mpn vc).
  intros pki deploy Hpki Hdeploy.
  repeat first
    [ apply Hpki
    | apply Hdeploy
    | apply provisioner.skips_Ret
    | progress (unfold call, provisioner.checked; cbn [bind bindO])
    | plain_call
    | create_site
    | match goal with
      | |- provisioner.skips_existing (match ?x with _ => _ end) => destruct x
      | |- provisioner.skips_existing (if ?c then _ else _) => destruct c
      | |- provisioner.skips_existing (bindO _ _) =>
          apply skips_bindO; [|intros ?]
      | |- provisioner.skips_existing (bind (match ?x with _ => _ end) _) =>
          destruct x
      | |- provisioner.skips_existing (bind (if ?c then _ else _) _) =>
          destruct c
      end ].
Qed.

End ProvisionerSkips.

Section ProvisionerOrder.
Context `{PkiMaterial} `{Naming}.

(** C9. Every create issued during provisioning (API server service, PKI
    secrets, component StatefulSets and services) treats an AlreadyExists
    error as success: no update, patch or delete is ever issued, so what
    exists is left as it is; outcome, final state and calls are those of a
    run in which these creates succeed; and a create refused with any other
    error is the last call of the run, whose outcome is that error. *)
Theorem CreateVirtualCluster_create_or_skip {W} (h : handler provisioner.resp W)
    (mpn : provisioner.Native) (vc : VirtualCluster) (w : W) :
  let p := provisioner.CreateVirtualCluster mpn vc in
  Forall (fun e => provisioner.is_mutation e = false) (trace h p w)
  /\
  (forall (i : nat) x o err,
      log h p w !! i = Some x ->
      provisioner.create_error x = Some (o, err) ->
      IsAlreadyExists err = false ->
      S i = length (log h p w) /\ result h p w = Raise err)
  /\
  (provisioner.log_neutral h ->
   result h p w = result (provisioner.forgive h) p w /\
   final h p w = final (provisioner.forgive h) p w /\
   provisioner.calls (trace h p w)
   = provisioner.calls (trace (provisioner.forgive h) p w)).
Proof.
  intros p. pose proof (CreateVirtualCluster_skips mpn vc) as Hp. fold p in Hp.
  split_and!.
  - by apply every_call_trace, skips_existing_never_mutates.
  - by apply skips_existing_other_error.
  - intros Hlog. by apply skips_existing_forgives.
Qed.










End ProvisionerOrder.

(** ** The address of the kubeconfigs *)

Section KubeconfigAddress.
Context `{PkiMaterial} `{Naming}.

Lemma omap_none {A B} (f : A -> option B) (l : list A) :
  Forall (fun x => f x = None) l -> omap f l = [].
Proof.
  induction 1 as [|x l Hx _ IH]; [reflexivity|].
  cbn [omap list_omap]. by rewrite Hx, IH.
Qed.

(** Storing the secrets only logs and creates. *)
Lemma createPKISecrets_calls (caGroup : ClusterCAGroup) (namespace : string) :
  every_call (fun e => provisioner.is_log e = true \/ provisioner.is_create e = true)
    (provisioner.createPKISecrets caGroup namespace).
Proof.
  unfold provisioner.createPKISecrets.
  destruct (secret.RsaKeyToSecret _ _ _) as [svcActSrt|err]; [|constructor].
  generalize [secret.CrtKeyPairToSecret secret.RootCASecretName namespace (RootCA caGroup);
              secret.CrtKeyPairToSecret secret.APIServerCASecretName namespace
                (APIServer caGroup);
              secret.CrtKeyPairToSecret secret.ETCDCASecretName namespace (ETCD caGroup);
              secret.CrtKeyPairToSecret secret.FrontProxyCASecretName namespace
                (FrontProxy caGroup);
              secret.KubeconfigToSecret secret.ControllerManagerSecretName namespace
                (CtrlMgrKbCfg caGroup);
              secret.KubeconfigToSecret secret.AdminSecretName namespace
                (AdminKbCfg caGroup);
              svcActSrt].
  intros secrets. induction secrets as [|srt rest IH];
    cbn [provisioner.createPKISecrets_loop]; [constructor|].
  unfold call. cbn [bind].
  constructor; [by left|]. intros _.
  constructor; [by right|]. intros [e|]; [|exact IH].
  destruct (negb (IsAlreadyExists e)); [constructor|].
  constructor; [by left|]. intros _. exact IH.
Qed.

Lemma createPKISecrets_silent {W} (h : handler provisioner.resp W)
    (caGroup : ClusterCAGroup) (namespace : string) (w : W)
    (o : Outcome unit) (w' : W) (l : list (entry provisioner.resp)) :
  run h (provisioner.createPKISecrets caGroup namespace) w = (o, w', l) ->
  omap provisioner.cluster_ip_answer l = [] /\
  provisioner.kubeconfig_requests
    (map (fun x : entry provisioner.resp => projT1 x) l) = [] /\
  (forall ns name,
      ~ In (provisioner.GetSvcClusterIP ns name)
          (map (fun x : entry provisioner.resp => projT1 x) l)).
Proof.
  intros Hrun.
  pose proof (every_call_trace _ _ (createPKISecrets_calls caGroup namespace) h w)
    as Hall.
  unfold trace, log in Hall. rewrite Hrun in Hall. cbn [snd] in Hall.
  split_and!.
  - apply omap_none. rewrite Forall_map in Hall.
    eapply Forall_impl; [exact Hall|].
    intros [e r] He. cbn [projT1] in He.
    destruct e; try reflexivity; destruct He; discriminate.
  - apply omap_none. eapply Forall_impl; [exact Hall|].
    intros e He. destruct e; try reflexivity; destruct He; discriminate.
  - intros ns name Hin. rewrite Forall_forall in Hall.
    apply list_elem_of_In, Hall in Hin. destruct Hin; discriminate.
Qed.

(** One step of a run that is known by its outcome: the next call is
    answered by [x] in state [w1], or the program has returned. *)
Tactic Notation "forward_call" constr(h) ident(Hrun) ident(x) ident(w1) :=
  unfold call in Hrun; cbn [bind bindO provisioner.checked] in Hrun;
  apply run_Vis_inv in Hrun as (? & -> & Hrun);
  match type of Hrun with
  | context [h ?e ?w] => destruct (h e w) as [x w1]
  end;
  cbn [fst snd] in Hrun.

Tactic Notation "forward_ret" ident(Hrun) :=
  unfold call in Hrun; cbn [bind bindO provisioner.checked] in Hrun;
  apply run_Ret_inv in Hrun as (-> & -> & ->).

(** A lookup of the cluster IP found in a log that is known. *)
Ltac lookup_found :=
  let Hin := fresh "Hin" in
  intros ? ? Hin; cbn [In] in Hin;
  repeat match type of Hin with
         | _ \/ _ => destruct Hin as [Hin|Hin]
         end;
  first
    [ discriminate Hin
    | exact (False_ind _ Hin)
    | match goal with
      | Hl : forall _ _, ~ In _ _ |- _ => exfalso; exact (Hl _ _ Hin)
      end
    | injection Hin as <- <-; split_and!; [reflexivity | reflexivity | eauto] ].

(** The end of a branch: the log is known, the statement is computed. *)
Ltac leaf :=
  cbn zeta;
  unfold spec.both_kubeconfigs, spec.server_address,
    provisioner.obtained_cluster_ip, provisioner.kubeconfig_requests in *;
  cbn [map projT1 omap list_omap provisioner.cluster_ip_answer head default
       fst snd succeeded In negb];
  repeat match goal with
         | Hnil : omap _ _ = [] |- _ => rewrite Hnil
         end;
  cbn [head default from_option id];
  try match goal with
      | |- context [String.eqb ?ip ""] => is_var ip; destruct (String.eqb ip "")
      end;
  (cbn [negb];
   split_and!;
   [ first [ by apply prefix_nil | by eexists [_] | by eexists [] ]
   | first [ intros; discriminate | intros _; reflexivity ]
   | first [ intros _; reflexivity | intros; discriminate ]
   | lookup_found ]).

(** From the API server certificate to the stored secrets. *)
Tactic Notation "finish_pki" constr(h) ident(Hrun) :=
  let api := fresh "api" in
  let k1 := fresh "k1" in
  let k2 := fresh "k2" in
  let sa := fresh "sa" in
  let wa := fresh "w" in
  let wb := fresh "w" in
  let wc := fresh "w" in
  let wd := fresh "w" in
  forward_call h Hrun api wa; destruct api as [api|?];
    [|forward_ret Hrun; leaf];
  forward_call h Hrun k1 wb; destruct k1 as [k1|?];
    [|forward_ret Hrun; leaf];
  forward_call h Hrun k2 wc; destruct k2 as [k2|?];
    [|forward_ret Hrun; leaf];
  forward_call h Hrun sa wd; destruct sa as [sa|?];
    [|forward_ret Hrun; leaf];
  apply createPKISecrets_silent in Hrun as (? & ? & ?); leaf.

Lemma createPKI_requests {W} (h : handler provisioner.resp W)
    (vc : VirtualCluster) (cv : ClusterVersion) (isClusterIP : bool) (w : W)
    (o : Outcome unit) (w' : W) (l : list (entry provisioner.resp)) :
  run h (provisioner.createPKI vc cv isClusterIP) w = (o, w', l) ->
  let t := map (fun x : entry provisioner.resp => projT1 x) l in
  let both := spec.both_kubeconfigs vc (spec.server_address vc cv l) in
  provisioner.kubeconfig_requests t `prefix_of` both
  /\ (succeeded o = true -> provisioner.kubeconfig_requests t = both)
  /\ (isClusterIP = false -> provisioner.obtained_cluster_ip l = "")
  /\ (forall ns name,
        In (provisioner.GetSvcClusterIP ns name) t ->
        isClusterIP = true /\ ns = ToClusterKey vc /\
        exists svc, bdl_svc (cv_apiserver cv) = Some svc /\ name = svc_name svc).
Proof.
  unfold provisioner.createPKI. intros Hrun.
  forward_call h Hrun ca w1. destruct ca as [[crt [key|]]|err].
  2,3: forward_ret Hrun; leaf.
  forward_call h Hrun etcd w2. destruct etcd as [etcd|err].
  2: forward_ret Hrun; leaf.
  forward_call h Hrun fp w3. destruct fp as [fp|err].
  2: forward_ret Hrun; leaf.
  destruct isClusterIP.
  - destruct (bdl_svc (cv_apiserver cv)) as [svc|] eqn:Hsvc.
    2: forward_ret Hrun; leaf.
    forward_call h Hrun ans w4. destruct ans as [ip [e|]].
    + forward_call h Hrun u w5. finish_pki h Hrun.
    + finish_pki h Hrun.
  - finish_pki h Hrun.
Qed.

(** C6. Both kubeconfigs, the controller-manager one and the admin one, are
    requested for one server address: the cluster IP of the API server
    service when a non-empty one was obtained, and the API server DNS name
    derived for the root namespace otherwise.  The cluster IP is looked up
    only for a ClusterIP service, in the root namespace and under the name of
    the API server service. *)
Theorem createPKI_kubeconfig_address {W} (h : handler provisioner.resp W)
    (vc : VirtualCluster) (cv : ClusterVersion) (isClusterIP : bool) (w : W) :
  let p := provisioner.createPKI vc cv isClusterIP in
  let clusterIP := provisioner.obtained_cluster_ip (log h p w) in
  let address :=
    if String.eqb clusterIP "" then GetAPIServerDomain cv (ToClusterKey vc)
    else clusterIP in
  let both :=
    [("system:kube-controller-manager", vc_name vc, address, []);
     ("admin", vc_name vc, address, ["system:masters"])] in
  provisioner.kubeconfig_requests (trace h p w) `prefix_of` both
  /\
  (succeeded (result h p w) = true ->
   provisioner.kubeconfig_requests (trace h p w) = both)
  /\
  (isClusterIP = false -> clusterIP = "")
  /\
  (forall ns name,
      In (provisioner.GetSvcClusterIP ns name) (trace h p w) ->
      isClusterIP = true /\ ns = ToClusterKey vc /\
      exists svc, bdl_svc (cv_apiserver cv) = Some svc /\ name = svc_name svc).
Proof.
  exact (createPKI_requests h vc cv isClusterIP w _ _ _
           (run_parts h (provisioner.createPKI vc cv isClusterIP) w)).
Qed.

End KubeconfigAddress.

(** ** Provisioning runs *)

(** Happy path with a ClusterIP API server: the service first, then the PKI,
    then etcd, API server (workload only) and controller-manager; both
    kubeconfigs point at the cluster IP. *)
Example CreateVirtualCluster_cluster_ip :
  let t := trace (ask (examples.host (examples.version "ClusterIP") true))
             (@provisioner.CreateVirtualCluster toy_pki spec_naming
                examples.native examples.demo_u1) tt in
  omap examples.created t
  = [("Service", "apiserver-svc");
     ("Secret", "root-ca"); ("Secret", "apiserver-ca"); ("Secret", "etcd-ca");
     ("Secret", "front-proxy-ca"); ("Secret", "controller-manager-kubeconfig");
     ("Secret", "admin-kubeconfig"); ("Secret", "serviceaccount-rsa");
     ("StatefulSet", "etcd"); ("Service", "etcd");
     ("StatefulSet", "apiserver");
     ("StatefulSet", "controller-manager")]
  /\ provisioner.kubeconfig_requests t
     = [("system:kube-controller-manager", "demo", "10.0.0.7", []);
        ("admin", "demo", "10.0.0.7", ["system:masters"])].
Proof. split; reflexivity. Qed.

(** Happy path with a NodePort API server: no service ahead of the PKI, and
    both kubeconfigs point at the DNS name. *)
Example CreateVirtualCluster_dns_only :
  let t := trace (ask (examples.host (examples.version "NodePort") true))
             (@provisioner.CreateVirtualCluster toy_pki spec_naming
                examples.native examples.demo_u1) tt in
  omap examples.created t
  = [("Secret", "root-ca"); ("Secret", "apiserver-ca"); ("Secret", "etcd-ca");
     ("Secret", "front-proxy-ca"); ("Secret", "controller-manager-kubeconfig");
     ("Secret", "admin-kubeconfig"); ("Secret", "serviceaccount-rsa");
     ("StatefulSet", "etcd"); ("Service", "etcd");
     ("StatefulSet", "apiserver"); ("Service", "apiserver-svc");
     ("StatefulSet", "controller-manager")]
  /\ provisioner.kubeconfig_requests t
     = [("system:kube-controller-manager", "demo", "apiserver.vc-a-demo.svc", []);
        ("admin", "demo", "apiserver.vc-a-demo.svc", ["system:masters"])].
Proof. split; reflexivity. Qed.

(** etcd does not become ready: nothing of the API server or the
    controller-manager is created, and the error is returned. *)
Example CreateVirtualCluster_etcd_timeout :
  let p := @provisioner.CreateVirtualCluster toy_pki spec_naming
             examples.native examples.demo_u1 in
  let h := ask (examples.host (examples.version "NodePort") false) in
  omap examples.created (trace h p tt)
  = [("Secret", "root-ca"); ("Secret", "apiserver-ca"); ("Secret", "etcd-ca");
     ("Secret", "front-proxy-ca"); ("Secret", "controller-manager-kubeconfig");
     ("Secret", "admin-kubeconfig"); ("Secret", "serviceaccount-rsa");
     ("StatefulSet", "etcd"); ("Service", "etcd")]
  /\ result h p tt = Raise (Errorf "timed out waiting for etcd").
Proof. split; reflexivity. Qed.

(** A restart: every create reports AlreadyExists, and provisioning goes
    through the same creates to the same end. *)
Example CreateVirtualCluster_restart :
  let p := @provisioner.CreateVirtualCluster toy_pki spec_naming
             examples.native examples.demo_u1 in
  let again := ask (examples.restarted (examples.version "ClusterIP")) in
  let first := ask (examples.host (examples.version "ClusterIP") true) in
  result again p tt = Done tt
  /\ provisioner.calls (trace again p tt) = provisioner.calls (trace first p tt).
Proof. split; vm_compute; reflexivity. Qed.

(** The etcd StatefulSet is created in the root namespace with its peer
    list. *)
Example deployComponent_etcd_args :
  head (omap (fun e =>
                match e with
                | provisioner.Create (provisioner.ObjStatefulSet s) => Some s
                | _ => None
                end)
          (trace (ask (examples.host (examples.version "NodePort") true))
             (@provisioner.deployComponent toy_pki spec_naming examples.native
                examples.demo_u1 (cv_etcd (examples.version "NodePort"))) tt))
  = Some {| sts_name := "etcd"; sts_namespace := "vc-a-demo";
            sts_replicas := Some 1;
            sts_containers :=
              [MkContainer ["etcd"; "--initial-cluster";
                            "etcd-0=https://etcd-0.etcd:2380"]] |}.
Proof. vm_compute. reflexivity. Qed.

(* ===================================================================== *)
(** * Further properties *)
(* ===================================================================== *)

(** ** The etcd template *)

Section EtcdTemplate.
Context `{PkiMaterial} `{Naming}.

Lemma peerAddr_nonempty (sts svc : string) (i : Z) :
  provisioner.peerAddr sts svc i <> "".
Proof.
  unfold provisioner.peerAddr. destruct sts as [|a sts]; discriminate.
Qed.

Lemma concat_nonempty (sep x : string) (l : list string) :
  x <> "" -> String.concat sep (x :: l) <> "".
Proof.
  intros Hx. destruct l as [|y l]; [exact Hx|].
  rewrite concat_cons2. destruct x as [|a x]; [done | discriminate].
Qed.

(** The value of the loop for every replica count of the type [int32],
    negative ones included. *)
Lemma genInitialClusterArgs_value (n : Z) (sts svc : string) :
  int32 n ->
  provisioner.genInitialClusterArgs n sts svc
  = Some (String.concat "," (map (provisioner.peerAddr sts svc) (seqZ 0 n))).
Proof.
  intros [Hmin Hmax]. destruct (Z.neg_nonneg_cases n) as [Hneg|Hpos].
  - rewrite genInitialClusterArgs_negative by done.
    unfold seqZ. by replace (Z.to_nat n) with 0%nat by lia.
  - unfold provisioner.genInitialClusterArgs.
    rewrite (genInitialClusterArgs_loop_spec sts svc n (Z.to_nat n)) by lia.
    by rewrite Z2Nat.id by lia.
Qed.

(** X1. For every replica count of the type [int32], the value of
    [--initial-cluster] is empty exactly when the count is zero or negative:
    the loop body never runs then, and one replica already gives a peer. *)
Theorem genInitialClusterArgs_empty_iff (n : Z) (sts svc : string) :
  int32 n ->
  (provisioner.genInitialClusterArgs n sts svc = Some "" <-> n <= 0).
Proof.
  intros Hn. rewrite genInitialClusterArgs_value by done. split.
  - intros [= Hempty]. destruct (Z.le_gt_cases n 0) as [|Hpos]; [done|].
    exfalso. revert Hempty. rewrite seqZ_cons by lia. cbn [map].
    apply concat_nonempty, peerAddr_nonempty.
  - intros Hle. unfold seqZ. by replace (Z.to_nat n) with 0%nat by lia.
Qed.

(** X2. On an etcd bundle that has a service, a first container and a
    replica count, [complementETCDTemplate] moves StatefulSet and service to
    the namespace [vcns] and appends the flag [--initial-cluster] with the
    peer list to the arguments of the first container; the arguments that
    were there, the other containers, the names and the replica count are
    kept. *)
Theorem complementETCDTemplate_appends (vcns : string)
    (b : StatefulSetSvcBundle) (svc : Service) (c : Container)
    (cs : list Container) (n : Z) :
  bdl_svc b = Some svc ->
  sts_containers (bdl_sts b) = c :: cs ->
  sts_replicas (bdl_sts b) = Some n ->
  int32 n ->
  provisioner.complementETCDTemplate vcns b
  = Done {| bdl_name := bdl_name b;
            bdl_sts :=
              {| sts_name := sts_name (bdl_sts b);
                 sts_namespace := vcns;
                 sts_replicas := Some n;
                 sts_containers :=
                   MkContainer
                     (ctr_args c ++
                      ["--initial-cluster";
                       String.concat ","
                         (map (provisioner.peerAddr (sts_name (bdl_sts b))
                                 (svc_name svc)) (seqZ 0 n))]) :: cs |};
            bdl_svc :=
              Some {| svc_name := svc_name svc; svc_namespace := vcns;
                      svc_type := svc_type svc |} |}.
Proof.
  intros Hsvc Hcs Hn Hint. unfold provisioner.complementETCDTemplate.
  rewrite Hsvc. cbn [provisioner.set_sts_namespace sts_containers sts_replicas
                     sts_name provisioner.set_svc_namespace svc_name].
  rewrite Hcs, Hn, genInitialClusterArgs_value by done.
  unfold provisioner.set_first_args.
  cbn [provisioner.set_sts_namespace sts_containers sts_name sts_namespace
       sts_replicas].
  by rewrite Hcs, Hn.
Qed.

(** X3. [complementETCDTemplate] is not idempotent: applied to its own result
    it appends the flag [--initial-cluster] a second time, with the same
    value. *)
Theorem complementETCDTemplate_twice (vcns : string)
    (b b' : StatefulSetSvcBundle) :
  provisioner.complementETCDTemplate vcns b = Done b' ->
  exists (c : Container) (cs : list Container) (icaVal : string) b'',
    sts_containers (bdl_sts b') = c :: cs /\
    provisioner.complementETCDTemplate vcns b' = Done b'' /\
    sts_containers (bdl_sts b'')
    = MkContainer (ctr_args c ++ ["--initial-cluster"; icaVal]) :: cs /\
    ["--initial-cluster"; icaVal] `suffix_of` ctr_args c.
Proof.
  unfold provisioner.complementETCDTemplate.
  destruct (bdl_svc b) as [svc|] eqn:Hsvc; [|discriminate].
  cbn [provisioner.set_sts_namespace sts_containers sts_replicas sts_name
       provisioner.set_svc_namespace svc_name].
  destruct (sts_containers (bdl_sts b)) as [|c cs] eqn:Hcs; [discriminate|].
  destruct (sts_replicas (bdl_sts b)) as [n|] eqn:Hn; [|discriminate].
  destruct (provisioner.genInitialClusterArgs n _ _) as [icaVal|] eqn:Hica;
    [|discriminate].
  intros [= <-].
  cbn [bdl_svc bdl_sts provisioner.set_first_args sts_containers sts_replicas
       sts_name sts_namespace svc_name provisioner.set_sts_namespace
       provisioner.set_svc_namespace].
  rewrite Hcs, Hn, Hica.
  eexists _, cs, icaVal, _. split_and!; [reflexivity | reflexivity | | by eexists].
  cbn [bdl_sts provisioner.set_first_args sts_containers
       provisioner.set_sts_namespace].
  by rewrite Hcs.
Qed.

(** X4. [complementAPIServerTemplate] and [complementCtrlMgrTemplate] are
    idempotent: the second application that [deployComponent] makes to the
    API server bundle, after [CreateVirtualCluster] has complemented it for
    the ClusterIP service, changes nothing. *)
Theorem complementAPIServerTemplate_idempotent (vcns : string)
    (b : StatefulSetSvcBundle) :
  (forall b', provisioner.complementAPIServerTemplate vcns b = Done b' ->
              provisioner.complementAPIServerTemplate vcns b' = Done b')
  /\ provisioner.complementCtrlMgrTemplate vcns
       (provisioner.complementCtrlMgrTemplate vcns b)
     = provisioner.complementCtrlMgrTemplate vcns b.
Proof.
  split; [|reflexivity].
  intros b'. unfold provisioner.complementAPIServerTemplate.
  destruct (bdl_svc b) as [svc|]; [|discriminate].
  by intros [= <-].
Qed.

End EtcdTemplate.

Lemma genInitialClusterArgs_empty_iff_witness :
  int32 (-3) /\
  (@provisioner.genInitialClusterArgs (-3) "etcd" "etcd-svc" = Some "" <-> -3 <= 0).
Proof.
  assert (int32 (-3)) as Hint by (unfold int32; lia).
  split; [exact Hint|].
  exact (genInitialClusterArgs_empty_iff (-3) "etcd" "etcd-svc" Hint).
Defined.

Lemma complementETCDTemplate_appends_witness :
  let b := cv_etcd (examples.version "NodePort") in
  bdl_svc b = Some {| svc_name := "etcd"; svc_namespace := "default";
                      svc_type := "ClusterIP" |} /\
  sts_containers (bdl_sts b) = [MkContainer ["etcd"]] /\
  sts_replicas (bdl_sts b) = Some 1 /\
  int32 1 /\
  provisioner.complementETCDTemplate "vc-a-demo" b
  = Done {| bdl_name := "etcd";
            bdl_sts :=
              {| sts_name := "etcd"; sts_namespace := "vc-a-demo";
                 sts_replicas := Some 1;
                 sts_containers :=
                   [MkContainer ["etcd"; "--initial-cluster";
                                 "etcd-0=https://etcd-0.etcd:2380"]] |};
            bdl_svc := Some {| svc_name := "etcd"; svc_namespace := "vc-a-demo";
                               svc_type := "ClusterIP" |} |}.
Proof.
  assert (int32 1) as Hint by (unfold int32; lia).
  cbn zeta. split_and!; [reflexivity | reflexivity | reflexivity | exact Hint |].
  etransitivity;
    [exact (complementETCDTemplate_appends "vc-a-demo"
              (cv_etcd (examples.version "NodePort")) _ _ _ 1
              eq_refl eq_refl eq_refl Hint)|].
  vm_compute. reflexivity.
Defined.

Lemma complementETCDTemplate_twice_witness :
  exists b',
    provisioner.complementETCDTemplate "vc-a-demo"
      (cv_etcd (examples.version "NodePort")) = Done b' /\
    exists (c : Container) (cs : list Container) (icaVal : string) b'',
      sts_containers (bdl_sts b') = c :: cs /\
      provisioner.complementETCDTemplate "vc-a-demo" b' = Done b'' /\
      sts_containers (bdl_sts b'')
      = MkContainer (ctr_args c ++ ["--initial-cluster"; icaVal]) :: cs /\
      ["--initial-cluster"; icaVal] `suffix_of` ctr_args c.
Proof.
  eexists. split; [vm_compute; reflexivity|].
  apply (complementETCDTemplate_twice "vc-a-demo"
           (cv_etcd (examples.version "NodePort"))).
  vm_compute. reflexivity.
Defined.


(** ** Deploying a component *)

(** Follow a run that is known by its outcome, [Hrun : run h p w = (o, w', l)],
    along every branch, up to the return of the program. *)
Ltac forward h Hrun :=
  repeat first
    [ progress (unfold call in Hrun;
                cbn [bind bindO provisioner.checked] in Hrun)
    | match type of Hrun with
      | run h (Ret _) _ = _ => apply run_Ret_inv in Hrun as (-> & -> & ->)
      | run h (Vis ?e _) ?w = _ =>
          apply run_Vis_inv in Hrun as (? & -> & Hrun);
          let x := fresh "x" in
          let w1 := fresh "w" in
          destruct (h e w) as [x w1]; cbn [fst snd] in Hrun
      | context [provisioner.checked ?x] => is_var x; destruct x
      | context [scheduler.failing ?x _] =>
          is_var x; destruct x; cbn [scheduler.failing] in Hrun
      | context [match ?x with _ => _ end] => is_var x; destruct x
      | context [if negb (IsAlreadyExists ?e) then _ else _] =>
          destruct (IsAlreadyExists e); cbn [negb] in Hrun
      | context [if negb (IsNotFound ?e) then _ else _] =>
          let Hnf := fresh "Hnf" in
          destruct (IsNotFound e) eqn:Hnf; cbn [negb] in Hrun
      end ].

Section DeployComponent.
Context `{PkiMaterial} `{Naming}.

(** What the [switch] of [deployComponent] leaves of a bundle. *)
Lemma complement_done (ns : string) (b b' : StatefulSetSvcBundle) :
  readings.complement ns b = Done b' ->
  bdl_name b' = bdl_name b /\
  sts_namespace (bdl_sts b') = ns /\
  sts_name (bdl_sts b') = sts_name (bdl_sts b) /\
  (bdl_name b = "controller-manager" /\ bdl_svc b' = bdl_svc b
   \/ bdl_name b <> "controller-manager" /\
      exists svc, bdl_svc b = Some svc /\
                  bdl_svc b' = Some (provisioner.set_svc_namespace ns svc)).
Proof.
  unfold readings.complement.
  destruct (String.eqb_spec (bdl_name b) "etcd") as [He|He].
  { unfold provisioner.complementETCDTemplate.
    destruct (bdl_svc b) as [svc|]; [|discriminate].
    destruct (sts_containers _) as [|c cs]; [discriminate|].
    destruct (sts_replicas _) as [n|]; [|discriminate].
    destruct (provisioner.genInitialClusterArgs _ _ _); [|discriminate].
    intros [= <-]. split_and!; [reflexivity..|].
    right. split; [by rewrite He | by exists svc]. }
  destruct (String.eqb_spec (bdl_name b) "apiserver") as [Ha|Ha].
  { unfold provisioner.complementAPIServerTemplate.
    destruct (bdl_svc b) as [svc|]; [|discriminate].
    intros [= <-]. split_and!; [reflexivity..|].
    right. split; [by rewrite Ha | by exists svc]. }
  destruct (String.eqb_spec (bdl_name b) "controller-manager") as [Hc|Hc];
    [|discriminate].
  intros [= <-]. split_and!; [reflexivity..|]. by left.
Qed.

(** A bundle that the [switch] does not accept ends the run after the first
    log line. *)
Lemma deployComponent_refused {W} (h : handler provisioner.resp W)
    (mpn : provisioner.Native) (vc : VirtualCluster) (b : StatefulSetSvcBundle)
    (w : W) :
  let line := provisioner.LogInfo
                "deploying StatefulSet for control plane component"
                ["component"; bdl_name b] in
  match readings.complement (ToClusterKey vc) b with
  | Done _ => True
  | Raise e =>
      run h (provisioner.deployComponent mpn vc b) w
      = (Raise e, (h line w).2, [existT line (h line w).1])
  | Panic why =>
      run h (provisioner.deployComponent mpn vc b) w
      = (Panic why, (h line w).2, [existT line (h line w).1])
  end.
Proof.
  cbn zeta. unfold provisioner.deployComponent, readings.complement.
  rewrite run_call_bind.
  by destruct (if String.eqb (bdl_name b) "etcd" then _ else _).
Qed.

(** A run of [deployComponent] on a bundle that its [switch] accepts: the
    StatefulSet is created first, the service is created unless it is absent
    or the ClusterIP service of the API server, and success is reported only
    at the end of a successful wait. *)
Lemma deployComponent_run {W} (h : handler provisioner.resp W)
    (mpn : provisioner.Native) (vc : VirtualCluster) (b b' : StatefulSetSvcBundle)
    (w : W) (o : Outcome unit) (w' : W) (l : list (entry provisioner.resp)) :
  readings.complement (ToClusterKey vc) b = Done b' ->
  run h (provisioner.deployComponent mpn vc b) w = (o, w', l) ->
  let t := map (fun x : entry provisioner.resp => projT1 x) l in
  readings.created_statefulsets t = [bdl_sts b'] /\
  readings.created_services t
    `prefix_of`
    match bdl_svc b' with
    | Some svc =>
        if String.eqb (bdl_name b') "apiserver"
           && String.eqb (svc_type svc) ServiceTypeClusterIP
        then [] else [svc]
    | None => []
    end /\
  (o = Done tt ->
   exists pre,
     l = pre ++ [existT (provisioner.WaitStatefulSetReady (ToClusterKey vc)
                           (bdl_name b')
                           (wrap 64 (provisioner.ProvisionerTimeout mpn
                                     ÷ provisioner.Second))
                           provisioner.ComponentPollPeriodSec)
                   (None : option GoError)] /\
     readings.created_statefulsets
       (map (fun x : entry provisioner.resp => projT1 x) pre) = [bdl_sts b']).
Proof.
  intros Hsw Hrun. unfold provisioner.deployComponent in Hrun.
  unfold readings.complement in Hsw.
  unfold call in Hrun. cbn [bind bindO] in Hrun.
  apply run_Vis_inv in Hrun as (? & -> & Hrun).
  destruct (h _ w) as [[] w0]. cbn [fst snd] in Hrun.
  rewrite Hsw in Hrun.
  destruct (bdl_svc b') as [svc|];
    [destruct (String.eqb (bdl_name b') "apiserver"
               && String.eqb (svc_type svc) ServiceTypeClusterIP);
     cbn [negb] in Hrun|];
    forward h Hrun; cbn zeta;
    cbn [fst snd map projT1 readings.created_statefulsets
         readings.created_services omap list_omap];
    (split_and!;
     [ reflexivity
     | first [ reflexivity | apply prefix_nil ]
     | first
         [ discriminate
         | intros _;
           match goal with
           | |- exists pre, ?l = _ /\ _ => exists (removelast l)
           end;
           cbn [removelast app map projT1 readings.created_statefulsets omap
                list_omap];
           by split ] ]).
Qed.

(** X5. A bundle whose name is none of [etcd], [apiserver] and
    [controller-manager] is refused: [deployComponent] returns the error
    [try to deploy unknown component: <name>] after its first log line, and
    neither creates anything nor waits. *)
Theorem deployComponent_unknown_component {W} (h : handler provisioner.resp W)
    (mpn : provisioner.Native) (vc : VirtualCluster) (b : StatefulSetSvcBundle)
    (w : W) :
  bdl_name b <> "etcd" -> bdl_name b <> "apiserver" ->
  bdl_name b <> "controller-manager" ->
  result h (provisioner.deployComponent mpn vc b) w
  = Raise (Errorf ("try to deploy unknown component: " +:+ bdl_name b))
  /\ trace h (provisioner.deployComponent mpn vc b) w
     = [provisioner.LogInfo "deploying StatefulSet for control plane component"
          ["component"; bdl_name b]].
Proof.
  intros He Ha Hc. apply String.eqb_neq in He, Ha, Hc.
  pose proof (deployComponent_refused h mpn vc b w) as Hrun.
  unfold readings.complement in Hrun. rewrite He, Ha, Hc in Hrun.
  cbn zeta in Hrun. unfold result, trace, log. by rewrite Hrun.
Qed.

(** X6. A bundle named [etcd] without a service, without a container or
    without a replica count, and a bundle named [apiserver] without a
    service, make [deployComponent] panic on the nil pointer or the empty
    slice, before anything is created. *)
Theorem deployComponent_incomplete_bundle {W} (h : handler provisioner.resp W)
    (mpn : provisioner.Native) (vc : VirtualCluster) (b : StatefulSetSvcBundle)
    (w : W) :
  (bdl_name b = "etcd" /\
   (bdl_svc b = None \/ sts_containers (bdl_sts b) = []
    \/ sts_replicas (bdl_sts b) = None))
  \/ (bdl_name b = "apiserver" /\ bdl_svc b = None) ->
  (exists why, result h (provisioner.deployComponent mpn vc b) w = Panic why)
  /\ provisioner.calls (trace h (provisioner.deployComponent mpn vc b) w) = [].
Proof.
  intros Hb.
  assert (exists why, readings.complement (ToClusterKey vc) b = Panic why)
    as (why & Hsw).
  { unfold readings.complement.
    destruct Hb as [(-> & Hb)|(-> & Hb)]; cbn [String.eqb Ascii.eqb Bool.eqb andb].
    - unfold provisioner.complementETCDTemplate.
      destruct (bdl_svc b) as [svc|]; [|by eexists].
      cbn [provisioner.set_sts_namespace sts_containers sts_replicas].
      destruct (sts_containers (bdl_sts b)) as [|c cs]; [by eexists|].
      destruct (sts_replicas (bdl_sts b)) as [n|]; [|by eexists].
      by destruct Hb as [?|[?|?]].
    - unfold provisioner.complementAPIServerTemplate. rewrite Hb. by eexists. }
  pose proof (deployComponent_refused h mpn vc b w) as Hrun.
  rewrite Hsw in Hrun. cbn zeta in Hrun.
  unfold result, trace, log. rewrite Hrun. split; [by exists why | reflexivity].
Qed.

(** X7. [deployComponent] never creates the service of the API server when
    its type is ClusterIP: [CreateVirtualCluster] has created it ahead of the
    PKI. *)
Theorem deployComponent_leaves_cluster_ip_service {W}
    (h : handler provisioner.resp W) (mpn : provisioner.Native)
    (vc : VirtualCluster) (b : StatefulSetSvcBundle) (svc : Service) (w : W) :
  bdl_name b = "apiserver" -> bdl_svc b = Some svc ->
  svc_type svc = ServiceTypeClusterIP ->
  readings.created_services (trace h (provisioner.deployComponent mpn vc b) w)
  = [].
Proof.
  intros Hname Hsvc Htype.
  assert (readings.complement (ToClusterKey vc) b
          = Done {| bdl_name := bdl_name b;
                    bdl_sts := provisioner.set_sts_namespace (ToClusterKey vc)
                                 (bdl_sts b);
                    bdl_svc := Some (provisioner.set_svc_namespace
                                       (ToClusterKey vc) svc) |}) as Hsw.
  { unfold readings.complement, provisioner.complementAPIServerTemplate.
    by rewrite Hname, Hsvc. }
  destruct (deployComponent_run h mpn vc b _ w _ _ _ Hsw
              (run_parts h (provisioner.deployComponent mpn vc b) w))
    as (_ & Hsvcs & _).
  revert Hsvcs. cbn [bdl_svc bdl_name provisioner.set_svc_namespace svc_type].
  rewrite Hname, Htype, !String.eqb_refl. cbn [andb].
  apply prefix_nil_inv.
Qed.

(** X8. Every StatefulSet that [deployComponent] creates lies in the root
    namespace of the virtual cluster, and so does every service it creates
    for etcd and the API server; the service of the controller-manager is
    created as the template has it. *)
Theorem deployComponent_namespaces {W} (h : handler provisioner.resp W)
    (mpn : provisioner.Native) (vc : VirtualCluster) (b : StatefulSetSvcBundle)
    (w : W) :
  let t := trace h (provisioner.deployComponent mpn vc b) w in
  Forall (fun s => sts_namespace s = ToClusterKey vc /\
                   sts_name s = sts_name (bdl_sts b))
    (readings.created_statefulsets t)
  /\ Forall (fun s =>
               if String.eqb (bdl_name b) "controller-manager"
               then bdl_svc b = Some s
               else svc_namespace s = ToClusterKey vc /\
                    exists svc, bdl_svc b = Some svc /\
                                svc_name s = svc_name svc /\
                                svc_type s = svc_type svc)
       (readings.created_services t).
Proof.
  cbn zeta.
  pose proof (deployComponent_refused h mpn vc b w) as Hno.
  destruct (readings.complement (ToClusterKey vc) b) as [b'|e|why] eqn:Hsw;
    cbn zeta in Hno.
  2,3: unfold trace, log; rewrite Hno; by split.
  clear Hno.
  destruct (deployComponent_run h mpn vc b b' w _ _ _ Hsw
              (run_parts h (provisioner.deployComponent mpn vc b) w))
    as (Hsts & Hsvcs & _).
  fold (trace h (provisioner.deployComponent mpn vc b) w) in Hsts, Hsvcs.
  apply complement_done in Hsw as (Hn & Hns & Hname & Hsvc).
  split.
  - rewrite Hsts. by repeat constructor.
  - assert (Forall (fun s =>
                      if String.eqb (bdl_name b) "controller-manager"
                      then bdl_svc b = Some s
                      else svc_namespace s = ToClusterKey vc /\
                           exists svc, bdl_svc b = Some svc /\
                                       svc_name s = svc_name svc /\
                                       svc_type s = svc_type svc)
              (match bdl_svc b' with Some s => [s] | None => [] end)) as Hone.
    { destruct Hsvc as [(-> & ->)|(Hc & svc & E & ->)].
      - destruct (bdl_svc b); by repeat constructor.
      - apply String.eqb_neq in Hc. rewrite Hc. repeat constructor.
        by exists svc. }
    destruct Hsvcs as [rest Hsvcs].
    destruct (bdl_svc b') as [s|].
    + destruct (_ && _).
      * symmetry in Hsvcs. apply app_eq_nil in Hsvcs as [-> _]. constructor.
      * destruct (readings.created_services _) as [|s' l'] in Hsvcs |- *;
          [constructor|].
        injection Hsvcs as -> Hnil.
        symmetry in Hnil. apply app_eq_nil in Hnil as [-> _]. exact Hone.
    + symmetry in Hsvcs. apply app_eq_nil in Hsvcs as [-> _]. constructor.
Qed.

(** X9. [deployComponent] reports success only when its last call, the wait
    for the StatefulSet of the component in the root namespace with the
    timeout of the provisioner in seconds and a poll period of two seconds,
    has succeeded, and the StatefulSet was created, in that namespace, before
    the wait. *)
Theorem deployComponent_done_when_ready {W} (h : handler provisioner.resp W)
    (mpn : provisioner.Native) (vc : VirtualCluster) (b : StatefulSetSvcBundle)
    (w : W) :
  result h (provisioner.deployComponent mpn vc b) w = Done tt ->
  exists pre sts,
    log h (provisioner.deployComponent mpn vc b) w
    = pre ++ [existT (provisioner.WaitStatefulSetReady (ToClusterKey vc)
                        (bdl_name b)
                        (wrap 64 (provisioner.ProvisionerTimeout mpn
                                  ÷ provisioner.Second))
                        provisioner.ComponentPollPeriodSec)
                (None : option GoError)] /\
    readings.created_statefulsets
      (map (fun x : entry provisioner.resp => projT1 x) pre) = [sts] /\
    sts_namespace sts = ToClusterKey vc /\
    sts_name sts = sts_name (bdl_sts b).
Proof.
  intros Hdone.
  pose proof (deployComponent_refused h mpn vc b w) as Hno.
  destruct (readings.complement (ToClusterKey vc) b) as [b'|e|why] eqn:Hsw;
    cbn zeta in Hno.
  2,3: unfold result in Hdone; rewrite Hno in Hdone; discriminate.
  clear Hno.
  destruct (deployComponent_run h mpn vc b b' w _ _ _ Hsw
              (run_parts h (provisioner.deployComponent mpn vc b) w))
    as (_ & _ & Hready).
  destruct (Hready Hdone) as (pre & Hlog & Hsts).
  apply complement_done in Hsw as (Hn & Hns & Hname & _).
  exists pre, (bdl_sts b'). rewrite <- Hn. by split_and!.
Qed.

End DeployComponent.

Lemma deployComponent_unknown_component_witness :
  bdl_name scenarios.scheduler_bundle <> "etcd" /\
  bdl_name scenarios.scheduler_bundle <> "apiserver" /\
  bdl_name scenarios.scheduler_bundle <> "controller-manager" /\
  result (ask (examples.host (examples.version "NodePort") true))
    (@provisioner.deployComponent toy_pki spec_naming examples.native
       examples.demo_u1 scenarios.scheduler_bundle) tt
  = Raise (Errorf ("try to deploy unknown component: "
                   +:+ bdl_name scenarios.scheduler_bundle))
  /\ trace (ask (examples.host (examples.version "NodePort") true))
       (@provisioner.deployComponent toy_pki spec_naming examples.native
          examples.demo_u1 scenarios.scheduler_bundle) tt
     = [provisioner.LogInfo "deploying StatefulSet for control plane component"
          ["component"; bdl_name scenarios.scheduler_bundle]].
Proof.
  assert (bdl_name scenarios.scheduler_bundle <> "etcd") as He by discriminate.
  assert (bdl_name scenarios.scheduler_bundle <> "apiserver") as Ha by discriminate.
  assert (bdl_name scenarios.scheduler_bundle <> "controller-manager") as Hc
    by discriminate.
  split; [exact He|]. split; [exact Ha|]. split; [exact Hc|].
  exact (@deployComponent_unknown_component toy_pki spec_naming unit
           (ask (examples.host (examples.version "NodePort") true))
           examples.native examples.demo_u1 scenarios.scheduler_bundle tt
           He Ha Hc).
Defined.

Lemma deployComponent_incomplete_bundle_witness :
  ((bdl_name scenarios.headless_apiserver = "etcd" /\
    (bdl_svc scenarios.headless_apiserver = None
     \/ sts_containers (bdl_sts scenarios.headless_apiserver) = []
     \/ sts_replicas (bdl_sts scenarios.headless_apiserver) = None))
   \/ (bdl_name scenarios.headless_apiserver = "apiserver" /\
       bdl_svc scenarios.headless_apiserver = None)) /\
  (exists why,
      result (ask (examples.host (examples.version "NodePort") true))
        (@provisioner.deployComponent toy_pki spec_naming examples.native
           examples.demo_u1 scenarios.headless_apiserver) tt = Panic why)
  /\ provisioner.calls
       (trace (ask (examples.host (examples.version "NodePort") true))
          (@provisioner.deployComponent toy_pki spec_naming examples.native
             examples.demo_u1 scenarios.headless_apiserver) tt) = [].
Proof.
  assert ((bdl_name scenarios.headless_apiserver = "etcd" /\
           (bdl_svc scenarios.headless_apiserver = None
            \/ sts_containers (bdl_sts scenarios.headless_apiserver) = []
            \/ sts_replicas (bdl_sts scenarios.headless_apiserver) = None))
          \/ (bdl_name scenarios.headless_apiserver = "apiserver" /\
              bdl_svc scenarios.headless_apiserver = None)) as Hb
    by (right; split; reflexivity).
  split; [exact Hb|].
  exact (@deployComponent_incomplete_bundle toy_pki spec_naming unit
           (ask (examples.host (examples.version "NodePort") true))
           examples.native examples.demo_u1 scenarios.headless_apiserver tt Hb).
Defined.

Lemma deployComponent_leaves_cluster_ip_service_witness :
  let b := cv_apiserver (examples.version "ClusterIP") in
  bdl_name b = "apiserver" /\
  bdl_svc b = Some {| svc_name := "apiserver-svc"; svc_namespace := "default";
                      svc_type := "ClusterIP" |} /\
  readings.created_services
    (trace (ask (examples.host (examples.version "ClusterIP") true))
       (@provisioner.deployComponent toy_pki spec_naming examples.native
          examples.demo_u1 b) tt) = [].
Proof.
  cbn zeta. split; [reflexivity|]. split; [reflexivity|].
  exact (@deployComponent_leaves_cluster_ip_service toy_pki spec_naming unit
           (ask (examples.host (examples.version "ClusterIP") true))
           examples.native examples.demo_u1
           (cv_apiserver (examples.version "ClusterIP")) _ tt
           eq_refl eq_refl eq_refl).
Defined.

Lemma deployComponent_done_when_ready_witness :
  let p := @provisioner.deployComponent toy_pki spec_naming examples.native
             examples.demo_u1 (cv_ctrlmgr (examples.version "NodePort")) in
  let h := ask (examples.host (examples.version "NodePort") true) in
  result h p tt = Done tt /\
  exists pre sts,
    log h p tt
    = pre ++ [existT (provisioner.WaitStatefulSetReady
                        (@ToClusterKey spec_naming examples.demo_u1)
                        "controller-manager"
                        (wrap 64 (provisioner.ProvisionerTimeout examples.native
                                  ÷ provisioner.Second))
                        provisioner.ComponentPollPeriodSec)
                (None : option GoError)] /\
    readings.created_statefulsets
      (map (fun x : entry provisioner.resp => projT1 x) pre) = [sts] /\
    sts_namespace sts = @ToClusterKey spec_naming examples.demo_u1 /\
    sts_name sts = "controller-manager".
Proof.
  cbn zeta.
  assert (result (ask (examples.host (examples.version "NodePort") true))
            (@provisioner.deployComponent toy_pki spec_naming examples.native
               examples.demo_u1 (cv_ctrlmgr (examples.version "NodePort"))) tt
          = Done tt) as Hdone by reflexivity.
  split; [exact Hdone|].
  exact (@deployComponent_done_when_ready toy_pki spec_naming unit
           (ask (examples.host (examples.version "NodePort") true))
           examples.native examples.demo_u1
           (cv_ctrlmgr (examples.version "NodePort")) tt Hdone).
Defined.

(** ** Storing the PKI *)

Section StoringThePki.
Context `{PkiMaterial} `{Naming}.

(** The loop creates the secrets in the order of the list, and all of them
    when it ends well. *)
Lemma createPKISecrets_loop_run {W} (h : handler provisioner.resp W)
    (secrets : list Secret) :
  forall (w : W) (o : Outcome unit) (w' : W) (l : list (entry provisioner.resp)),
    run h (provisioner.createPKISecrets_loop secrets) w = (o, w', l) ->
    readings.created_secrets (map (fun x : entry provisioner.resp => projT1 x) l)
      `prefix_of` secrets /\
    (o = Done tt ->
     readings.created_secrets (map (fun x : entry provisioner.resp => projT1 x) l)
     = secrets).
Proof.
  induction secrets as [|srt rest IH]; intros w o w' l Hrun;
    cbn [provisioner.createPKISecrets_loop] in Hrun.
  - forward h Hrun. by split.
  - forward h Hrun;
      cbn [map projT1 readings.created_secrets omap list_omap];
      first
        [ apply IH in Hrun as [Hpre Hall];
          (split; [by apply prefix_cons | intros Hdone; f_equal; exact (Hall Hdone)])
        | split; [apply prefix_cons, prefix_nil | discriminate] ].
Qed.

(** X10. [createPKISecrets] asks for the creation of seven secrets, in this
    order and all in the given namespace: the four CA pairs [root-ca],
    [apiserver-ca], [etcd-ca] and [front-proxy-ca], of type TLS; the two
    kubeconfigs [controller-manager-kubeconfig] and [admin-kubeconfig],
    Opaque; and the service-account key [serviceaccount-rsa], of type TLS.
    A run creates a prefix of these, and all seven when it ends well.  When
    the public part of the service-account key cannot be encoded nothing is
    created, although the other six secrets were built. *)
Theorem createPKISecrets_seven {W} (h : handler provisioner.resp W)
    (caGroup : ClusterCAGroup) (namespace : string) (w : W) :
  let p := provisioner.createPKISecrets caGroup namespace in
  let stored :=
    map (fun s => (srt_name s, srt_namespace s, srt_type s))
      (readings.created_secrets (trace h p w)) in
  let seven :=
    [("root-ca", namespace, SecretTypeTLS);
     ("apiserver-ca", namespace, SecretTypeTLS);
     ("etcd-ca", namespace, SecretTypeTLS);
     ("front-proxy-ca", namespace, SecretTypeTLS);
     ("controller-manager-kubeconfig", namespace, SecretTypeOpaque);
     ("admin-kubeconfig", namespace, SecretTypeOpaque);
     ("serviceaccount-rsa", namespace, SecretTypeTLS)] in
  stored `prefix_of` seven
  /\ (result h p w = Done tt -> stored = seven)
  /\ (forall err,
        EncodePublicKeyPEM (PublicKeyOf (ServiceAccountPrivateKey caGroup))
        = inr err ->
        result h p w = Raise err /\ trace h p w = []).
Proof.
  cbn zeta. unfold provisioner.createPKISecrets, secret.RsaKeyToSecret.
  destruct (EncodePublicKeyPEM _) as [pub|err].
  - match goal with
    | |- context [provisioner.createPKISecrets_loop ?s] =>
        destruct (createPKISecrets_loop_run h s w _ _ _
                    (run_parts h (provisioner.createPKISecrets_loop s) w))
          as [Hpre Hall]
    end.
    split_and!.
    + destruct Hpre as [rest Hpre].
      eexists (map _ rest). unfold trace.
      apply (f_equal (map (fun s => (srt_name s, srt_namespace s, srt_type s))))
        in Hpre.
      rewrite map_app in Hpre. exact Hpre.
    + intros Hdone. unfold trace. by rewrite (Hall Hdone).
    + discriminate.
  - split_and!; [apply prefix_nil | discriminate |].
    by intros ? [= <-].
Qed.

(** Storing the secrets generates nothing, looks nothing up and requests no
    certificate. *)
Lemma createPKISecrets_tail {W} (h : handler provisioner.resp W)
    (caGroup : ClusterCAGroup) (namespace : string) (w : W)
    (o : Outcome unit) (w' : W) (l : list (entry provisioner.resp)) :
  run h (provisioner.createPKISecrets caGroup namespace) w = (o, w', l) ->
  existsb readings.generation_failed l = false /\
  omap provisioner.cluster_ip_answer l = [] /\
  provisioner.kubeconfig_requests
    (map (fun x : entry provisioner.resp => projT1 x) l) = [] /\
  readings.apiserver_certificates
    (map (fun x : entry provisioner.resp => projT1 x) l) = [] /\
  Forall (fun e => readings.signing_ca e = None)
    (map (fun x : entry provisioner.resp => projT1 x) l).
Proof.
  intros Hrun.
  pose proof (every_call_trace _ _ (createPKISecrets_calls caGroup namespace) h w)
    as Hall.
  unfold trace, log in Hall. rewrite Hrun in Hall. cbn [snd] in Hall.
  destruct (createPKISecrets_silent h caGroup namespace w o w' l Hrun)
    as (Hip & Hkube & _).
  split_and!; [|exact Hip|exact Hkube| |].
  - rewrite Forall_map in Hall. clear Hrun Hip Hkube.
    induction Hall as [|[e r] l He _ IH]; [reflexivity|].
    cbn [existsb]. rewrite IH, orb_false_r. cbn [projT1] in He.
    destruct e; try reflexivity; destruct He; discriminate.
  - apply omap_none. eapply Forall_impl; [exact Hall|].
    intros e He. destruct e; try reflexivity; destruct He; discriminate.
  - eapply Forall_impl; [exact Hall|].
    intros e He. destruct e; try reflexivity; destruct He; discriminate.
Qed.

End StoringThePki.

(** ** Minting the PKI *)

Section MintingThePki.
Context `{PkiMaterial} `{Naming}.

Lemma createPKI_run {W} (h : handler provisioner.resp W)
    (vc : VirtualCluster) (cv : ClusterVersion) (isClusterIP : bool) (w : W)
    (o : Outcome unit) (w' : W) (l : list (entry provisioner.resp)) :
  run h (provisioner.createPKI vc cv isClusterIP) w = (o, w', l) ->
  let t := map (fun x : entry provisioner.resp => projT1 x) l in
  let domain := GetAPIServerDomain cv (ToClusterKey vc) in
  let ip := provisioner.obtained_cluster_ip l in
  (existsb readings.generation_failed l = true ->
   readings.created_secrets t = [] /\ succeeded o = false) /\
  Forall (fun e => forall ca, readings.signing_ca e = Some ca ->
                              head l ≫= readings.root_ca = Some ca) t /\
  readings.apiserver_certificates t `prefix_of` [(vc, domain, ip)] /\
  (provisioner.kubeconfig_requests t <> [] \/ readings.created_secrets t <> [] ->
   readings.apiserver_certificates t = [(vc, domain, ip)]).
Proof.
  unfold provisioner.createPKI. intros Hrun.
  destruct (bdl_svc (cv_apiserver cv)) as [svc|] eqn:Hsvc;
    forward h Hrun.
  all: try (apply createPKISecrets_tail in Hrun as (Hgen & Hip & Hkube & Hcert & Hca)).
  all: cbn zeta;
    unfold provisioner.obtained_cluster_ip, provisioner.kubeconfig_requests,
      readings.apiserver_certificates, readings.created_secrets in *;
    cbn [fst snd map projT1 existsb readings.generation_failed omap list_omap
         provisioner.cluster_ip_answer head default orb mbind option_bind
         readings.root_ca readings.signing_ca succeeded].
  all: rewrite ?Hgen, ?Hcert, ?Hkube, ?Hip; cbn [head default from_option id].
  all: split_and!;
    [ first [ intros Hf; discriminate Hf | intros _; split; reflexivity ]
    | repeat (apply Forall_cons_2;
              [intros ca Hc; cbn [readings.signing_ca] in Hc;
               first [discriminate Hc | exact Hc]|]);
      first [ apply Forall_nil_2
            | eapply Forall_impl; [exact Hca|];
              intros e He ca Hc; rewrite He in Hc; discriminate Hc ]
    | first [ reflexivity | apply prefix_nil ]
    | first [ intros _; reflexivity
            | intros [Hne|Hne]; exfalso; apply Hne; reflexivity ] ].
Qed.

(** X11. The PKI is stored all or nothing: when the root CA, a certificate, a
    kubeconfig or the service-account key cannot be generated, or the root
    key is not an RSA key, [createPKI] creates no secret at all and does not
    end well. *)
Theorem createPKI_all_or_nothing {W} (h : handler provisioner.resp W)
    (vc : VirtualCluster) (cv : ClusterVersion) (isClusterIP : bool) (w : W) :
  let p := provisioner.createPKI vc cv isClusterIP in
  Exists (fun x => readings.generation_failed x = true) (log h p w) ->
  readings.created_secrets (trace h p w) = [] /\
  succeeded (result h p w) = false.
Proof.
  cbn zeta. intros Hfailed.
  destruct (createPKI_run h vc cv isClusterIP w _ _ _
              (run_parts h (provisioner.createPKI vc cv isClusterIP) w))
    as (Hall & _).
  apply Hall. apply existsb_exists.
  apply Exists_exists in Hfailed as (x & Hin & Hx).
  exists x. split; [by apply list_elem_of_In | exact Hx].
Qed.

(** X12. All components share a single root CA: every certificate and every
    kubeconfig that [createPKI] requests is to be signed with the pair that
    the first call, [NewCertificateAuthority], returned. *)
Theorem createPKI_single_root_ca {W} (h : handler provisioner.resp W)
    (vc : VirtualCluster) (cv : ClusterVersion) (isClusterIP : bool) (w : W) :
  let p := provisioner.createPKI vc cv isClusterIP in
  Forall (fun e =>
            forall ca, readings.signing_ca e = Some ca ->
                       head (log h p w) ≫= readings.root_ca = Some ca)
    (trace h p w).
Proof.
  cbn zeta.
  destruct (createPKI_run h vc cv isClusterIP w _ _ _
              (run_parts h (provisioner.createPKI vc cv isClusterIP) w))
    as (_ & Hca & _).
  exact Hca.
Qed.

(** X13. [createPKI] requests at most one certificate for the API server,
    for this virtual cluster, the DNS name derived for its root namespace and
    the cluster IP obtained (empty when none was); and every run in which a
    kubeconfig is requested or a secret is created has made that request. *)
Theorem createPKI_certificate_names {W} (h : handler provisioner.resp W)
    (vc : VirtualCluster) (cv : ClusterVersion) (isClusterIP : bool) (w : W) :
  let p := provisioner.createPKI vc cv isClusterIP in
  let t := trace h p w in
  let certificate :=
    (vc, GetAPIServerDomain cv (ToClusterKey vc),
     provisioner.obtained_cluster_ip (log h p w)) in
  readings.apiserver_certificates t `prefix_of` [certificate]
  /\ (provisioner.kubeconfig_requests t <> []
      \/ readings.created_secrets t <> [] ->
      readings.apiserver_certificates t = [certificate]).
Proof.
  cbn zeta.
  destruct (createPKI_run h vc cv isClusterIP w _ _ _
              (run_parts h (provisioner.createPKI vc cv isClusterIP) w))
    as (_ & _ & Hpre & Hcert).
  by split.
Qed.

End MintingThePki.

Lemma createPKI_all_or_nothing_witness :
  let p := @provisioner.createPKI toy_pki spec_naming examples.demo_u1
             (examples.version "NodePort") false in
  let h := ask (scenarios.no_etcd_certificate (examples.version "NodePort")) in
  Exists (fun x => readings.generation_failed x = true) (log h p tt) /\
  readings.created_secrets (trace h p tt) = [] /\
  succeeded (result h p tt) = false.
Proof.
  cbn zeta.
  assert (Exists (fun x => readings.generation_failed x = true)
            (log (ask (scenarios.no_etcd_certificate (examples.version "NodePort")))
               (@provisioner.createPKI toy_pki spec_naming examples.demo_u1
                  (examples.version "NodePort") false) tt)) as Hfailed
    by (apply Exists_cons_tl, Exists_cons_hd; reflexivity).
  split; [exact Hfailed|].
  exact (@createPKI_all_or_nothing toy_pki spec_naming unit
           (ask (scenarios.no_etcd_certificate (examples.version "NodePort")))
           examples.demo_u1 (examples.version "NodePort") false tt Hfailed).
Defined.


(** ** Reading a secret back *)

Section SecretRoundTrip.
Context `{PkiMaterial}.

(** X14. What [CrtKeyPairToSecret] and [KubeconfigToSecret] store can be read
    back: the secret of a pair holds the PEM of the certificate under
    [tls.crt], the PEM of the key under [tls.key] and nothing else; the
    secret of a kubeconfig holds the content under the name of the secret and
    nothing else, so that name, namespace and content are determined by the
    secret. *)
Theorem secret_data_read_back (name namespace cfgContent : string)
    (ckp : CrtKeyPair) :
  (forall k,
      srt_data (secret.CrtKeyPairToSecret name namespace ckp) !! k
      = if String.eqb k TLSPrivateKeyKey then Some (EncodePrivateKeyPEM (Key ckp))
        else if String.eqb k TLSCertKey then Some (EncodeCertPEM (Crt ckp))
        else None)
  /\ (forall k,
        srt_data (secret.KubeconfigToSecret name namespace cfgContent) !! k
        = if String.eqb k name then Some cfgContent else None)
  /\ (forall name' namespace' cfgContent',
        secret.KubeconfigToSecret name namespace cfgContent
        = secret.KubeconfigToSecret name' namespace' cfgContent' ->
        name = name' /\ namespace = namespace' /\ cfgContent = cfgContent').
Proof.
  split_and!.
  - intros k. cbn [secret.CrtKeyPairToSecret srt_data].
    destruct (String.eqb_spec k TLSPrivateKeyKey) as [->|Hkey].
    { apply lookup_insert_eq. }
    rewrite lookup_insert_ne by done.
    destruct (String.eqb_spec k TLSCertKey) as [->|Hcrt].
    { apply lookup_insert_eq. }
    rewrite lookup_insert_ne by done. apply lookup_empty.
  - intros k. cbn [secret.KubeconfigToSecret srt_data].
    destruct (String.eqb_spec k name) as [->|Hk].
    { apply lookup_insert_eq. }
    rewrite lookup_insert_ne by done. apply lookup_empty.
  - intros name' namespace' cfgContent' E.
    pose proof (f_equal srt_name E) as Hname.
    pose proof (f_equal srt_namespace E) as Hnamespace.
    pose proof (f_equal (fun s => srt_data s !! name) E) as Hdata.
    cbn [secret.KubeconfigToSecret srt_name srt_namespace srt_data] in *.
    subst name' namespace'. rewrite !lookup_insert_eq in Hdata.
    split_and!; [reflexivity..|]. by injection Hdata.
Qed.

End SecretRoundTrip.

(** ** The patroller's handlers *)

(** Answer the next call of the environment [h], whose state is a variable. *)
Ltac answer h :=
  match goal with
  | |- context [h ?e ?w] =>
      is_var w;
      let x := fresh "x" in
      let w' := fresh "w" in
      destruct (h e w) as [x w']; cbn [fst snd]
  end.

Section PatrolHandlers.
Context `{Labels} `{Conversion}.

(** X15. [shouldBeGarbageCollected] issues no call at all exactly when the
    [vc.name] or the [vc.namespace] annotation of the namespace is missing or
    empty, and its verdict is then [false]: a namespace that names no owner
    is never garbage collected. *)
Theorem shouldBeGarbageCollected_unowned {W} (h : handler patrol.resp W)
    (ns : Namespace) (w : W) :
  let vcName := at_key (ns_annotations ns) LabelVCName in
  let vcNamespace := at_key (ns_annotations ns) LabelVCNamespace in
  (trace h (patrol.shouldBeGarbageCollected ns) w = []
   <-> vcName = "" \/ vcNamespace = "")
  /\ (vcName = "" \/ vcNamespace = "" ->
      result h (patrol.shouldBeGarbageCollected ns) w = false)
  /\ (ns_annotations ns !! LabelVCName = None -> vcName = "").
Proof.
  cbn zeta. unfold patrol.shouldBeGarbageCollected.
  destruct (String.eqb_spec (at_key (ns_annotations ns) LabelVCName) "")
    as [Hn|Hn]; cbn [orb].
  { split_and!; [by split; [left|] | done |].
    unfold at_key. by intros ->. }
  destruct (String.eqb_spec (at_key (ns_annotations ns) LabelVCNamespace) "")
    as [Hs|Hs].
  { split_and!; [by split; [right|] | done |].
    unfold at_key. by intros ->. }
  prog. split_and!.
  - split; [discriminate | by intros [?|?]].
  - by intros [?|?].
  - unfold at_key. by intros ->.
Qed.

(** X16. Whatever the environment answers, [shouldBeGarbageCollected] looks
    the owner up at most once in the informer cache and at most once on the
    API server, in this order and under the annotated namespace and name, and
    besides that only writes a log line: it deletes and re-queues nothing. *)
Theorem shouldBeGarbageCollected_lookups {W} (h : handler patrol.resp W)
    (ns : Namespace) (w : W) :
  let vcName := at_key (ns_annotations ns) LabelVCName in
  let vcNamespace := at_key (ns_annotations ns) LabelVCNamespace in
  let t := trace h (patrol.shouldBeGarbageCollected ns) w in
  readings.vc_lookups t
    `prefix_of` [patrol.ListerGet vcNamespace vcName;
                 patrol.ClientGet vcNamespace vcName]
  /\ Forall readings.reads_only t.
Proof.
  cbn zeta. unfold patrol.shouldBeGarbageCollected.
  destruct (_ || _); [split; [apply prefix_nil | constructor]|].
  prog. answer h.
  destruct x as [vc|err].
  - destruct (negb _); prog.
    + answer h. destruct x as [v|err]; prog;
        [destruct (negb _); prog|];
        cbn [readings.vc_lookups List.filter];
        (split; [done | by repeat constructor]).
    + cbn [readings.vc_lookups List.filter].
      split; [by eexists [_] | by repeat constructor].
  - destruct (IsNotFound err); prog.
    + answer h. destruct x as [v|err2]; prog;
        [|destruct (IsNotFound err2); prog];
        cbn [readings.vc_lookups List.filter];
        (split; [done | by repeat constructor]).
    + cbn [readings.vc_lookups List.filter].
      split; [by eexists [_] | by repeat constructor].
Qed.

Lemma deleteNamespace_no_lookup {W} (h : handler patrol.resp W)
    (ns : Namespace) (w : W) :
  readings.vc_lookups (trace h (patrol.deleteNamespace ns) w) = [].
Proof.
  unfold patrol.deleteNamespace. prog. answer h. by destruct x; prog.
Qed.

(** X17. The delete handler decides as follows.  A root namespace is deleted
    exactly when [shouldBeGarbageCollected] holds of it, also when its tenant
    cluster is known.  Any other namespace is deleted when the cluster that
    owns it is known, without any lookup of the VirtualCluster, and otherwise
    exactly when [shouldBeGarbageCollected] holds of it.  The deletion
    carries the UID of the observed object as precondition, and nothing is
    re-queued. *)
Theorem DeleteFunc_decision {W} (h : handler patrol.resp W)
    (known : gset string) (pObj : patrol.ClusterObject) (w : W) :
  let p := patrol.Object pObj in
  let root := String.eqb (at_key (ns_annotations p) LabelVCRootNS) "true" in
  let owner_known := bool_decide ((GetVirtualOwner p).1 ∈ known) in
  let gc := result h (patrol.shouldBeGarbageCollected p) w in
  let t := trace h (patrol.DeleteFunc known pObj) w in
  patrol.deletions t
  = (if (if root then gc else owner_known || gc)
     then [(ns_name p,
            {| patrol.opt_Preconditions :=
                 Some (patrol.NewUIDPreconditions (ns_uid p)) |})]
     else [])
  /\ patrol.requeues t = []
  /\ (root = false -> owner_known = true -> readings.vc_lookups t = []).
Proof.
  cbn zeta. unfold patrol.DeleteFunc.
  destruct (String.eqb _ "true").
  - rewrite trace_bind, deletions_app, requeues_app.
    destruct (shouldBeGarbageCollected_no_effect h (patrol.Object pObj) w)
      as [-> ->].
    destruct (result h _ w); cbn [app].
    + destruct (deleteNamespace_effect h (patrol.Object pObj)
                  (final h (patrol.shouldBeGarbageCollected (patrol.Object pObj)) w))
        as [-> ->].
      by split_and!.
    + by split_and!.
  - destruct (bool_decide _); cbn [orb].
    + destruct (deleteNamespace_effect h (patrol.Object pObj) w) as [-> ->].
      split_and!; [reflexivity..|]. intros _ _. apply deleteNamespace_no_lookup.
    + rewrite trace_bind, deletions_app, requeues_app.
      destruct (shouldBeGarbageCollected_no_effect h (patrol.Object pObj) w)
        as [-> ->].
      destruct (result h _ w); cbn [app].
      * destruct (deleteNamespace_effect h (patrol.Object pObj)
                    (final h (patrol.shouldBeGarbageCollected (patrol.Object pObj)) w))
          as [-> ->].
        by split_and!.
      * by split_and!.
Qed.

End PatrolHandlers.


(** ** The patroller's scan *)

Section PatrollerScan.
Context `{Labels} `{Conversion} `{Pooling} `{!patroller.Differ}.

(** Collecting the namespaces of one tenant cluster lists no cluster. *)
Lemma PatrollerDo_items_lists_nothing {W} (h : handler patroller.resp W)
    (cluster c : string) (items : list Namespace) :
  forall (vSet : patroller.DiffSet) (w : W),
    existsb (patroller.failed_listing c)
      (log h (patroller.PatrollerDo_items cluster items vSet) w) = false.
Proof.
  induction items as [|item rest IH]; intros vSet w;
    cbn [patroller.PatrollerDo_items]; [reflexivity|].
  unfold patroller.klog. prog. answer h. cbn [existsb patroller.failed_listing orb].
  destruct x; prog; [|apply IH].
  destruct (IsNamespaceScheduledToCluster item SuperClusterID); prog;
    [|apply IH].
  answer h. cbn [existsb patroller.failed_listing orb]. apply IH.
Qed.

(** X18. The set of known clusters that the scan hands to its delete handler
    holds the tenant clusters none of whose listings failed: the loop over the
    cluster names removes a cluster from the set exactly when listing its
    namespaces returns an error, and adds none. *)
Theorem PatrollerDo_clusters_known {W} (h : handler patroller.resp W)
    (clusterNames : list string) (knownClusterSet : gset string)
    (vSet : patroller.DiffSet) (w : W) (c : string) :
  let loop := patroller.PatrollerDo_clusters clusterNames knownClusterSet vSet in
  c ∈ (result h loop w).1
  <-> c ∈ knownClusterSet /\
      existsb (patroller.failed_listing c) (log h loop w) = false.
Proof.
  cbn zeta. revert knownClusterSet vSet w.
  induction clusterNames as [|cluster rest IH]; intros known vSet w;
    cbn [patroller.PatrollerDo_clusters].
  - prog. cbn [fst existsb]. split; [by intros ?; split | by intros [? _]].
  - unfold patroller.klog. prog. answer h.
    cbn [existsb patroller.failed_listing].
    destruct x as [items|err].
    + rewrite result_bind, log_bind, existsb_app.
      rewrite PatrollerDo_items_lists_nothing. cbn [orb]. apply IH.
    + prog. answer h. cbn [existsb patroller.failed_listing orb].
      rewrite IH. case_bool_decide as Hc; cbn [orb].
      * subst c. split; [|intros [_ ?]; discriminate].
        intros [Hin _]. apply elem_of_difference in Hin as [_ Hn].
        exfalso. apply Hn. by apply elem_of_singleton.
      * rewrite elem_of_difference, elem_of_singleton.
        split; [by intros [[? _] ?] | intros [? ?]].
        split; [split; [done|] | done]. by intros ->.
Qed.

(** X19. When the namespaces of the super cluster cannot be listed,
    [PatrollerDo] logs the error and returns: no tenant cluster is listed,
    the difference is not computed, and so nothing is deleted or re-queued in
    that round. *)
Theorem PatrollerDo_listing_fails {W} (h : handler patroller.resp W)
    (c : patrol.controller) (w : W) (err : GoError) :
  let t := trace h (patroller.PatrollerDo c) w in
  let note :=
    patroller.Handler
      (patrol.Klog patrol.Info
         "super cluster has no tenant control planes, still check namespace for gc purpose") in
  head (patroller.super_listings (log h (patroller.PatrollerDo c) w))
  = Some (inr err) ->
  (exists pre,
      t = pre ++ [patroller.NsListerList;
                  patroller.Handler
                    (patrol.Klog patrol.Error
                       ("error listing namespaces from super control plane informer cache: "
                        +:+ err_msg err))]
      /\ (pre = [patroller.GetClusterNames]
          \/ pre = [patroller.GetClusterNames; note]))
  /\ patrol.deletions (patroller.handled t) = []
  /\ patrol.requeues (patroller.handled t) = [].
Proof.
  cbn zeta. unfold patroller.PatrollerDo, patroller.klog. prog.
  destruct (h patroller.GetClusterNames w) as [names w1]. cbn [fst snd].
  destruct (length names =? 0)%nat; prog.
  - destruct (h (patroller.Handler _) w1) as [[] w2]. cbn [fst snd].
    destruct (h patroller.NsListerList w2) as [[pList|err'] w3]; cbn [fst snd];
      cbn [patroller.super_listings omap list_omap head]; [discriminate|].
    intros [= ->]. prog. split_and!; [|reflexivity..].
    eexists [_; _]. split; [reflexivity | by right].
  - destruct (h patroller.NsListerList w1) as [[pList|err'] w3]; cbn [fst snd];
      cbn [patroller.super_listings omap list_omap head]; [discriminate|].
    intros [= ->]. prog. split_and!; [|reflexivity..].
    eexists [_]. split; [reflexivity | by left].
Qed.

End PatrollerScan.

Lemma PatrollerDo_listing_fails_witness :
  head (patroller.super_listings
          (log (ask scenarios.cache_down)
             (@patroller.PatrollerDo spec_labels label_conversion toy_pooling
                spec_differ (@patrol.MkController label_conversion tt)) tt))
  = Some (inr (Errorf "informer cache is not synced"))
  /\ patrol.deletions
       (patroller.handled
          (trace (ask scenarios.cache_down)
             (@patroller.PatrollerDo spec_labels label_conversion toy_pooling
                spec_differ (@patrol.MkController label_conversion tt)) tt))
     = []
  /\ patrol.requeues
       (patroller.handled
          (trace (ask scenarios.cache_down)
             (@patroller.PatrollerDo spec_labels label_conversion toy_pooling
                spec_differ (@patrol.MkController label_conversion tt)) tt))
     = [].
Proof.
  assert (head (patroller.super_listings
                  (log (ask scenarios.cache_down)
                     (@patroller.PatrollerDo spec_labels label_conversion
                        toy_pooling spec_differ
                        (@patrol.MkController label_conversion tt)) tt))
          = Some (inr (Errorf "informer cache is not synced"))) as Hlist
    by reflexivity.
  split; [exact Hlist|].
  exact (proj2 (@PatrollerDo_listing_fails spec_labels label_conversion
                  toy_pooling spec_differ unit (ask scenarios.cache_down)
                  (@patrol.MkController label_conversion tt) tt _ Hlist)).
Defined.

(** ** Publishing a scheduling result *)

Section UpdateSchedulingResult.
Context `{PlacementMaps}.

Lemma update_attempts_app (l1 l2 : list (entry scheduler.resp)) :
  readings.update_attempts (l1 ++ l2)
  = readings.update_attempts l1 ++ readings.update_attempts l2.
Proof. apply omap_app. Qed.

(** One attempt: the update of the annotated working copy and, when it is
    refused, one read of the namespace, whose answer is the next working
    copy. *)
Lemma updateAttempt_run {W} (h : handler scheduler.resp W)
    (cluster : string) (pm : option (gmap string Z)) (clone : Namespace) (w : W) :
  let n := readings.annotated pm clone in
  let update := scheduler.NamespacesUpdate cluster n in
  let get := scheduler.NamespacesGet cluster (ns_name n) in
  let w1 := (h update w).2 in
  run h (scheduler.updateAttempt cluster pm clone) w
  = match (h update w).1 with
    | inl r => ((None, n), w1, [existT update (h update w).1])
    | inr e =>
        ((Some e, match (h get w1).1 with inl got => got | inr _ => n end),
         (h get w1).2,
         [existT update (h update w).1; existT get (h get w1).1])
    end.
Proof.
  cbn zeta. unfold scheduler.updateAttempt.
  change (match pm with
          | Some m => scheduler.set_annotations _ clone
          | None => scheduler.set_annotations _ clone
          end) with (readings.annotated pm clone).
  rewrite run_call_bind.
  destruct (h (scheduler.NamespacesUpdate _ _) w) as [[r|e] w1]; cbn [fst snd];
    [reflexivity|].
  prog.
  by destruct (h (scheduler.NamespacesGet _ _) w1) as [[got|e2] w2].
Qed.

(** The attempts of the retry loop. *)
Lemma RetryOnConflict_attempts {W} (h : handler scheduler.resp W)
    (cluster : string) (pm : option (gmap string Z)) (steps : nat) :
  forall (clone : Namespace) (lastErr : option GoError) (w : W),
    let p := scheduler.RetryOnConflict steps
               (scheduler.updateAttempt cluster pm) clone lastErr in
    let attempts := readings.update_attempts (log h p w) in
    (length attempts <= steps)%nat /\
    (forall i n a,
        attempts !! i = Some (n, a) -> (S i < length attempts)%nat ->
        exists e, a = inr e /\ IsConflict e = true) /\
    (forall n a,
        last attempts = Some (n, a) ->
        result h p w = match a with inl _ => None | inr e => Some e end) /\
    (attempts = [] -> result h p w = lastErr).
Proof.
  induction steps as [|steps IH]; intros clone lastErr w; cbn zeta.
  { cbn [scheduler.RetryOnConflict]. prog.
    split_and!; [done | by intros [|?] | done | done]. }
  cbn [scheduler.RetryOnConflict]. rewrite result_bind, log_bind.
  change (result h (scheduler.updateAttempt cluster pm clone) w)
    with (run h (scheduler.updateAttempt cluster pm clone) w).1.1.
  change (final h (scheduler.updateAttempt cluster pm clone) w)
    with (run h (scheduler.updateAttempt cluster pm clone) w).1.2.
  change (log h (scheduler.updateAttempt cluster pm clone) w)
    with (run h (scheduler.updateAttempt cluster pm clone) w).2.
  rewrite updateAttempt_run. cbn zeta.
  destruct (h (scheduler.NamespacesUpdate _ _) w) as [[r|e] w1]; cbn [fst snd].
  { prog. cbn [app readings.update_attempts omap list_omap length].
    split_and!; [lia | | by intros ? ? [= <- <-] | done].
    intros [|i] n a; cbn [lookup list_lookup]; [|by destruct i].
    intros _ Hlt. cbn [length] in Hlt. lia. }
  destruct (h (scheduler.NamespacesGet _ _) w1) as [g w2]; cbn [fst snd].
  destruct (IsConflict e) eqn:Hconflict.
  2:{ prog. cbn [app readings.update_attempts omap list_omap length].
      split_and!; [lia | | by intros ? ? [= <- <-] | done].
      intros [|i] n a; cbn [lookup list_lookup]; [|by destruct i].
      intros _ Hlt. cbn [length] in Hlt. lia. }
  match goal with
  | |- context [scheduler.RetryOnConflict steps _ ?c ?le] =>
      specialize (IH c le w2)
  end.
  cbn zeta in IH. destruct IH as (IHlen & IHmid & IHlast & IHnil).
  rewrite update_attempts_app.
  cbn [readings.update_attempts omap list_omap app length].
  split_and!.
  - cbn [length]. lia.
  - intros [|i] n a; cbn [lookup list_lookup length].
    + intros [= <- <-] _. by exists e.
    + intros Hi Hlt. apply (IHmid i n a Hi). lia.
  - intros n a. destruct (readings.update_attempts _) as [|x rest] eqn:Hrest.
    + cbn [last]. intros [= <- <-]. by apply IHnil.
    + intros Hlast. apply (IHlast n a). exact Hlast.
  - discriminate.
Qed.

(** X20. [updateSchedulingResult] sends at most four updates to the tenant
    API server.  Every update but the last was refused with a conflict; the
    answer to the last one decides the result, which is success exactly when
    the server accepted it.  When the client of the cluster cannot be
    obtained no update is sent. *)
Theorem updateSchedulingResult_retries {W} (h : handler scheduler.resp W)
    (cluster : string) (namespace : Namespace) (pm : option (gmap string Z))
    (w : W) :
  let p := scheduler.updateSchedulingResult cluster namespace pm in
  let attempts := readings.update_attempts (log h p w) in
  (length attempts <= 4)%nat /\
  (forall i n a,
      attempts !! i = Some (n, a) -> (S i < length attempts)%nat ->
      exists e, a = inr e /\ IsConflict e = true) /\
  (forall n a,
      last attempts = Some (n, a) ->
      result h p w = match a with inl _ => None | inr e => Some e end) /\
  (forall e,
      (h (scheduler.GetClusterClient cluster) w).1 = Some e ->
      attempts = [] /\
      result h p w
      = Some (Errorf ("failed to get vc " +:+ cluster +:+ "'s client: "
                      +:+ err_msg e))).
Proof.
  cbn zeta. unfold scheduler.updateSchedulingResult. prog.
  destruct (h (scheduler.GetClusterClient cluster) w) as [[e|] w1]; cbn [fst snd].
  - prog. cbn [readings.update_attempts omap list_omap length].
    split_and!; [lia | by intros [|?] | done |].
    by intros ? [= <-].
  - destruct (RetryOnConflict_attempts h cluster pm scheduler.DefaultBackoffSteps
                namespace None w1) as (Hlen & Hmid & Hlast & _).
    unfold readings.update_attempts in *. cbn [omap list_omap].
    split_and!; [exact Hlen | exact Hmid | exact Hlast | discriminate].
Qed.

(** The working copy of each attempt of the retry loop. *)
Lemma RetryOnConflict_bases {W} (h : handler scheduler.resp W)
    (cluster : string) (pm : option (gmap string Z)) (steps : nat) :
  forall (clone : Namespace) (lastErr : option GoError) (w : W),
    let p := scheduler.RetryOnConflict steps
               (scheduler.updateAttempt cluster pm) clone lastErr in
    (forall e,
        head (trace h p w) = Some e ->
        e = scheduler.NamespacesUpdate cluster (readings.annotated pm clone)) /\
    (forall i x got e,
        log h p w !! i = Some x -> readings.refreshed x = Some got ->
        trace h p w !! S i = Some e ->
        e = scheduler.NamespacesUpdate cluster (readings.annotated pm got)).
Proof.
  induction steps as [|steps IH]; intros clone lastErr w; cbn zeta.
  { cbn [scheduler.RetryOnConflict]. prog. split; [discriminate|].
    by intros [|?]. }
  cbn [scheduler.RetryOnConflict]. rewrite trace_bind, log_bind.
  unfold trace at 1 3.
  change (result h (scheduler.updateAttempt cluster pm clone) w)
    with (run h (scheduler.updateAttempt cluster pm clone) w).1.1.
  change (final h (scheduler.updateAttempt cluster pm clone) w)
    with (run h (scheduler.updateAttempt cluster pm clone) w).1.2.
  change (log h (scheduler.updateAttempt cluster pm clone) w)
    with (run h (scheduler.updateAttempt cluster pm clone) w).2.
  rewrite updateAttempt_run. cbn zeta.
  destruct (h (scheduler.NamespacesUpdate _ _) w) as [[r|e] w1]; cbn [fst snd].
  { prog. cbn [app map projT1 head].
    split; [by intros ? [= <-]|].
    intros [|i] x got e; cbn [lookup list_lookup]; [|by destruct i].
    by intros [= <-]. }
  destruct (h (scheduler.NamespacesGet _ _) w1) as [g w2]; cbn [fst snd].
  cbn [app map projT1 head].
  split; [by intros ? [= <-]|].
  destruct (IsConflict e).
  2:{ prog. intros [|[|i]] x got e0; cbn [lookup list_lookup]; [| |by destruct i].
      - by intros [= <-].
      - by intros _ _. }
  match goal with
  | |- context [scheduler.RetryOnConflict steps _ ?c ?le] =>
      destruct (IH c le w2) as [IHhead IHrest]
  end.
  intros [|[|i]] x got e0; cbn [lookup list_lookup].
  - by intros [= <-].
  - intros [= <-]. cbn [readings.refreshed].
    destruct g as [got'|err]; [|discriminate]. intros [= ->] Hhead.
    apply IHhead. rewrite head_lookup. exact Hhead.
  - apply IHrest.
Qed.

(** X21. Each update that [updateSchedulingResult] sends is the working copy
    with the placements published on it, or removed from it.  The first
    working copy is the reconciled namespace; after a refused update the
    namespace is read again, and when that read succeeds its answer is the
    working copy of the next attempt.  Publishing changes the placements
    annotation and nothing else: name, UID, labels and the other annotations
    are those of the working copy. *)
Theorem updateSchedulingResult_retry_base {W} (h : handler scheduler.resp W)
    (cluster : string) (namespace : Namespace) (pm : option (gmap string Z))
    (w : W) :
  let p := scheduler.updateSchedulingResult cluster namespace pm in
  (forall e,
      trace h p w !! 1%nat = Some e ->
      e = scheduler.NamespacesUpdate cluster (readings.annotated pm namespace))
  /\ (forall i x got e,
        log h p w !! i = Some x -> readings.refreshed x = Some got ->
        trace h p w !! S i = Some e ->
        e = scheduler.NamespacesUpdate cluster (readings.annotated pm got))
  /\ (forall base,
        let n := readings.annotated pm base in
        ns_name n = ns_name base /\ ns_uid n = ns_uid base /\
        ns_labels n = ns_labels base /\
        ns_annotations n !! LabelScheduledPlacements
        = (fun m => MarshalPlacements (Some m)) <$> pm /\
        forall k, k <> LabelScheduledPlacements ->
                  ns_annotations n !! k = ns_annotations base !! k).
Proof.
  cbn zeta. split_and!.
  - unfold scheduler.updateSchedulingResult. prog.
    destruct (h (scheduler.GetClusterClient cluster) w) as [[e|] w1];
      cbn [fst snd]; prog; cbn [lookup list_lookup]; [discriminate|].
    intros e Hhead.
    apply (RetryOnConflict_bases h cluster pm scheduler.DefaultBackoffSteps
             namespace None w1).
    rewrite head_lookup. exact Hhead.
  - unfold scheduler.updateSchedulingResult. prog.
    destruct (h (scheduler.GetClusterClient cluster) w) as [[e|] w1];
      cbn [fst snd]; prog.
    + intros [|i] x got e0; cbn [lookup list_lookup]; [|by destruct i].
      by intros [= <-].
    + intros [|i] x got e0; cbn [lookup list_lookup].
      * by intros [= <-].
      * apply (RetryOnConflict_bases h cluster pm scheduler.DefaultBackoffSteps
                 namespace None w1).
  - intros base. unfold readings.annotated.
    destruct pm as [m|];
      cbn [scheduler.set_annotations ns_name ns_uid ns_labels ns_annotations
           fmap option_fmap option_map];
      split_and!; try reflexivity.
    + apply lookup_insert_eq.
    + intros k Hk. by rewrite lookup_insert_ne.
    + apply lookup_delete_eq.
    + intros k Hk. by rewrite lookup_delete_ne.
Qed.

End UpdateSchedulingResult.

(** A conflict on the first update: the second update is the namespace as it
    was read again, with its new label and its other annotation, and without
    the placements. *)
Example updateSchedulingResult_after_conflict :
  trace scenarios.conflicting
    (@scheduler.updateSchedulingResult toy_scheduling "vc-a-demo"
       examples.tenant_ns None) 0%nat
  = [scheduler.GetClusterClient "vc-a-demo";
     scheduler.NamespacesUpdate "vc-a-demo"
       {| ns_name := "default"; ns_uid := "t1"; ns_labels := ∅;
          ns_annotations := delete "scheduled.placements" (ns_annotations examples.tenant_ns) |};
     scheduler.NamespacesGet "vc-a-demo" "default";
     scheduler.NamespacesUpdate "vc-a-demo"
       {| ns_name := "default"; ns_uid := "t1";
          ns_labels := <["team" := "blue"]> ∅;
          ns_annotations :=
            delete "scheduled.placements" (<["owner" := "alice"]> ∅) |}]
  /\ result scenarios.conflicting
       (@scheduler.updateSchedulingResult toy_scheduling "vc-a-demo"
          examples.tenant_ns None) 0%nat = None.
Proof. split; reflexivity. Qed.

(** ** Reconciling a namespace *)

Section ReconcileNamespace.
Context `{PlacementMaps}.

Lemma RetryOnConflict_no_preamble (cluster : string)
    (pm : option (gmap string Z)) (steps : nat) :
  forall (clone : Namespace) (lastErr : option GoError),
    every_call (fun e => readings.is_preamble e = false)
      (scheduler.RetryOnConflict steps (scheduler.updateAttempt cluster pm)
         clone lastErr).
Proof.
  induction steps as [|steps IH]; intros clone lastErr;
    cbn [scheduler.RetryOnConflict]; [constructor|].
  unfold scheduler.updateAttempt, call. cbn [bind].
  constructor; [reflexivity|]. intros [r|e]; cbn [bind]; [constructor|].
  constructor; [reflexivity|]. intros [got|e2]; cbn [bind];
    (destruct (IsConflict e); [apply IH | constructor]).
Qed.

Lemma updateSchedulingResult_no_preamble (cluster : string)
    (namespace : Namespace) (pm : option (gmap string Z)) :
  every_call (fun e => readings.is_preamble e = false)
    (scheduler.updateSchedulingResult cluster namespace pm).
Proof.
  unfold scheduler.updateSchedulingResult, call. cbn [bind].
  constructor; [reflexivity|]. intros [e|]; [constructor|].
  apply RetryOnConflict_no_preamble.
Qed.

(** From the computation of the expected slices on, [Reconcile] gathers
    nothing any more. *)
Lemma Reconcile_schedule_no_preamble (request : scheduler.Request)
    (namespace : Namespace) (quota : gmap string Quantity)
    (placements : gmap string Z) (quotaSlice : gmap string Quantity) :
  every_call (fun e => readings.is_preamble e = false)
    (scheduler.Reconcile_schedule request namespace quota placements quotaSlice).
Proof.
  unfold scheduler.Reconcile_schedule.
  destruct (_ =? 0).
  { apply every_call_bind; [apply updateSchedulingResult_no_preamble|].
    intros [e|]; cbn [scheduler.failing bindO bind]; [constructor|].
    unfold call. cbn [bind]. constructor; [reflexivity|].
    intros [e|]; cbn [scheduler.failing bind]; constructor. }
  destruct (_ =? _).
  { unfold call. cbn [bind bindO]. constructor; [reflexivity|].
    intros [e|]; cbn [scheduler.failing bind]; constructor. }
  unfold call. cbn [bind]. constructor; [reflexivity|].
  intros [ret|err]; cbn [bind].
  - apply every_call_bind; [apply updateSchedulingResult_no_preamble|].
    intros [e|]; [constructor|]. cbn [bind].
    constructor; [reflexivity|]. intros _.
    constructor; [reflexivity|]. intros [e|]; constructor.
  - constructor; [reflexivity|]. intros _. constructor.
Qed.

Lemma no_preamble_no_dirty_answer {W R} (h : handler scheduler.resp W)
    (p : Prog scheduler.resp R) (w : W) :
  every_call (fun e => readings.is_preamble e = false) p ->
  readings.dirty_answers (log h p w) = [].
Proof.
  intros Hp. pose proof (every_call_trace _ _ Hp h w) as Hall.
  unfold trace in Hall. rewrite Forall_map in Hall.
  apply omap_none. eapply Forall_impl; [exact Hall|].
  intros [e r] He. cbn [projT1] in He. by destruct e.
Qed.

Lemma Reconcile_dirty_run {W} (h : handler scheduler.resp W)
    (request : scheduler.Request) (w : W) (o : Outcome scheduler.Result)
    (w' : W) (l : list (entry scheduler.resp)) :
  run h (scheduler.Reconcile request) w = (o, w', l) ->
  let d := readings.dirty_answers l in
  (d = [] \/ d = [true] \/ d = [false])
  /\ (d <> [false] ->
      Forall (fun e => readings.is_engine e = false /\
                       scheduler.is_tenant_api e = false)
        (map (fun x : entry scheduler.resp => projT1 x) l))
  /\ (d = [true] ->
      o = Done {| scheduler.RequeueAfter := 5 * scheduler.Second |}).
Proof.
  unfold scheduler.Reconcile. intros Hrun. forward h Hrun.
  all: try match type of Hrun with
           | context [GetSchedulingInfo ?n] =>
               destruct (GetSchedulingInfo n) as [[placements quotaSlice]|?];
               forward h Hrun
           end.
  all: try match type of Hrun with
           | run _ (scheduler.Reconcile_schedule ?r ?n ?q ?p ?s) ?w0 = _ =>
               pose proof (no_preamble_no_dirty_answer h _ w0
                             (Reconcile_schedule_no_preamble r n q p s)) as Hd;
               unfold log in Hd; rewrite Hrun in Hd; cbn [snd] in Hd
           end.
  all: cbn zeta; cbn [readings.dirty_answers omap list_omap map projT1 fst snd];
    try (unfold readings.dirty_answers in Hd; rewrite Hd);
    first
      [ split_and!; [by left | intros _; by repeat constructor | discriminate]
      | split_and!; [by right; left | intros _; by repeat constructor | done]
      | split_and!; [by right; right | done | discriminate] ].
Qed.

(** X22. [Reconcile] asks at most once whether the virtual cluster is in the
    dirty set.  Unless the answer is no, it calls neither the scheduler
    engine nor the tenant API server; when the answer is yes it returns for a
    re-queue after five seconds, without an error. *)
Theorem Reconcile_waits_for_clean_cache {W} (h : handler scheduler.resp W)
    (request : scheduler.Request) (w : W) :
  let p := scheduler.Reconcile request in
  let d := readings.dirty_answers (log h p w) in
  (d = [] \/ d = [true] \/ d = [false])
  /\ (d <> [false] ->
      Forall (fun e => readings.is_engine e = false /\
                       scheduler.is_tenant_api e = false) (trace h p w))
  /\ (d = [true] ->
      result h p w
      = Done {| scheduler.RequeueAfter := 5 * scheduler.Second |}).
Proof.
  exact (Reconcile_dirty_run h request w _ _ _
           (run_parts h (scheduler.Reconcile request) w)).
Qed.

End ReconcileNamespace.

(** ** The outcomes of a reconcile *)

Section ReconcileOutcomes.
Context `{PlacementMaps}.

Lemma tenant_api_no_engine (t : list scheduler.Ev) :
  Forall (fun e => scheduler.is_tenant_api e = true) t ->
  List.filter readings.is_engine t = [].
Proof.
  induction 1 as [|e t He _ IH]; [reflexivity|].
  cbn [List.filter]. rewrite IH. by destruct e.
Qed.

Lemma tenant_api_no_event (l : list (entry scheduler.resp)) :
  Forall (fun e => scheduler.is_tenant_api e = true)
    (map (fun x : entry scheduler.resp => projT1 x) l) ->
  omap readings.scheduled_event l = [].
Proof.
  intros Hall. rewrite Forall_map in Hall. apply omap_none.
  eapply Forall_impl; [exact Hall|].
  intros [e r] He. cbn [projT1] in He. by destruct e.
Qed.

(** The runs of [Reconcile_schedule]: the quota is gone, the placements are
    consistent, the engine refuses, the publication fails, or the result is
    published and announced. *)
Lemma Reconcile_schedule_run {W} (h : handler scheduler.resp W)
    (request : scheduler.Request) (namespace : Namespace)
    (quota : gmap string Quantity) (placements : gmap string Z)
    (quotaSlice : gmap string Quantity) (w : W)
    (o : Outcome scheduler.Result) (w' : W) (l : list (entry scheduler.resp)) :
  run h (scheduler.Reconcile_schedule request namespace quota placements
           quotaSlice) w = (o, w', l) ->
  let cluster := scheduler.ClusterName request in
  let key := cluster +:+ "/" +:+ scheduler.Name request in
  (exists lu,
      Forall (fun e => scheduler.is_tenant_api e = true)
        (map (fun x : entry scheduler.resp => projT1 x) lu) /\
      ((l = lu /\ exists e, o = Raise e) \/
       (exists r : option GoError,
           l = lu ++ [existT (scheduler.DeScheduleNamespace key) r] /\
           match r with
           | None => o = Done {| scheduler.RequeueAfter := 0 |}
           | Some _ => exists e, o = Raise e
           end))) \/
  (exists c (r : option GoError),
      l = [existT (scheduler.EnsureNamespacePlacements c) r] /\
      match r with
      | None => o = Done {| scheduler.RequeueAfter := 0 |}
      | Some _ => exists e, o = Raise e
      end) \/
  (exists c err ref msg (r : option GoError),
      l = [existT (scheduler.ScheduleNamespace c) (inr err);
           existT (scheduler.Eventf cluster ref scheduler.EventTypeNormal
                     "Failed" msg) r] /\
      exists e, o = Raise e) \/
  (exists c ret lu e,
      l = existT (scheduler.ScheduleNamespace c) (inl ret) :: lu /\
      Forall (fun e => scheduler.is_tenant_api e = true)
        (map (fun x : entry scheduler.resp => projT1 x) lu) /\
      o = Raise e) \/
  (exists c ret pre n (r : Namespace) line ref msg (re : option GoError),
      l = existT (scheduler.ScheduleNamespace c) (inl ret)
          :: pre
          ++ [existT (scheduler.NamespacesUpdate cluster n) (inl r);
              existT (scheduler.Klog scheduler.Info line) tt;
              existT (scheduler.Eventf cluster ref scheduler.EventTypeNormal
                        "Scheduled" msg) re] /\
      Forall (fun e => scheduler.is_tenant_api e = true)
        (map (fun x : entry scheduler.resp => projT1 x) pre) /\
      o = match re with
          | Some e => Raise e
          | None => Done {| scheduler.RequeueAfter := 0 |}
          end).
Proof.
  intros Hrun. cbn zeta. unfold scheduler.Reconcile_schedule in Hrun.
  destruct (_ =? 0) in Hrun.
  { left. rewrite run_bind in Hrun.
    destruct (updateSchedulingResult_trace h (scheduler.ClusterName request)
                namespace None w) as (_ & Hapi & _).
    unfold trace in Hapi. eexists. split; [exact Hapi|].
    destruct (result h (scheduler.updateSchedulingResult _ _ _) w) as [e|];
      cbn [scheduler.failing bindO bind] in Hrun.
    - left. injection Hrun as <- <- <-. prog. rewrite app_nil_r.
      split; [reflexivity | by eexists].
    - right. unfold call in Hrun. cbn [bind] in Hrun.
      destruct (h (scheduler.DeScheduleNamespace
                     (scheduler.ClusterName request +:+ "/"
                      +:+ scheduler.Name request))
                  (final h (scheduler.updateSchedulingResult
                              (scheduler.ClusterName request) namespace None) w))
        as [r w1] eqn:Hr.
      injection Hrun as <- <- <-. prog. rewrite Hr. cbn [fst snd].
      exists r. destruct r as [e|]; cbn [scheduler.failing bind]; prog;
        (split; [reflexivity|]); [by eexists | reflexivity]. }
  destruct (_ =? _) in Hrun.
  { right; left. unfold call in Hrun. cbn [bind bindO] in Hrun.
    apply run_Vis_inv in Hrun as (l1 & -> & Hrun).
    destruct (h (scheduler.EnsureNamespacePlacements _) w) as [[e|] w1];
      cbn [fst snd scheduler.failing bindO bind] in Hrun;
      apply run_Ret_inv in Hrun as (-> & -> & ->);
      eexists _, _; (split; [reflexivity|]); [by eexists | reflexivity]. }
  right; right.
  unfold call in Hrun. cbn [bind] in Hrun.
  apply run_Vis_inv in Hrun as (l1 & -> & Hrun).
  destruct (h (scheduler.ScheduleNamespace _) w) as [[ret|err] w1];
    cbn [fst snd] in Hrun.
  2:{ left. forward h Hrun. eexists _, _, _, _, _.
      split; [reflexivity | by eexists]. }
  right. rewrite run_bind in Hrun.
  destruct (updateSchedulingResult_trace h (scheduler.ClusterName request)
              namespace (GetPlacementMap ret) w1) as (_ & Hapi & _).
  unfold trace in Hapi.
  destruct (result h (scheduler.updateSchedulingResult _ _ _) w1) as [e|] eqn:Hres.
  - left. injection Hrun as <- <- <-. prog. rewrite app_nil_r.
    by eexists _, _, _, _.
  - right. apply updateSchedulingResult_success in Hres as (pre & n & r & Hlog).
    rewrite Hlog in Hapi. rewrite map_app in Hapi.
    apply Forall_app in Hapi as [Hpre _].
    injection Hrun as <- <- <-. prog. rewrite Hlog.
    destruct (h (scheduler.Klog _ _) _) as [[] w2]; cbn [fst snd].
    destruct (h (scheduler.Eventf _ _ _ _ _) w2) as [re w3]; cbn [fst snd].
    eexists _, _, pre, n, r, _, _, _, re.
    split; [by destruct re; prog; rewrite <- app_assoc|].
    split; [exact Hpre|]. by destruct re; prog.
Qed.

Lemma Reconcile_schedule_engine {W} (h : handler scheduler.resp W)
    (request : scheduler.Request) (namespace : Namespace)
    (quota : gmap string Quantity) (placements : gmap string Z)
    (quotaSlice : gmap string Quantity) (w : W)
    (o : Outcome scheduler.Result) (w' : W) (l : list (entry scheduler.resp)) :
  run h (scheduler.Reconcile_schedule request namespace quota placements
           quotaSlice) w = (o, w', l) ->
  let t := map (fun x : entry scheduler.resp => projT1 x) l in
  let calls := List.filter readings.is_engine t in
  (length calls <= 1)%nat
  /\ (o = Done {| scheduler.RequeueAfter := 0 |} -> length calls = 1%nat)
  /\ (forall c, calls = [scheduler.EnsureNamespacePlacements c] ->
      Forall (fun e => scheduler.is_tenant_api e = false) t).
Proof.
  intros Hrun. cbn zeta.
  apply Reconcile_schedule_run in Hrun
    as [(lu & Hlu & [[-> [e ->]]|(r & -> & Ho)])
       |[(c & r & -> & Ho)
        |[(c & err & ref & msg & r & -> & e & ->)
         |[(c & ret & lu & e & -> & Hlu & ->)
          |(c & ret & pre & n & r & line & ref & msg & re & -> & Hpre & ->)]]]].
  - rewrite (tenant_api_no_engine _ Hlu). cbn [length].
    split_and!; [lia | discriminate | discriminate].
  - rewrite map_app, List.filter_app, (tenant_api_no_engine _ Hlu).
    cbn [map projT1 List.filter readings.is_engine app length].
    split_and!; [lia | reflexivity | discriminate].
  - cbn [map projT1 List.filter readings.is_engine length].
    split_and!; [lia | reflexivity | intros _ _; by repeat constructor].
  - cbn [map projT1 List.filter readings.is_engine length].
    split_and!; [lia | discriminate | discriminate].
  - pose proof (tenant_api_no_engine _ Hlu) as E. unfold entry in E |- *.
    rewrite map_cons. cbn [projT1 List.filter readings.is_engine].
    rewrite E. cbn [length].
    split_and!; [lia | discriminate | discriminate].
  - pose proof (tenant_api_no_engine _ Hpre) as E. unfold entry in E |- *.
    rewrite map_cons, map_app. cbn [projT1 List.filter readings.is_engine].
    rewrite List.filter_app, E.
    cbn [map projT1 List.filter readings.is_engine app length].
    split_and!; [lia | reflexivity | discriminate].
Qed.

Lemma Reconcile_engine_run {W} (h : handler scheduler.resp W)
    (request : scheduler.Request) (w : W) (o : Outcome scheduler.Result)
    (w' : W) (l : list (entry scheduler.resp)) :
  run h (scheduler.Reconcile request) w = (o, w', l) ->
  let t := map (fun x : entry scheduler.resp => projT1 x) l in
  let calls := List.filter readings.is_engine t in
  (length calls <= 1)%nat
  /\ (o = Done {| scheduler.RequeueAfter := 0 |} -> length calls = 1%nat)
  /\ (forall c, calls = [scheduler.EnsureNamespacePlacements c] ->
      Forall (fun e => scheduler.is_tenant_api e = false) t).
Proof.
  unfold scheduler.Reconcile. intros Hrun. forward h Hrun.
  all: try match type of Hrun with
           | context [GetSchedulingInfo ?n] =>
               destruct (GetSchedulingInfo n) as [[placements quotaSlice]|?];
               forward h Hrun
           end.
  all: try match type of Hrun with
           | run _ (scheduler.Reconcile_schedule _ _ _ _ _) _ = _ =>
               apply Reconcile_schedule_engine in Hrun as (Hle & Hone & Hens)
           end.
  all: cbn zeta; cbn [map projT1 List.filter readings.is_engine length].
  all: first
         [ split_and!;
           [ exact Hle | exact Hone
           | intros c Hc; repeat (apply Forall_cons_2; [reflexivity|]);
             exact (Hens c Hc) ]
         | split_and!; [lia | reflexivity | discriminate]
         | split_and!; [lia | discriminate | discriminate] ].
Qed.

(** X23. Every run of [Reconcile] calls the scheduler engine at most once, and
    a run that returns without an error and without a re-queue has called it
    exactly once.  When that call is [EnsureNamespacePlacements], the tenant
    API server is not contacted at all. *)
Theorem Reconcile_one_engine_call {W} (h : handler scheduler.resp W)
    (request : scheduler.Request) (w : W) :
  let p := scheduler.Reconcile request in
  let calls := List.filter readings.is_engine (trace h p w) in
  (length calls <= 1)%nat
  /\ (result h p w = Done {| scheduler.RequeueAfter := 0 |} ->
      length calls = 1%nat)
  /\ (forall c, calls = [scheduler.EnsureNamespacePlacements c] ->
      Forall (fun e => scheduler.is_tenant_api e = false) (trace h p w)).
Proof.
  exact (Reconcile_engine_run h request w _ _ _
           (run_parts h (scheduler.Reconcile request) w)).
Qed.

Lemma Reconcile_removed_run {W} (h : handler scheduler.resp W)
    (request : scheduler.Request) (w : W) (err : GoError)
    (o : Outcome scheduler.Result) (w' : W) (l : list (entry scheduler.resp)) :
  run h (scheduler.Reconcile request) w = (o, w', l) ->
  readings.namespace_answers l = [inr err] ->
  let cluster := scheduler.ClusterName request in
  let name := scheduler.Name request in
  let t := map (fun x : entry scheduler.resp => projT1 x) l in
  Forall (fun e => scheduler.is_tenant_api e = false) t
  /\ if IsNotFound err then
       exists r : option GoError,
         last l = Some (existT (scheduler.DeScheduleNamespace
                                  (cluster +:+ "/" +:+ name)) r)
         /\ List.filter readings.is_engine t
            = [scheduler.DeScheduleNamespace (cluster +:+ "/" +:+ name)]
         /\ o = match r with
                | None => Done {| scheduler.RequeueAfter := 0 |}
                | Some e =>
                    Raise (Errorf ("failed to unreserve namespace " +:+ name
                                   +:+ " in " +:+ cluster +:+ ": "
                                   +:+ err_msg e))
                end
     else List.filter readings.is_engine t = [] /\ o = Raise err.
Proof.
  unfold scheduler.Reconcile. intros Hrun. forward h Hrun.
  all: try match type of Hrun with
           | context [GetSchedulingInfo ?n] =>
               destruct (GetSchedulingInfo n) as [[placements quotaSlice]|?];
               forward h Hrun
           end.
  all: cbn [readings.namespace_answers omap list_omap]; try discriminate.
  all: intros [= ->]; cbn zeta; try rewrite Hnf;
    cbn [map projT1 List.filter readings.is_engine].
  all: (split; [by repeat constructor|]).
  all: first [ by split | by eexists ].
Qed.

(** X24. When the lookup of the reconciled namespace fails, [Reconcile] does
    not contact the tenant API server.  After a NotFound answer it releases
    the namespace's entry [<cluster>/<name>] from the scheduler cache, as its
    last and only engine call, and returns the wrapped error of the release
    if there is one; any other lookup error is returned as it is, without an
    engine call. *)
Theorem Reconcile_removed_namespace {W} (h : handler scheduler.resp W)
    (request : scheduler.Request) (w : W) (err : GoError) :
  let p := scheduler.Reconcile request in
  let cluster := scheduler.ClusterName request in
  let name := scheduler.Name request in
  readings.namespace_answers (log h p w) = [inr err] ->
  Forall (fun e => scheduler.is_tenant_api e = false) (trace h p w)
  /\ if IsNotFound err then
       exists r : option GoError,
         last (log h p w)
         = Some (existT (scheduler.DeScheduleNamespace
                           (cluster +:+ "/" +:+ name)) r)
         /\ List.filter readings.is_engine (trace h p w)
            = [scheduler.DeScheduleNamespace (cluster +:+ "/" +:+ name)]
         /\ result h p w
            = match r with
              | None => Done {| scheduler.RequeueAfter := 0 |}
              | Some e =>
                  Raise (Errorf ("failed to unreserve namespace " +:+ name
                                 +:+ " in " +:+ cluster +:+ ": "
                                 +:+ err_msg e))
              end
     else List.filter readings.is_engine (trace h p w) = []
          /\ result h p w = Raise err.
Proof.
  intros p cluster name Hanswer.
  exact (Reconcile_removed_run h request w err _ _ _
           (run_parts h (scheduler.Reconcile request) w) Hanswer).
Qed.

End ReconcileOutcomes.

Lemma Reconcile_removed_namespace_witness :
  readings.namespace_answers
    (log (ask scenarios.removed)
       (@scheduler.Reconcile _ toy_placement_maps examples.request) tt)
  = [inr examples.NotFoundErr]
  /\ exists r : option GoError,
       last (log (ask scenarios.removed)
               (@scheduler.Reconcile _ toy_placement_maps examples.request) tt)
       = Some (existT (scheduler.DeScheduleNamespace "vc-a-demo/default") r)
       /\ result (ask scenarios.removed)
            (@scheduler.Reconcile _ toy_placement_maps examples.request) tt
          = match r with
            | None => Done {| scheduler.RequeueAfter := 0 |}
            | Some e =>
                Raise (Errorf ("failed to unreserve namespace default in vc-a-demo: "
                               +:+ err_msg e))
            end.
Proof.
  assert (readings.namespace_answers
            (log (ask scenarios.removed)
               (@scheduler.Reconcile _ toy_placement_maps examples.request) tt)
          = [inr examples.NotFoundErr]) as Hanswer by reflexivity.
  split; [exact Hanswer|].
  destruct (proj2 (@Reconcile_removed_namespace _ toy_placement_maps unit
                     (ask scenarios.removed) examples.request tt
                     examples.NotFoundErr Hanswer))
    as (r & Hlast & _ & Hres).
  exists r. split; [exact Hlast | exact Hres].
Defined.

(** ** Announcing a scheduling result *)

Section ScheduledEvent.
Context `{PlacementMaps}.

Lemma Reconcile_schedule_event {W} (h : handler scheduler.resp W)
    (request : scheduler.Request) (namespace : Namespace)
    (quota : gmap string Quantity) (placements : gmap string Z)
    (quotaSlice : gmap string Quantity) (w : W)
    (o : Outcome scheduler.Result) (w' : W) (l : list (entry scheduler.resp))
    (re : option GoError) :
  run h (scheduler.Reconcile_schedule request namespace quota placements
           quotaSlice) w = (o, w', l) ->
  In re (omap readings.scheduled_event l) ->
  o = match re with
      | Some e => Raise e
      | None => Done {| scheduler.RequeueAfter := 0 |}
      end
  /\ exists pre n (r : Namespace) line ref msg,
       l = pre
           ++ [existT (scheduler.NamespacesUpdate
                         (scheduler.ClusterName request) n) (inl r);
               existT (scheduler.Klog scheduler.Info line) tt;
               existT (scheduler.Eventf (scheduler.ClusterName request) ref
                         scheduler.EventTypeNormal "Scheduled" msg) re].
Proof.
  intros Hrun.
  apply Reconcile_schedule_run in Hrun
    as [(lu & Hlu & [[-> [e ->]]|(r & -> & Ho)])
       |[(c & r & -> & Ho)
        |[(c & err & ref & msg & r & -> & e & ->)
         |[(c & ret & lu & e & -> & Hlu & ->)
          |(c & ret & pre & n & r & line & ref & msg & re' & -> & Hpre & ->)]]]].
  - rewrite (tenant_api_no_event _ Hlu). intros [].
  - rewrite omap_app, (tenant_api_no_event _ Hlu). intros [].
  - intros [].
  - intros [].
  - pose proof (tenant_api_no_event _ Hlu) as E. unfold entry in E |- *.
    cbn [omap list_omap readings.scheduled_event]. rewrite E. intros [].
  - pose proof (tenant_api_no_event _ Hpre) as E. unfold entry in E |- *.
    cbn [omap list_omap readings.scheduled_event].
    rewrite omap_app. unfold omap in E |- *. rewrite E.
    intros [<-|[]]. split; [reflexivity|].
    by eexists (_ :: pre), n, r, line, ref, msg.
Qed.

Lemma Reconcile_event_run {W} (h : handler scheduler.resp W)
    (request : scheduler.Request) (w : W) (re : option GoError)
    (o : Outcome scheduler.Result) (w' : W) (l : list (entry scheduler.resp)) :
  run h (scheduler.Reconcile request) w = (o, w', l) ->
  In re (omap readings.scheduled_event l) ->
  o = match re with
      | Some e => Raise e
      | None => Done {| scheduler.RequeueAfter := 0 |}
      end
  /\ exists pre n (r : Namespace) line ref msg,
       l = pre
           ++ [existT (scheduler.NamespacesUpdate
                         (scheduler.ClusterName request) n) (inl r);
               existT (scheduler.Klog scheduler.Info line) tt;
               existT (scheduler.Eventf (scheduler.ClusterName request) ref
                         scheduler.EventTypeNormal "Scheduled" msg) re].
Proof.
  unfold scheduler.Reconcile. intros Hrun. forward h Hrun.
  all: try match type of Hrun with
           | context [GetSchedulingInfo ?n] =>
               destruct (GetSchedulingInfo n) as [[placements quotaSlice]|?];
               forward h Hrun
           end.
  all: cbn [omap list_omap readings.scheduled_event]; try (by intros []).
  all: intros Hev;
    destruct (Reconcile_schedule_event h _ _ _ _ _ _ _ _ _ re Hrun Hev)
      as (Ho & pre & n' & r' & line & ref & msg & ->).
  all: split; [exact Ho|];
    by eexists (_ :: _ :: _ :: _ :: _ :: pre), n', r', line, ref, msg.
Qed.

(** X25. Whenever a run of [Reconcile] emits the [Scheduled] event, the event
    is the last call of the run, and it follows, after one log line, an
    annotation update that the tenant API server accepted.  The answer to
    the event is the outcome of the reconcile, so that an event that cannot
    be recorded makes [Reconcile] return an error although the placements
    are published. *)
Theorem Reconcile_scheduled_event_outcome {W} (h : handler scheduler.resp W)
    (request : scheduler.Request) (w : W) (re : option GoError) :
  let p := scheduler.Reconcile request in
  In re (omap readings.scheduled_event (log h p w)) ->
  result h p w = match re with
                 | Some e => Raise e
                 | None => Done {| scheduler.RequeueAfter := 0 |}
                 end
  /\ exists pre n (r : Namespace) line ref msg,
       log h p w
       = pre
         ++ [existT (scheduler.NamespacesUpdate
                       (scheduler.ClusterName request) n) (inl r);
             existT (scheduler.Klog scheduler.Info line) tt;
             existT (scheduler.Eventf (scheduler.ClusterName request) ref
                       scheduler.EventTypeNormal "Scheduled" msg) re].
Proof.
  intros p Hev.
  exact (Reconcile_event_run h request w re _ _ _
           (run_parts h (scheduler.Reconcile request) w) Hev).
Qed.

End ScheduledEvent.

Lemma Reconcile_scheduled_event_outcome_witness :
  In (Some (Errorf "event sink unavailable"))
    (omap readings.scheduled_event
       (log (ask scenarios.event_lost)
          (@scheduler.Reconcile _ toy_placement_maps examples.request) tt))
  /\ result (ask scenarios.event_lost)
       (@scheduler.Reconcile _ toy_placement_maps examples.request) tt
     = Raise (Errorf "event sink unavailable").
Proof.
  assert (In (Some (Errorf "event sink unavailable"))
            (omap readings.scheduled_event
               (log (ask scenarios.event_lost)
                  (@scheduler.Reconcile _ toy_placement_maps examples.request)
                  tt))) as Hev by (left; reflexivity).
  split; [exact Hev|].
  exact (proj1 (@Reconcile_scheduled_event_outcome _ toy_placement_maps unit
                  (ask scenarios.event_lost) examples.request tt _ Hev)).
Defined.
